(** * SentinelX: the uninstaller and the report helpers, verified

    A shallow embedding of [sentinelx_uninstall.py] and of the report
    helpers of [sentinelx/core/reporting.py].

    The programs are one-shot imperative workflows over the file system, the
    console and the package manager.  They are embedded as computations in a
    small state-and-exception monad over an explicit world:

    - the file system is a finite map from physical absolute paths to nodes
      (regular file, directory, symbolic link), with the path walk of the
      operating system written out ([walk], [stat], [lstat]);
    - what the program cannot decide (which deletions the operating system
      refuses, how the package manager answers, what the operator types) is
      read from an immutable environment [env];
    - [console.print] and process launches are recorded in a trace.

    Modelling boundaries, stated once: status queries ([exists], [is_dir],
    [is_symlink]) do not fail; [Path.resolve] follows Python 3.13 and later
    (no exception on a symlink loop in non-strict mode); path components are
    plain names (no [..]); operator interrupts are not modelled; [main] is
    taken from the point where the command line has been parsed, and the
    confirmation prompt, when shown, gets a line of input. *)

From stdpp Require Import gmap strings list fin_maps.
From Stdlib Require Import ZArith Ascii String.

Open Scope string_scope.
Open Scope list_scope.
Open Scope stdpp_scope.

(** ** Paths and file-system nodes *)

Abbreviation path := (list string).

Inductive node : Type :=
  | File (data : string)
  | Dir
  | Link (target : path).

#[global] Instance node_eq_dec : EqDecision node.
Proof. solve_decision. Defined.

Abbreviation FS := (gmap path node).

(** A Python path object as the sources build them: absolute, or written
    with the home shorthand [~] that [expanduser] replaces. *)
Inductive pypath : Type :=
  | Abs (p : path)
  | Tilde (p : path).

(** [str(path)] for an absolute path. *)
Definition show_path (p : path) : string :=
  match p with
  | [] => "/"
  | _ => String.concat EmptyString (map (fun c => "/" +:+ c) p)
  end.

(** Splitting a relative name such as ["sentinelx/config/tools.yaml"] into
    its components, as the [/] operator of [pathlib] does. *)
Fixpoint split_slash (acc : string) (s : string) : list string :=
  match s with
  | EmptyString => if decide (acc = EmptyString) then [] else [acc]
  | String c s' =>
      if decide (c = "/"%char)
      then (if decide (acc = EmptyString) then [] else [acc]) ++ split_slash EmptyString s'
      else split_slash (acc +:+ String c EmptyString) s'
  end.

Definition pjoin (p : path) (name : string) : path := p ++ split_slash EmptyString name.

(** ** Path resolution *)

Inductive walk_result : Type :=
  | Done (p : path) (n : node)
  | Follow (p : path)
  | Lost.

(** One pass of the kernel's path walk: starting in the directory [cur]
    (whose node is [here]) descend along [rest].  The pass stops at the first
    symbolic link and returns the path that remains to be walked from the
    root; link targets are absolute. *)
Fixpoint walk (fs : FS) (cur : path) (here : node) (rest : path) : walk_result :=
  match rest with
  | [] => Done cur here
  | c :: rest' =>
      match here with
      | Dir =>
          match fs !! (cur ++ [c]) with
          | Some (Link tgt) => Follow (tgt ++ rest')
          | Some n => walk fs (cur ++ [c]) n rest'
          | None => Lost
          end
      | _ => Lost
      end
  end.

(** The kernel gives up with ELOOP after this many links. *)
Definition MAXSYMLINKS : nat := 40.

(** Restarting the walk at a link. *)
Definition follow_link (fs : FS) (r : walk_result) : walk_result :=
  match r with
  | Done q n => Done q n
  | Follow p' => walk fs [] Dir p'
  | Lost => Lost
  end.

Fixpoint follow_links (k : nat) (fs : FS) (r : walk_result) : walk_result :=
  match k with
  | O => r
  | S k' => follow_links k' fs (follow_link fs r)
  end.

(** [os.stat]: the physical path and the node that [p] designates, links
    followed; a walk still at a link after [MAXSYMLINKS] restarts fails. *)
Definition stat (fs : FS) (p : path) : option (path * node) :=
  match follow_links MAXSYMLINKS fs (walk fs [] Dir p) with
  | Done q n => Some (q, n)
  | _ => None
  end.

Fixpoint unsnoc (p : path) : option (path * string) :=
  match p with
  | [] => None
  | [c] => Some ([], c)
  | c :: p' => match unsnoc p' with
               | Some (q, l) => Some (c :: q, l)
               | None => None
               end
  end.

(** The directory entry that the last component of [p] names: the parent is
    resolved, the last component is not followed.  [None] when the parent is
    not a directory. *)
Definition entry_of (fs : FS) (p : path) : option path :=
  match unsnoc p with
  | None => Some []
  | Some (parent, name) =>
      match stat fs parent with
      | Some (rp, Dir) => Some (rp ++ [name])
      | _ => None
      end
  end.

(** [os.lstat]. *)
Definition lstat (fs : FS) (p : path) : option (path * node) :=
  match entry_of fs p with
  | Some [] => Some ([], Dir)
  | Some k => match fs !! k with Some n => Some (k, n) | None => None end
  | None => None
  end.

Definition path_exists (fs : FS) (p : path) : bool :=
  match stat fs p with Some _ => true | None => false end.

Definition path_is_dir (fs : FS) (p : path) : bool :=
  match stat fs p with Some (_, Dir) => true | _ => false end.

Definition path_is_symlink (fs : FS) (p : path) : bool :=
  match lstat fs p with Some (_, Link _) => true | _ => false end.

(** [os.path.realpath] in non-strict mode, as [posixpath._joinrealpath]
    computes it.  Unlike the kernel it follows every link, however many
    there are.  [seen] remembers the links met so far: [Some r] for a link
    that resolved to [r], [None] for a link whose target is still being
    resolved; meeting such a link again is a loop, and the walk then stops
    with what is left of the path appended unresolved.  A name that is not
    there is kept as it is.  The flag of the result says that no loop was
    met. *)
Abbreviation link_cache := (gmap path (option path)).

Fixpoint joinrealpath (fuel : nat) (f : FS)
    : path -> list string -> link_cache -> path * bool * link_cache :=
  match fuel with
  | O => fun cur rest seen => (cur ++ rest, false, seen)
  | S fuel' =>
      fix loop (cur : path) (rest : list string) (seen : link_cache) {struct rest} :=
        match rest with
        | [] => (cur, true, seen)
        | name :: rest' =>
            let newpath := cur ++ [name] in
            match lstat f newpath with
            | Some (_, Link tgt) =>
                match seen !! newpath with
                | Some (Some cached) => loop cached rest' seen
                | Some None => (newpath ++ rest', false, seen)
                | None =>
                    match joinrealpath fuel' f [] tgt (<[newpath := None]> seen) with
                    | (r, true, seen') => loop r rest' (<[newpath := Some r]> seen')
                    | (r, false, seen') => (r ++ rest', false, seen')
                    end
                end
            | _ => loop newpath rest' seen
            end
        end
  end.

(** Every nested call has marked one more link as being resolved, and a
    marked link ends the call that meets it, so the nesting stays below the
    number of entries: this fuel does not run out. *)
Definition realpath (f : FS) (p : path) : path :=
  (joinrealpath (S (size f `max` MAXSYMLINKS)) f [] p ∅).1.1.

(** [Path.resolve()] in non-strict mode. *)
Definition resolve (fs : FS) (p : path) : path := realpath fs p.

(** [q] lies in the tree rooted at [root] (the root included). *)
Definition under (root q : path) : Prop := root `prefix_of` q.

#[global] Instance under_dec root q : Decision (under root q).
Proof. unfold under. apply _. Defined.

(** ** The world, the environment and the effects *)

Record world : Type := World {
  fs : FS;                 (* the file system *)
  pip_installed : bool;    (* the package manager lists [sentinelx] *)
}.

(** The part of the surroundings that a run reads and never writes. *)
Record env : Type := Env {
  home : path;                      (* what [~] expands to *)
  cwd : path;                       (* the process's working directory *)
  python : string;                  (* [sys.executable] *)
  deny : path -> bool;              (* entries the OS refuses to create or delete *)
  gone_on_fail : path -> path -> bool;
      (* [gone_on_fail root q]: a failing [rmtree root] had already deleted
         [q] when it stopped *)
  python_ok : bool;                 (* the interpreter can be launched *)
  pip_uninstall_rc : Z;             (* exit status of a [pip uninstall] that runs *)
  pip_proceed : bool;               (* answer to pip's own "Proceed (Y/n)?" *)
  cli_yes : bool;                   (* [-y] / [--yes] was given *)
  answer : string;                  (* the line typed at the confirmation prompt *)
  timestamp : string;               (* [datetime.now()] as [%Y%m%d_%H%M%S] *)
}.

Inductive exn : Type :=
  | FileNotFoundError (p : path)
  | PermissionError (p : path)
  | IsADirectoryError (p : path)
  | NotADirectoryError (p : path)
  | FileExistsError (p : path)
  | OSError (msg : string)
  | CalledProcessError (rc : Z) (argv : list string)
  | ValueError (msg : string).

(** [str(e)], as the failure notices interpolate it. *)
Definition exn_str (e : exn) : string :=
  match e with
  | FileNotFoundError p => "[Errno 2] No such file or directory: '" +:+ show_path p +:+ "'"
  | PermissionError p => "[Errno 13] Permission denied: '" +:+ show_path p +:+ "'"
  | IsADirectoryError p => "[Errno 21] Is a directory: '" +:+ show_path p +:+ "'"
  | NotADirectoryError p => "[Errno 20] Not a directory: '" +:+ show_path p +:+ "'"
  | FileExistsError p => "[Errno 17] File exists: '" +:+ show_path p +:+ "'"
  | OSError msg => msg
  | CalledProcessError rc argv =>
      "Command '" +:+ String.concat " " argv +:+ "' returned non-zero exit status"
  | ValueError msg => msg
  end.

Inductive event : Type :=
  | Print (msg : string)            (* [console.print(msg)] *)
  | Spawn (argv : list string).     (* a child process was launched *)

#[global] Instance exn_eq_dec : EqDecision exn.
Proof. solve_decision. Defined.

#[global] Instance event_eq_dec : EqDecision event.
Proof. solve_decision. Defined.

(** How a computation ends: with a value, with an exception of class
    [Exception], or with [SystemExit]. *)
Inductive outcome (A : Type) : Type :=
  | Ok (a : A)
  | Raise (e : exn)
  | Exit (code : Z).
Arguments Ok {A} a.
Arguments Raise {A} e.
Arguments Exit {A} code.

Definition M (A : Type) : Type := world -> outcome A * world * list event.

Definition ret {A} (a : A) : M A := fun w => (Ok a, w, []).

Definition bind {A B} (m : M A) (k : A -> M B) : M B :=
  fun w =>
    match m w with
    | (Ok a, w1, t1) => let '(o, w2, t2) := k a w1 in (o, w2, t1 ++ t2)
    | (Raise e, w1, t1) => (Raise e, w1, t1)
    | (Exit c, w1, t1) => (Exit c, w1, t1)
    end.

Notation "'let*' x ':=' m 'in' k" := (bind m (fun x => k))
  (at level 10, x name, m at level 100, k at level 200).

(** [try: body  except Exception as e: handler(e)].  [SystemExit] is not an
    [Exception] and passes through. *)
Definition try_except {A} (body : M A) (handler : exn -> M A) : M A :=
  fun w =>
    match body w with
    | (Raise e, w1, t1) => let '(o, w2, t2) := handler e w1 in (o, w2, t1 ++ t2)
    | r => r
    end.

Definition raise {A} (e : exn) : M A := fun w => (Raise e, w, []).
Definition sys_exit {A} (code : Z) : M A := fun w => (Exit code, w, []).
Definition console_print (msg : string) : M unit := fun w => (Ok tt, w, [Print msg]).
Definition get_fs : M FS := fun w => (Ok (fs w), w, []).
Definition put_fs (f : FS) : M unit :=
  fun w => (Ok tt, {| fs := f; pip_installed := pip_installed w |}, []).

(** Projections of a finished computation. *)
Definition result_of {A} (r : outcome A * world * list event) : outcome A := r.1.1.
Definition world_of {A} (r : outcome A * world * list event) : world := r.1.2.
Definition trace_of {A} (r : outcome A * world * list event) : list event := r.2.

(** ** Operating-system primitives *)

(** [os.remove]: unlink the entry itself (a link is not followed). *)
Definition os_remove (E : env) (p : path) : M unit :=
  let* f := get_fs in
  match lstat f p with
  | None => raise (FileNotFoundError p)
  | Some (k, Dir) => raise (IsADirectoryError p)
  | Some (k, _) =>
      if deny E k then raise (PermissionError p) else put_fs (delete k f)
  end.

(** No entry of the tree rooted at [root] is refused deletion. *)
Definition tree_free (E : env) (f : FS) (root : path) : Prop :=
  map_Forall (fun q _ => under root q -> deny E q = false) f.

#[global] Instance tree_free_dec E f root : Decision (tree_free E f root).
Proof. unfold tree_free. apply _. Defined.

(** What [shutil.rmtree root] deletes: the whole tree when nothing in it is
    refused; otherwise the traversal stops at the first refusal and only the
    deletable entries it had reached are gone. *)
Definition rmtree_removes (E : env) (f : FS) (root q : path) : Prop :=
  under root q /\
  (tree_free E f root \/ (gone_on_fail E root q = true /\ deny E q = false)).

#[global] Instance rmtree_removes_dec E f root q : Decision (rmtree_removes E f root q).
Proof. unfold rmtree_removes. apply _. Defined.

Definition rmtree_fs (E : env) (f : FS) (root : path) : FS :=
  filter (fun kv => ~ rmtree_removes E f root kv.1) f.

(** [shutil.rmtree]. *)
Definition shutil_rmtree (E : env) (p : path) : M unit :=
  let* f := get_fs in
  match lstat f p with
  | None => raise (FileNotFoundError p)
  | Some (k, Link _) => raise (OSError "Cannot call rmtree on a symbolic link")
  | Some (k, File _) => raise (NotADirectoryError p)
  | Some (k, Dir) =>
      let* _ := put_fs (rmtree_fs E f k) in
      if decide (tree_free E f k) then ret tt else raise (PermissionError p)
  end.

(** [every prefix of [p] is a directory]: [p] is the physical path of a
    directory that is still linked into the tree. *)
Definition real_dir (f : FS) (p : path) : bool :=
  match walk f [] Dir p with Done q Dir => true | _ => false end.

(** [Path.cwd()], i.e. [os.getcwd()]: fails once the working directory has
    been unlinked. *)
Definition Path_cwd (E : env) : M path :=
  let* f := get_fs in
  if real_dir f (cwd E) then ret (cwd E) else raise (FileNotFoundError []).

(** [Path(...).expanduser()]. *)
Definition expanduser (E : env) (p : pypath) : path :=
  match p with
  | Abs q => q
  | Tilde q => home E ++ q
  end.

(** ** The package manager, as [subprocess] sees it *)

(** What a launched child does: its exit status and its effect on the
    package database.  [pip show] exits 0 exactly for an installed package;
    [pip uninstall] asks for confirmation unless [-y] is given, and a
    declined or successful run exits 0. *)
Definition run_child (E : env) (argv : list string) (w : world) : Z * world :=
  let args := drop 1 argv in
  if decide (args = ["-m"; "pip"; "show"; "sentinelx"]) then
    ((if pip_installed w then 0 else 1)%Z, w)
  else if decide (take 4 args = ["-m"; "pip"; "uninstall"; "sentinelx"]) then
    if pip_installed w && (bool_decide ("-y" ∈ drop 4 args) || pip_proceed E) then
      if decide (pip_uninstall_rc E = 0%Z)
      then (0%Z, {| fs := fs w; pip_installed := false |})
      else (pip_uninstall_rc E, w)
    else (0%Z, w)
  else (1%Z, w).

(** [subprocess.run(argv, capture_output=True, text=True).returncode]. *)
Definition subprocess_run (E : env) (argv : list string) : M Z :=
  fun w =>
    if python_ok E
    then let '(rc, w') := run_child E argv w in (Ok rc, w', [Spawn argv])
    else (Raise (FileNotFoundError [python E]), w, []).

(** [subprocess.check_call(argv)]. *)
Definition subprocess_check_call (E : env) (argv : list string) : M Z :=
  let* rc := subprocess_run E argv in
  if decide (rc = 0%Z) then ret 0%Z else raise (CalledProcessError rc argv).

(** ** sentinelx_uninstall.py *)

Definition nl : string := String (ascii_of_nat 10) EmptyString.

Fixpoint for_each {A} (l : list A) (body : A -> M unit) : M unit :=
  match l with
  | [] => ret tt
  | x :: l' => let* _ := body x in for_each l' body
  end.

Definition remove_symlinks (E : env) : M unit :=
  let symlink_path := expanduser E (Tilde [".local"; "bin"; "sentinelX"]) in
  let* f := get_fs in
  let* _ :=
    (if path_exists f symlink_path || path_is_symlink f symlink_path then
       try_except
         (let* _ := os_remove E symlink_path in
          console_print ("[green]✔ Removed symlink:[/green] " +:+ show_path symlink_path))
         (fun e =>
          console_print ("[red]✘ Failed to remove symlink " +:+ show_path symlink_path
                         +:+ ": " +:+ exn_str e +:+ "[/red]"))
     else ret tt) in
  let old_symlink := expanduser E (Tilde [".local"; "bin"; "sentinelx"]) in
  let* f := get_fs in
  if path_exists f old_symlink || path_is_symlink f old_symlink then
    try_except
      (let* _ := os_remove E old_symlink in
       console_print ("[green]✔ Removed old symlink:[/green] " +:+ show_path old_symlink))
      (fun e => ret tt)
  else ret tt.

Definition remove_directory (E : env) (p : pypath) : M bool :=
  let* f := get_fs in
  let path := resolve f (expanduser E p) in
  if path_exists f path && path_is_dir f path then
    try_except
      (let* _ := shutil_rmtree E path in
       let* _ := console_print ("[green]✔ Removed directory:[/green] " +:+ show_path path) in
       ret true)
      (fun e =>
       let* _ := console_print ("[red]✘ Failed to remove " +:+ show_path path
                                +:+ ": " +:+ exn_str e +:+ "[/red]") in
       ret false)
  else ret false.

(** The [try] block either returns from the function ([Some v]) or falls
    through to the statement after it ([None]). *)
Definition uninstall_pip_package (E : env) (force : bool) : M bool :=
  let* returned :=
    try_except
      (let* returncode := subprocess_run E [python E; "-m"; "pip"; "show"; "sentinelx"] in
       if decide (returncode = 0%Z) then
         let* _ := console_print "[yellow]Detected SentinelX pip package.[/yellow]" in
         let cmd := [python E; "-m"; "pip"; "uninstall"; "sentinelx"] in
         let cmd := if force then cmd ++ ["-y"] else cmd in
         let* _ := subprocess_check_call E cmd in
         let* _ := console_print "[green]✔ Pip package uninstalled successfully.[/green]" in
         ret (Some true)
       else ret None)
      (fun e => ret None) in
  match returned with
  | Some v => ret v
  | None => ret false
  end.

Definition remove_user_config (E : env) : M unit :=
  let config_path := expanduser E (Tilde [".sentinelx"]) in
  let* f := get_fs in
  if path_exists f config_path then
    let* _ := console_print ("[yellow]Found user configuration at "
                             +:+ show_path config_path +:+ "[/yellow]") in
    let* _ := remove_directory E (Abs config_path) in
    ret tt
  else console_print "[dim]No user configuration found.[/dim]".

Definition markers : list string := ["setup.py"; "sentinelx/config/tools.yaml"].

Definition targets : list string :=
  ["logs"; "reports"; "sentinelx"; "sentinelx.egg-info"; "build"; "dist";
   "__pycache__"; "assets"].

Definition files : list string :=
  ["setup.py"; "requirements.txt"; "sentinelx_uninstall.py"; "README.md"; "sentinelx.py"].

(** The body of the loop over [targets]. *)
Definition remove_target (E : env) (cwd : path) (target : string) : M unit :=
  let target_path := pjoin cwd target in
  let* f := get_fs in
  if path_exists f target_path then
    let* _ := remove_directory E (Abs target_path) in ret tt
  else ret tt.

(** The body of the loop over [files]. *)
Definition remove_file (E : env) (cwd : path) (file : string) : M unit :=
  let f_path := pjoin cwd file in
  let* f := get_fs in
  if path_exists f f_path && negb (String.eqb file "sentinelx_uninstall.py") then
    try_except
      (let* _ := os_remove E f_path in
       console_print ("[green]✔ Removed file:[/green] " +:+ show_path f_path))
      (fun e =>
       console_print ("[red]✘ Failed to remove " +:+ file +:+ ": "
                      +:+ exn_str e +:+ "[/red]"))
  else ret tt.

(** [remove_local_artifacts] from the point where [cwd] is known. *)
Definition remove_local_artifacts_in (E : env) (cwd : path) : M unit :=
  let* f := get_fs in
  let is_project_root := existsb (fun m => path_exists f (pjoin cwd m)) markers in
  if is_project_root then
    let* _ := console_print ("[yellow]Detected manual installation in: "
                             +:+ show_path cwd +:+ "[/yellow]") in
    let* _ := for_each targets (remove_target E cwd) in
    let* _ := for_each files (remove_file E cwd) in
    let* _ := console_print "[green]✔ Local artifacts removed.[/green]" in
    console_print ("[dim]Note: You can now remove the parent directory: "
                   +:+ show_path cwd +:+ "[/dim]")
  else
    console_print "[dim]Not running from SentinelX root. Skipping local file removal.[/dim]".

Definition remove_local_artifacts (E : env) : M unit :=
  let* cwd := Path_cwd E in
  remove_local_artifacts_in E cwd.

(** [str.lower] on the ASCII letters. *)
Definition lower_ascii (c : ascii) : ascii :=
  let n := nat_of_ascii c in
  if (65 <=? n)%nat && (n <=? 90)%nat then ascii_of_nat (n + 32) else c.

Fixpoint lower (s : string) : string :=
  match s with
  | EmptyString => EmptyString
  | String c s' => String (lower_ascii c) (lower s')
  end.

(** The fallback [Confirm.ask] of the script:
    [input(f"{msg} (y/n): ").lower().startswith("y")]. *)
Definition Confirm_ask (E : env) (msg : string) : M bool :=
  ret (String.prefix "y" (lower (answer E))).

(** [main], from the return of [get_args]: [cli_yes E] is [args.yes], and
    [answer E] is the line that the prompt reads. *)
Definition main (E : env) : M unit :=
  let yes := cli_yes E in
  let* _ := console_print "SentinelX Uninstaller" in
  let* _ :=
    (if negb yes then
       let* _ := console_print
         "[bold red]DANGER:[/bold red] This will remove SentinelX configuration, logs, symlinks, and installed files." in
       let* ok := Confirm_ask E "Are you sure you want to proceed?" in
       if negb ok then
         let* _ := console_print "[bold yellow]Uninstall cancelled.[/bold yellow]" in
         sys_exit 0%Z
       else ret tt
     else ret tt) in
  let* _ := console_print (nl +:+ "[bold]Starting uninstallation...[/bold]") in
  let* _ := uninstall_pip_package E yes in
  let* _ := remove_symlinks E in
  let* _ := remove_user_config E in
  let* _ := remove_local_artifacts E in
  let* _ := console_print (nl +:+ "[bold green]Uninstallation Complete.[/bold green]") in
  console_print "If manual files remain, you may safely delete this directory.".

(** ** sentinelx/core/reporting.py (the CSV writer)

    The module names its files relative to the working directory. *)

(** [os.mkdir]. *)
Definition os_mkdir (E : env) (p : path) : M unit :=
  let* f := get_fs in
  match entry_of f p with
  | None => raise (FileNotFoundError p)
  | Some [] => raise (FileExistsError p)
  | Some k =>
      match f !! k with
      | Some _ => raise (FileExistsError p)
      | None => if deny E k then raise (PermissionError p) else put_fs (<[k := Dir]> f)
      end
  end.

(** [os.makedirs] below [base]: missing intermediate directories are made
    on the way (a concurrent creation is tolerated), the last one must be
    new. *)
Fixpoint makedirs_from (E : env) (base : path) (names : list string) : M unit :=
  match names with
  | [] => ret tt
  | [n] => os_mkdir E (base ++ [n])
  | n :: rest =>
      let* f := get_fs in
      let* _ :=
        (if path_exists f (base ++ [n]) then ret tt
         else try_except (os_mkdir E (base ++ [n]))
                (fun e => match e with FileExistsError _ => ret tt | _ => raise e end)) in
      makedirs_from E (base ++ [n]) rest
  end.

Definition os_makedirs (E : env) (name : string) : M unit :=
  makedirs_from E (cwd E) (split_slash EmptyString name).

(** The entry that [open(p, "w")] creates or truncates: links in the last
    component are followed. *)
Fixpoint open_target (k : nat) (f : FS) (p : path) : path + exn :=
  match entry_of f p with
  | None => inr (FileNotFoundError p)
  | Some [] => inr (IsADirectoryError p)
  | Some key =>
      match f !! key with
      | Some Dir => inr (IsADirectoryError p)
      | Some (File _) => inl key
      | None => inl key
      | Some (Link t) =>
          match k with
          | O => inr (OSError "[Errno 40] Too many levels of symbolic links")
          | S k' => open_target k' f t
          end
      end
  end.

(** [with open(p, "w") as f: f.write(data)], where producing [data] may
    stop with an exception after part of it was written. *)
Definition write_file (E : env) (p : path) (data : string) (failure : option exn) : M unit :=
  let* f := get_fs in
  match open_target MAXSYMLINKS f p with
  | inr e => raise e
  | inl key =>
      if bool_decide (f !! key = None) && deny E key then raise (PermissionError p)
      else
        let* _ := put_fs (<[key := File data]> f) in
        match failure with
        | Some e => raise e
        | None => ret tt
        end
  end.

(** A record: a Python [dict] from column names to printed values, in
    insertion order. *)
Abbreviation record := (list (string * string)).

Definition dq : string := String (ascii_of_nat 34) EmptyString.
Definition comma : ascii := ascii_of_nat 44.

Fixpoint contains_char (c : ascii) (s : string) : bool :=
  match s with
  | EmptyString => false
  | String d s' => if decide (c = d) then true else contains_char c s'
  end.

Fixpoint double_quotes (s : string) : string :=
  match s with
  | EmptyString => EmptyString
  | String d s' =>
      if decide (d = ascii_of_nat 34) then dq +:+ dq +:+ double_quotes s'
      else String d (double_quotes s')
  end.

(** One field under [csv.QUOTE_MINIMAL]. *)
Definition csv_field (s : string) : string :=
  if contains_char comma s || contains_char (ascii_of_nat 34) s
     || contains_char (ascii_of_nat 13) s || contains_char (ascii_of_nat 10) s
  then dq +:+ double_quotes s +:+ dq
  else s.

Definition crlf : string := String (ascii_of_nat 13) (String (ascii_of_nat 10) EmptyString).

(** One line of the default [excel] dialect; a row that is a single empty
    field is written quoted. *)
Definition csv_row (fields : list string) : string :=
  (if decide (fields = [EmptyString]) then dq +:+ dq
   else String.concat (String comma EmptyString) (map csv_field fields)) +:+ crlf.

Definition dict_get (key : string) (r : record) : string :=
  match list_find (fun kv => kv.1 = key) r with
  | Some (_, kv) => kv.2
  | None => EmptyString
  end.

(** [DictWriter._dict_to_list] with the default [extrasaction="raise"]. *)
Definition dict_to_list (fieldnames : list string) (r : record) : list string + exn :=
  if forallb (fun kv => bool_decide (kv.1 ∈ fieldnames)) r
  then inl (map (fun key => dict_get key r) fieldnames)
  else inr (ValueError "dict contains fields not in fieldnames").

(** [writer.writerows]: the rows before an ill-formed record are written. *)
Fixpoint csv_rows (fieldnames : list string) (rows : list record) : string * option exn :=
  match rows with
  | [] => (EmptyString, None)
  | r :: rows' =>
      match dict_to_list fieldnames r with
      | inr e => (EmptyString, Some e)
      | inl fields =>
          let '(rest, err) := csv_rows fieldnames rows' in
          (csv_row fields +:+ rest, err)
      end
  end.

Definition generate_filename (E : env) (prefix : string) : M string :=
  let* f := get_fs in
  let* _ := (if negb (path_exists f (pjoin (cwd E) "reports"))
             then os_makedirs E "reports" else ret tt) in
  ret ("reports/" +:+ prefix +:+ "_" +:+ timestamp E).

Definition save_report_csv (E : env) (data_list : list record) : M unit :=
  let* stem := generate_filename E "report" in
  let filename := stem +:+ ".csv" in
  match data_list with
  | [] => ret tt
  | first :: _ =>
      let keys := map fst first in
      let '(body, failure) := csv_rows keys data_list in
      let* _ := write_file E (pjoin (cwd E) filename) (csv_row keys +:+ body) failure in
      console_print ("[green]CSV Report saved to " +:+ filename +:+ "[/green]")
  end.


(** ** Vocabulary of the properties *)

(** The script's own file name, as the guard in [remove_local_artifacts]
    spells it. *)
Definition own_script : string := "sentinelx_uninstall.py".

(** A computation that always ends with a value: no exception escapes and
    the process is not terminated. *)
Definition total {A} (m : M A) : Prop := forall w, exists a, result_of (m w) = Ok a.

(** Every run of [m] relates the world before to the world after. *)
Definition preserves (P : world -> world -> Prop) {A} (m : M A) : Prop :=
  forall w, P w (world_of (m w)).

(** The notices of the script. *)
Definition skip_notice : event :=
  Print "[dim]Not running from SentinelX root. Skipping local file removal.[/dim]".
Definition banner : event := Print "SentinelX Uninstaller".
Definition danger_notice : event :=
  Print "[bold red]DANGER:[/bold red] This will remove SentinelX configuration, logs, symlinks, and installed files.".
Definition cancel_notice : event := Print "[bold yellow]Uninstall cancelled.[/bold yellow]".
Definition start_notice : event := Print (nl +:+ "[bold]Starting uninstallation...[/bold]").
Definition complete_notice : event :=
  Print (nl +:+ "[bold green]Uninstallation Complete.[/bold green]").
Definition final_note : event :=
  Print "If manual files remain, you may safely delete this directory.".
Definition removed_dir_notice (p : path) : event :=
  Print ("[green]✔ Removed directory:[/green] " +:+ show_path p).
Definition removed_file_notice (p : path) : event :=
  Print ("[green]✔ Removed file:[/green] " +:+ show_path p).
Definition detected_notice : event := Print "[yellow]Detected SentinelX pip package.[/yellow]".
Definition uninstalled_notice : event :=
  Print "[green]✔ Pip package uninstalled successfully.[/green]".

Definition pip_show (E : env) : list string := [python E; "-m"; "pip"; "show"; "sentinelx"].
Definition pip_uninstall (E : env) (force : bool) : list string :=
  [python E; "-m"; "pip"; "uninstall"; "sentinelx"] ++ (if force then ["-y"] else []).

(** Confirmation is granted: the flag was given or the answer starts with
    [y] or [Y]. *)
Definition confirmed (E : env) : bool :=
  cli_yes E || String.prefix "y" (lower (answer E)).

(** The two launcher candidates of [remove_symlinks]. *)
Definition launcher (E : env) : path := expanduser E (Tilde [".local"; "bin"; "sentinelX"]).
Definition legacy_launcher (E : env) : path := expanduser E (Tilde [".local"; "bin"; "sentinelx"]).

(** [p.exists() or p.is_symlink()]: something, possibly a dangling link,
    is there. *)
Definition present (f : FS) (p : path) : bool := path_exists f p || path_is_symlink f p.

Definition removed_symlink_notice (p : path) : event :=
  Print ("[green]✔ Removed symlink:[/green] " +:+ show_path p).
Definition failed_symlink_notice (p : path) (e : exn) : event :=
  Print ("[red]✘ Failed to remove symlink " +:+ show_path p +:+ ": " +:+ exn_str e +:+ "[/red]").
Definition removed_old_symlink_notice (p : path) : event :=
  Print ("[green]✔ Removed old symlink:[/green] " +:+ show_path p).

(** The world with its file system replaced. *)
Definition set_fs (w : world) (f : FS) : world :=
  {| fs := f; pip_installed := pip_installed w |}.

Definition failed_dir_notice (p : path) (e : exn) : event :=
  Print ("[red]✘ Failed to remove " +:+ show_path p +:+ ": " +:+ exn_str e +:+ "[/red]").

(** What [remove_directory] comes to on a path that the OS resolves: the
    tree of the directory it leads to is removed, as far as the OS allows. *)
Definition remove_resolved (E : env) (p : pypath) : M bool :=
  fun w =>
    match stat (fs w) (expanduser E p) with
    | Some (k, Dir) =>
        if decide (tree_free E (fs w) k)
        then (Ok true, set_fs w (rmtree_fs E (fs w) k), [removed_dir_notice k])
        else (Ok false, set_fs w (rmtree_fs E (fs w) k),
              [failed_dir_notice k (PermissionError k)])
    | _ => (Ok false, w, [])
    end.

(** Continuing a walk along further names. *)
Definition then_walk (f : FS) (r : walk_result) (b : path) : walk_result :=
  match r with
  | Done q n => walk f q n b
  | Follow p => Follow (p ++ b)
  | Lost => Lost
  end.

(** The walk has come to an end: it is not waiting at a link. *)
Definition ended (r : walk_result) : Prop :=
  match r with Follow _ => False | _ => True end.

(** [cur] is the physical path of an entry whose node is [here]. *)
Definition physical (f : FS) (cur : path) (here : node) : Prop :=
  walk f [] Dir cur = Done cur here.

(** What [realpath] remembers of a resolved link is where the kernel
    gets to from the link's target. *)
Definition cache_ok (f : FS) (seen : link_cache) : Prop :=
  forall l r, seen !! l = Some (Some r) ->
    exists tgt k n, f !! l = Some (Link tgt) /\
                    follow_links k f (walk f [] Dir tgt) = Done r n.

(** The links that are being resolved do not resolve in fewer than [k]
    steps of the kernel. *)
Definition stack_ok (f : FS) (k : nat) (seen : link_cache) : Prop :=
  forall l tgt j q n, seen !! l = Some None -> f !! l = Some (Link tgt) -> j < k ->
    follow_links j f (walk f [] Dir tgt) <> Done q n.

(** What a run of [joinrealpath] has to do with the kernel's answer on the
    same path.  Where the kernel arrives, so does [realpath], without
    meeting a loop, and it leaves no new link marked as being resolved.
    Where the kernel finds a name missing, the path that [realpath] returns
    does not exist either. *)
Definition realpath_agrees (f : FS) (res : walk_result)
    (out : path * bool * link_cache) (seen : link_cache) : Prop :=
  match res with
  | Done q n =>
      out.1.1 = q /\ out.1.2 = true /\ cache_ok f out.2 /\
      (forall l, out.2 !! l = Some None -> seen !! l = Some None)
  | Lost => stat f out.1.1 = None
  | Follow _ => True
  end.

(** On the way to [p] a name is not there: a component is missing, a link
    dangles, or a regular file stands where a directory is needed. *)
Definition missing (f : FS) (p : path) : Prop :=
  follow_links MAXSYMLINKS f (walk f [] Dir p) = Lost.


(** The reading of the empty-input case of [save_report_csv] that promises
    a normal return in every world: afterwards [reports] exists, no notice
    was printed and no file was written. *)
Definition empty_report_always_returns (E : env) (w : world) : Prop :=
  let r := save_report_csv E [] w in
  result_of r = Ok tt /\
  trace_of r = [] /\
  path_exists (fs (world_of r)) (pjoin (cwd E) "reports") = true /\
  (forall q x, fs (world_of r) !! q = Some (File x) -> fs w !! q = Some (File x)).

(** A working directory in which [reports] is a dangling symbolic link. *)
Definition dangling_reports_env : env :=
  {| home := ["home"; "op"]; cwd := ["proj"]; python := "python3";
     deny := fun _ => false; gone_on_fail := fun _ _ => false;
     python_ok := true; pip_uninstall_rc := 0; pip_proceed := true;
     cli_yes := true; answer := EmptyString; timestamp := "20240101_120000" |}.

Definition dangling_reports_world : world :=
  {| fs := list_to_map [ (["proj"], Dir); (["proj"; "reports"], Link ["nowhere"]) ];
     pip_installed := false |}.

(** [t] is what is left of [s] after deletions that the OS allowed: nothing
    was added, refused entries are all still there, and the package can
    only have gone from installed to absent. *)
Definition shrinks (E : env) (s t : world) : Prop :=
  fs t ⊆ fs s /\
  (forall q n, fs s !! q = Some n -> deny E q = true -> fs t !! q = Some n) /\
  (pip_installed t = true -> pip_installed s = true).


(** [t] differs from [s] only by the deletion of entries that [D] allows,
    [D] being judged on the file system before. *)
Definition deletes_within (D : FS -> path -> Prop) (s t : world) : Prop :=
  fs t ⊆ fs s /\
  pip_installed t = pip_installed s /\
  (forall q, is_Some (fs s !! q) -> fs t !! q = None -> D (fs s) q).

(** What ProjectCleaner may delete when it goes through the directory names
    [T] and the file names [F]: the tree that a listed directory name
    resolves to, and the entry of a listed file other than the script. *)
Definition may_delete (E : env) (T F : list string) (f : FS) (q : path) : Prop :=
  (exists t r, t ∈ T /\ stat f (pjoin (cwd E) t) = Some (r, Dir) /\ under r q) \/
  (exists x, x ∈ F /\ x <> own_script /\ entry_of f (pjoin (cwd E) x) = Some q).

(** Some marker file exists in the working directory. *)
Definition marker_present (E : env) (f : FS) : bool :=
  existsb (fun m => path_exists f (pjoin (cwd E) m)) markers.

(** None of the listed directory names is a symbolic link. *)
Definition targets_unlinked (E : env) (f : FS) : Prop :=
  forall t tgt, t ∈ targets -> f !! (cwd E ++ [t]) <> Some (Link tgt).

(** ** Scenarios *)

(** An operator in [/home/op] running from [c]; nothing is refused. *)
Definition plain_env (c : path) (yes : bool) : env :=
  {| home := ["home"; "op"]; cwd := c; python := "python3";
     deny := fun _ => false; gone_on_fail := fun _ _ => false;
     python_ok := true; pip_uninstall_rc := 0; pip_proceed := true;
     cli_yes := yes; answer := "n"; timestamp := "20240101_120000" |}.

(** A project directory that holds [setup.py] and the uninstaller only. *)
Definition script_only_world : world :=
  {| fs := list_to_map
             [ (["proj"], Dir);
               (["proj"; "setup.py"], File "setup");
               (["proj"; "sentinelx_uninstall.py"], File "uninstall") ];
     pip_installed := false |}.

(** The same directory in which [logs] is a symbolic link to the project
    directory itself. *)
Definition linked_logs_world : world :=
  {| fs := list_to_map
             [ (["proj"], Dir);
               (["proj"; "setup.py"], File "setup");
               (["proj"; "sentinelx_uninstall.py"], File "uninstall");
               (["proj"; "logs"], Link ["proj"]) ];
     pip_installed := false |}.

(** The scenario of the specification: a marker, a [logs] directory with a
    file in it, and an unrelated directory. *)
Definition logs_world : world :=
  {| fs := list_to_map
             [ (["proj"], Dir);
               (["proj"; "setup.py"], File "setup");
               (["proj"; "sentinelx_uninstall.py"], File "uninstall");
               (["proj"; "logs"], Dir);
               (["proj"; "logs"; "run.log"], File "log");
               (["proj"; "unrelated_data"], Dir);
               (["proj"; "unrelated_data"; "keep"], File "data") ];
     pip_installed := false |}.

(** The reading of the ProjectCleaner scenario as a rule: every listed
    name that exists is gone afterwards, and every entry that is not a
    listed name is untouched. *)
Definition removes_exactly_the_listed (E : env) (w : world) : Prop :=
  let w' := world_of (remove_local_artifacts E w) in
  (forall x, x ∈ targets ++ files ->
             path_exists (fs w) (pjoin (cwd E) x) = true ->
             path_exists (fs w') (pjoin (cwd E) x) = false) /\
  (forall q, (forall x, x ∈ targets ++ files -> q <> pjoin (cwd E) x) ->
             fs w' !! q = fs w !! q).

(** The operator runs the uninstaller from inside [~/.sentinelx]. *)
Definition config_dir_world : world :=
  {| fs := list_to_map
             [ (["home"], Dir);
               (["home"; "op"], Dir);
               (["home"; "op"; ".sentinelx"], Dir);
               (["home"; "op"; ".sentinelx"; "config.yaml"], File "cfg") ];
     pip_installed := false |}.









(** An arbitrary directory that happens to hold [logs] and [build]. *)
Definition stray_logs_world : world :=
  {| fs := list_to_map
             [ (["tmp"], Dir);
               (["tmp"; "logs"], Dir);
               (["tmp"; "logs"; "app.log"], File "log");
               (["tmp"; "build"], Dir) ];
     pip_installed := false |}.

(** ** sentinelx/core/reporting.py (the Markdown writer) *)

(** What the successive [f.write] calls of [save_report_md] put into the
    file; [now] is [str(datetime.now())] at the second of them, and a value
    of the dictionary is given as it prints. *)
Definition md_text (title now : string) (data : record) : string :=
  ("# " +:+ title +:+ nl) +:+
  ("**Date:** " +:+ now +:+ nl +:+ nl) +:+
  ("## Execution Summary" +:+ nl) +:+
  String.concat EmptyString
    (map (fun kv => "- **" +:+ kv.1 +:+ ":** " +:+ kv.2 +:+ nl) data).

Definition save_report_md (E : env) (now : string) (data : record) (title : string) : M unit :=
  let* stem := generate_filename E "report" in
  let filename := stem +:+ ".md" in
  let* _ := write_file E (pjoin (cwd E) filename) (md_text title now data) None in
  console_print ("[green]Report saved to " +:+ filename +:+ "[/green]").

(** ** Further vocabulary *)

(** The user configuration directory that [remove_user_config] looks for. *)
Definition config_dir (E : env) : path := expanduser E (Tilde [".sentinelx"]).

Definition found_config_notice (p : path) : event :=
  Print ("[yellow]Found user configuration at " +:+ show_path p +:+ "[/yellow]").
Definition no_config_notice : event := Print "[dim]No user configuration found.[/dim]".

(** The name that a report written now gets, relative to [reports], and
    the entry it is stored under. *)
Definition report_name (E : env) (ext : string) : string :=
  "report_" +:+ timestamp E +:+ ext.
Definition report_file (E : env) (ext : string) : path :=
  cwd E ++ ["reports"; report_name E ext].

Definition csv_saved_notice (E : env) : event :=
  Print ("[green]CSV Report saved to reports/" +:+ report_name E ".csv" +:+ "[/green]").
Definition md_saved_notice (E : env) : event :=
  Print ("[green]Report saved to reports/" +:+ report_name E ".md" +:+ "[/green]").

(** The entry [key] is free and the OS lets it be created. *)
Definition writable (E : env) (f : FS) (key : path) : Prop :=
  f !! key = None /\ deny E key = false.

#[global] Instance writable_dec E f key : Decision (writable E f key).
Proof. unfold writable. apply _. Defined.

(** Every column of the record [r] is one of [keys]. *)
Definition fits (keys : list string) (r : record) : Prop :=
  Forall (fun kv => kv.1 ∈ keys) r.

(** The line of the record [r] under the columns [keys]. *)
Definition csv_line (keys : list string) (r : record) : string :=
  csv_row (map (fun key => dict_get key r) keys).

Definition csv_lines (keys : list string) (rows : list record) : string :=
  foldr (fun r rest => csv_line keys r +:+ rest) EmptyString rows.

(** A project directory with a [logs] tree in which the OS refuses to
    delete the log file. *)
Definition locked_log_env : env :=
  {| home := ["home"; "op"]; cwd := ["proj"]; python := "python3";
     deny := fun q => bool_decide (q = ["proj"; "logs"; "run.log"]);
     gone_on_fail := fun _ _ => false;
     python_ok := true; pip_uninstall_rc := 0; pip_proceed := true;
     cli_yes := true; answer := "n"; timestamp := "20240101_120000" |}.

(** A launcher in [~/.local/bin] that is a symbolic link to an installation
    that is no longer there. *)
Definition launcher_world : world :=
  {| fs := list_to_map
             [ (["home"], Dir);
               (["home"; "op"], Dir);
               (["home"; "op"; ".local"], Dir);
               (["home"; "op"; ".local"; "bin"], Dir);
               (["home"; "op"; ".local"; "bin"; "sentinelX"],
                Link ["opt"; "sentinelx"; "run.sh"]) ];
     pip_installed := false |}.

(** The same place with a directory under the launcher's name. *)
Definition launcher_dir_world : world :=
  {| fs := list_to_map
             [ (["home"], Dir);
               (["home"; "op"], Dir);
               (["home"; "op"; ".local"], Dir);
               (["home"; "op"; ".local"; "bin"], Dir);
               (["home"; "op"; ".local"; "bin"; "sentinelX"], Dir);
               (["home"; "op"; ".local"; "bin"; "sentinelX"; "notes"], File "mine") ];
     pip_installed := false |}.

(** The surroundings of [dangling_reports_env] one second later. *)
Definition later_reports_env : env :=
  {| home := ["home"; "op"]; cwd := ["proj"]; python := "python3";
     deny := fun _ => false; gone_on_fail := fun _ _ => false;
     python_ok := true; pip_uninstall_rc := 0; pip_proceed := true;
     cli_yes := true; answer := EmptyString; timestamp := "20240101_120001" |}.

(** A working directory without [reports], and one with it. *)
Definition bare_project_world : world :=
  {| fs := list_to_map [ (["proj"], Dir) ]; pip_installed := false |}.

Definition reports_world : world :=
  {| fs := list_to_map [ (["proj"], Dir); (["proj"; "reports"], Dir) ];
     pip_installed := false |}.

(** Two scan results with the same columns, and one with a column of its
    own. *)
Definition scan_a : record := [("host", "10.0.0.1"); ("port", "22")].
Definition scan_b : record := [("host", "10.0.0.2"); ("port", "80,443")].
Definition scan_odd : record := [("host", "10.0.0.3"); ("banner", "nginx")].
(** * Properties *)

(** ** Path resolution *)

Lemma walk_done f cur here rest q n :
  walk f cur here rest = Done q n -> q = cur ++ rest.
Proof.
  revert cur here. induction rest as [|c rest IH]; intros cur here H; simpl in H.
  - inversion H; subst. by rewrite app_nil_r.
  - destruct here; try discriminate.
    destruct (f !! (cur ++ [c])) as [[d| |tgt]|] eqn:Hk; try discriminate.
    + apply IH in H. by rewrite H, <- app_assoc.
    + apply IH in H. by rewrite H, <- app_assoc.
Qed.

Lemma walk_app f cur here a b :
  walk f cur here (a ++ b) =
  match walk f cur here a with
  | Done q n => walk f q n b
  | Follow p => Follow (p ++ b)
  | Lost => Lost
  end.
Proof.
  revert cur here. induction a as [|c a IH]; intros cur here; simpl; [done|].
  destruct here; try reflexivity.
  destruct (f !! (cur ++ [c])) as [[d| |tgt]|];
    first [apply IH | by rewrite app_assoc | reflexivity].
Qed.

(** Resolution only reads the map: what resolves in a part of the file
    system resolves to the same place in the whole. *)
Lemma walk_mono (f1 f2 : FS) cur here rest :
  f1 ⊆ f2 -> walk f1 cur here rest <> Lost ->
  walk f2 cur here rest = walk f1 cur here rest.
Proof.
  intros Hsub. revert cur here.
  induction rest as [|c rest IH]; intros cur here H; simpl in *; [done|].
  destruct here; try done.
  destruct (f1 !! (cur ++ [c])) as [n|] eqn:Hk; [|done].
  rewrite (lookup_weaken _ _ _ _ Hk Hsub).
  destruct n; try done; by apply IH.
Qed.

Lemma follow_links_done k f q n : follow_links k f (Done q n) = Done q n.
Proof. induction k; simpl; done. Qed.

Lemma follow_links_lost k f : follow_links k f Lost = Lost.
Proof. induction k; simpl; done. Qed.

Lemma follow_links_mono (f1 f2 : FS) k r q n :
  f1 ⊆ f2 -> follow_links k f1 r = Done q n -> follow_links k f2 r = Done q n.
Proof.
  intros Hsub. revert r. induction k as [|k IH]; intros r H; simpl in *; [done|].
  destruct r as [q' n'|p'|]; simpl in *.
  - by apply IH.
  - destruct (walk f1 [] Dir p') eqn:Hw.
    + rewrite (walk_mono f1 f2) by (done || congruence). rewrite Hw. by apply IH.
    + rewrite (walk_mono f1 f2) by (done || congruence). rewrite Hw. by apply IH.
    + by rewrite follow_links_lost in H.
  - by apply IH.
Qed.

Lemma stat_mono (f1 f2 : FS) p x :
  f1 ⊆ f2 -> stat f1 p = Some x -> stat f2 p = Some x.
Proof.
  intros Hsub. unfold stat.
  destruct (follow_links MAXSYMLINKS f1 (walk f1 [] Dir p)) as [q n| |] eqn:Hf; try done.
  intros [= <-].
  destruct (walk f1 [] Dir p) eqn:Hw.
  - rewrite (walk_mono f1 f2) by (done || congruence). rewrite Hw.
    by rewrite (follow_links_mono f1 f2 _ _ _ _ Hsub Hf).
  - rewrite (walk_mono f1 f2) by (done || congruence). rewrite Hw.
    by rewrite (follow_links_mono f1 f2 _ _ _ _ Hsub Hf).
  - by rewrite follow_links_lost in Hf.
Qed.

Lemma entry_of_mono (f1 f2 : FS) p k :
  f1 ⊆ f2 -> entry_of f1 p = Some k -> entry_of f2 p = Some k.
Proof.
  intros Hsub. unfold entry_of. destruct (unsnoc p) as [[parent name]|]; [|done].
  destruct (stat f1 parent) as [[rp n]|] eqn:Hs; [|done].
  rewrite (stat_mono _ _ _ _ Hsub Hs). done.
Qed.





(** What [stat] returns is a physical path: resolving it again is the
    identity. *)
Lemma follow_links_walk f k r q n :
  (forall q' n', r = Done q' n' -> walk f [] Dir q' = Done q' n') ->
  follow_links k f r = Done q n -> walk f [] Dir q = Done q n.
Proof.
  revert r. induction k as [|k IH]; intros r Hr H; simpl in H.
  - by apply Hr.
  - apply (IH (follow_link f r)); [|done].
    intros q' n' Hq. destruct r as [q0 n0|p0|]; simpl in Hq.
    + by apply Hr.
    + pose proof (walk_done _ _ _ _ _ _ Hq) as Hp0. simpl in Hp0. by subst.
    + done.
Qed.

Lemma stat_walk f p r n : stat f p = Some (r, n) -> walk f [] Dir r = Done r n.
Proof.
  unfold stat.
  destruct (follow_links MAXSYMLINKS f (walk f [] Dir p)) as [q m| |] eqn:Hf; try done.
  intros [= <- <-]. eapply follow_links_walk; [|exact Hf].
  intros q' n' Hq. pose proof (walk_done _ _ _ _ _ _ Hq) as Hp. simpl in Hp. by subst.
Qed.

Lemma walk_stat f r n : walk f [] Dir r = Done r n -> stat f r = Some (r, n).
Proof. intros H. unfold stat. by rewrite H, follow_links_done. Qed.

Lemma stat_physical f p r n : stat f p = Some (r, n) -> stat f r = Some (r, n).
Proof. intros H. apply walk_stat. by eapply stat_walk. Qed.

Lemma real_dir_stat f p : real_dir f p = true -> stat f p = Some (p, Dir).
Proof.
  unfold real_dir. destruct (walk f [] Dir p) as [q n| |] eqn:Hw; try done.
  destruct n; try done. intros _.
  pose proof (walk_done _ _ _ _ _ _ Hw) as Hq. simpl in Hq. subst q.
  by apply walk_stat.
Qed.

Lemma unsnoc_snoc (p : path) (c : string) : unsnoc (p ++ [c]) = Some (p, c).
Proof.
  induction p as [|d p IH]; simpl; [done|].
  rewrite IH. destruct (p ++ [c]) eqn:Hp; [|done].
  by destruct p.
Qed.

Lemma entry_of_child f p c :
  real_dir f p = true -> entry_of f (p ++ [c]) = Some (p ++ [c]).
Proof.
  intros H. unfold entry_of. rewrite unsnoc_snoc.
  by rewrite (real_dir_stat _ _ H).
Qed.

Lemma stat_follow f p p' :
  walk f [] Dir p = Follow p' ->
  stat f p = match follow_links (pred MAXSYMLINKS) f (walk f [] Dir p') with
             | Done q n => Some (q, n)
             | _ => None
             end.
Proof. intros H. unfold stat. by rewrite H. Qed.

Lemma stat_lost f p : walk f [] Dir p = Lost -> stat f p = None.
Proof. intros H. unfold stat. by rewrite H, follow_links_lost. Qed.


(** ** [realpath] against the kernel's walk *)

Lemma walk_then (f : FS) cur here (a b : path) :
  walk f cur here (a ++ b) = then_walk f (walk f cur here a) b.
Proof. apply walk_app. Qed.

Lemma follow_links_more (f : FS) k j r r' :
  follow_links k f r = r' -> ended r' -> follow_links (k + j) f r = r'.
Proof.
  revert r. induction k as [|k IH]; intros r H He; cbn [follow_links Nat.add] in *.
  - subst r'. destruct r as [q n|p|];
      [apply follow_links_done|contradiction|apply follow_links_lost].
  - apply IH; assumption.
Qed.

Lemma follow_links_le (f : FS) k k' r r' :
  k <= k' -> follow_links k f r = r' -> ended r' -> follow_links k' f r = r'.
Proof.
  intros Hle H He. replace k' with (k + (k' - k)) by lia.
  apply follow_links_more; assumption.
Qed.

Lemma follow_links_det (f : FS) k1 k2 r a b :
  follow_links k1 f r = a -> ended a -> follow_links k2 f r = b -> ended b -> a = b.
Proof.
  intros Ha Hea Hb Heb.
  rewrite <- (follow_links_more f k1 k2 r a Ha Hea).
  rewrite <- (follow_links_more f k2 k1 r b Hb Heb).
  by rewrite Nat.add_comm.
Qed.

Lemma split_done (f : FS) k r (b : path) q n :
  follow_links k f (then_walk f r b) = Done q n ->
  exists ka kb q1 n1,
    ka + kb <= k /\ follow_links ka f r = Done q1 n1 /\
    follow_links kb f (walk f q1 n1 b) = Done q n.
Proof.
  revert r. induction k as [|k IH]; intros r H.
  - destruct r as [q1 n1|p|]; cbn [follow_links then_walk] in H; try discriminate H.
    exists 0, 0, q1, n1. split; [lia|]. split; [reflexivity|exact H].
  - destruct r as [q1 n1|p|].
    + exists 0, (S k), q1, n1. split; [lia|]. split; [reflexivity|exact H].
    + cbn [then_walk follow_links follow_link] in H. rewrite walk_then in H.
      destruct (IH _ H) as (ka & kb & q1 & n1 & Hle & Ha & Hb).
      exists (S ka), kb, q1, n1. split; [lia|]. split; [exact Ha|exact Hb].
    + cbn [then_walk] in H. rewrite follow_links_lost in H. discriminate H.
Qed.

Lemma split_lost (f : FS) k r (b : path) :
  follow_links k f (then_walk f r b) = Lost ->
  (exists ka, ka <= k /\ follow_links ka f r = Lost) \/
  (exists ka kb q1 n1,
     ka + kb <= k /\ follow_links ka f r = Done q1 n1 /\
     follow_links kb f (walk f q1 n1 b) = Lost).
Proof.
  revert r. induction k as [|k IH]; intros r H.
  - destruct r as [q1 n1|p|]; cbn [follow_links then_walk] in H; try discriminate H.
    + right. exists 0, 0, q1, n1. split; [lia|]. split; [reflexivity|exact H].
    + left. exists 0. split; [lia|reflexivity].
  - destruct r as [q1 n1|p|].
    + right. exists 0, (S k), q1, n1. split; [lia|]. split; [reflexivity|exact H].
    + cbn [then_walk follow_links follow_link] in H. rewrite walk_then in H.
      destruct (IH _ H) as [(ka & Hle & Ha)|(ka & kb & q1 & n1 & Hle & Ha & Hb)].
      * left. exists (S ka). split; [lia|exact Ha].
      * right. exists (S ka), kb, q1, n1. split; [lia|]. split; [exact Ha|exact Hb].
    + left. exists 0. split; [lia|reflexivity].
Qed.

Lemma least_done (f : FS) r k q n :
  follow_links k f r = Done q n ->
  exists ka, ka <= k /\ follow_links ka f r = Done q n /\
             forall j q' n', j < ka -> follow_links j f r <> Done q' n'.
Proof.
  induction k as [|k IH]; intros H.
  - exists 0. split; [lia|]. split; [exact H|]. intros j q' n' Hj. lia.
  - destruct (follow_links k f r) as [q0 n0|p|] eqn:Hk.
    + assert (Heq : Done q0 n0 = Done q n).
      { eapply (follow_links_det f k (S k) r); [exact Hk|exact I|exact H|exact I]. }
      rewrite Heq in IH. destruct (IH eq_refl) as (ka & Hle & Ha & Hmin).
      exists ka. split; [lia|]. split; [exact Ha|exact Hmin].
    + exists (S k). split; [lia|]. split; [exact H|].
      intros j q' n' Hj Hd.
      rewrite (follow_links_le f j k r (Done q' n')) in Hk; [discriminate Hk|lia|exact Hd|exact I].
    + exists (S k). split; [lia|]. split; [exact H|].
      intros j q' n' Hj Hd.
      rewrite (follow_links_le f j k r (Done q' n')) in Hk; [discriminate Hk|lia|exact Hd|exact I].
Qed.

Lemma stat_none_of_lost (f : FS) (p : path) k :
  follow_links k f (walk f [] Dir p) = Lost -> stat f p = None.
Proof.
  intros H. unfold stat.
  destruct (follow_links MAXSYMLINKS f (walk f [] Dir p)) as [q n|p'|] eqn:Hs;
    [|reflexivity|reflexivity].
  exfalso.
  assert (Heq : Done q n = Lost).
  { eapply (follow_links_det f MAXSYMLINKS k); [exact Hs|exact I|exact H|exact I]. }
  discriminate Heq.
Qed.

Lemma stat_done (f : FS) (p q : path) n :
  stat f p = Some (q, n) <-> follow_links MAXSYMLINKS f (walk f [] Dir p) = Done q n.
Proof.
  unfold stat.
  destruct (follow_links MAXSYMLINKS f (walk f [] Dir p)) as [q' n'|p'|];
    split; intros H; try discriminate H; injection H as -> ->; reflexivity.
Qed.

Lemma stat_app_none (f : FS) (a b : path) : stat f a = None -> stat f (a ++ b) = None.
Proof.
  intros Ha.
  destruct (stat f (a ++ b)) as [[q n]|] eqn:Hab; [|reflexivity].
  exfalso. apply stat_done in Hab. rewrite walk_then in Hab.
  destruct (split_done _ _ _ _ _ _ Hab) as (ka & kb & q1 & n1 & Hle & H1 & _).
  assert (Hs : stat f a = Some (q1, n1)).
  { apply stat_done. apply (follow_links_le f ka); [lia|exact H1|exact I]. }
  rewrite Hs in Ha. discriminate Ha.
Qed.

(** [lstat] of a name in a physical directory is the entry itself. *)
Lemma lstat_at (f : FS) (cur : path) (name : string) :
  physical f cur Dir ->
  lstat f (cur ++ [name]) =
  match f !! (cur ++ [name]) with
  | Some n => Some (cur ++ [name], n)
  | None => None
  end.
Proof.
  intros Hp. unfold lstat, entry_of. rewrite unsnoc_snoc, (walk_stat _ _ _ Hp).
  destruct (cur ++ [name]) as [|c k] eqn:Hk; [|reflexivity].
  destruct cur; discriminate Hk.
Qed.

Lemma lstat_gone (f : FS) (cur : path) (name : string) :
  (forall rp, stat f cur <> Some (rp, Dir)) -> lstat f (cur ++ [name]) = None.
Proof.
  intros H. unfold lstat, entry_of. rewrite unsnoc_snoc.
  destruct (stat f cur) as [[rp [d| |t]]|] eqn:Hs; try reflexivity.
  exfalso. exact (H rp eq_refl).
Qed.

Lemma joinrealpath_nil (fuel : nat) (f : FS) (cur : path) (seen : link_cache) :
  joinrealpath (S fuel) f cur [] seen = (cur, true, seen).
Proof. reflexivity. Qed.

Lemma joinrealpath_cons (fuel : nat) (f : FS) (cur : path) (name : string) (rest : path)
    (seen : link_cache) :
  joinrealpath (S fuel) f cur (name :: rest) seen =
  match lstat f (cur ++ [name]) with
  | Some (_, Link tgt) =>
      match seen !! (cur ++ [name]) with
      | Some (Some cached) => joinrealpath (S fuel) f cached rest seen
      | Some None => ((cur ++ [name]) ++ rest, false, seen)
      | None =>
          match joinrealpath fuel f [] tgt (<[cur ++ [name] := None]> seen) with
          | (r, true, seen') =>
              joinrealpath (S fuel) f r rest (<[cur ++ [name] := Some r]> seen')
          | (r, false, seen') => (r ++ rest, false, seen')
          end
      end
  | _ => joinrealpath (S fuel) f (cur ++ [name]) rest seen
  end.
Proof. reflexivity. Qed.

(** Past a name that is not there, [realpath] only appends. *)
Lemma joinrealpath_gone (fuel : nat) (f : FS) (rest cur : path) (seen : link_cache) :
  stat f cur = None ->
  joinrealpath (S fuel) f cur rest seen = (cur ++ rest, true, seen).
Proof.
  revert cur. induction rest as [|name rest IH]; intros cur Hs.
  - rewrite joinrealpath_nil, app_nil_r. reflexivity.
  - rewrite joinrealpath_cons, lstat_gone by (intros rp H; rewrite Hs in H; discriminate H).
    rewrite IH by (apply stat_app_none; exact Hs).
    rewrite <- app_assoc. reflexivity.
Qed.

Lemma physical_child (f : FS) (cur : path) (name : string) (n : node) :
  physical f cur Dir -> f !! (cur ++ [name]) = Some n -> (forall t, n <> Link t) ->
  physical f (cur ++ [name]) n.
Proof.
  unfold physical. intros Hp Hl Hn. rewrite walk_then, Hp. cbn [then_walk walk].
  rewrite Hl. destruct n as [d| |t]; [reflexivity|reflexivity|].
  exfalso. exact (Hn t eq_refl).
Qed.

Lemma walk_from_physical (f : FS) (cur : path) (here : node) (rest : path) :
  physical f cur here -> walk f [] Dir (cur ++ rest) = walk f cur here rest.
Proof. unfold physical. intros Hp. rewrite walk_then, Hp. reflexivity. Qed.

Lemma physical_resolved (f : FS) (tgt : path) k q n :
  follow_links k f (walk f [] Dir tgt) = Done q n -> physical f q n.
Proof.
  apply follow_links_walk. intros q' n' Hq.
  pose proof (walk_done _ _ _ _ _ _ Hq) as Hq'. cbn [app] in Hq'. subst q'. exact Hq.
Qed.

Lemma cache_ok_marked (f : FS) (seen : link_cache) (l : path) :
  cache_ok f seen -> cache_ok f (<[l := None]> seen).
Proof.
  intros H l' r Hl'. destruct (decide (l = l')) as [->|Hne].
  - rewrite lookup_insert_eq in Hl'. discriminate Hl'.
  - rewrite lookup_insert_ne in Hl' by exact Hne. exact (H l' r Hl').
Qed.

Lemma cache_ok_resolved (f : FS) (seen : link_cache) (l tgt r : path) k n :
  cache_ok f seen -> f !! l = Some (Link tgt) ->
  follow_links k f (walk f [] Dir tgt) = Done r n ->
  cache_ok f (<[l := Some r]> seen).
Proof.
  intros H Hl Hr l' r' Hl'. destruct (decide (l = l')) as [<-|Hne].
  - rewrite lookup_insert_eq in Hl'. injection Hl' as <-. exists tgt, k, n. split; assumption.
  - rewrite lookup_insert_ne in Hl' by exact Hne. exact (H l' r' Hl').
Qed.

Lemma stack_ok_le (f : FS) (k k' : nat) (seen : link_cache) :
  stack_ok f k seen -> k' <= k -> stack_ok f k' seen.
Proof. intros H Hle l tgt j q n Hl Hf Hj. apply (H l tgt j q n Hl Hf). lia. Qed.

(** Marking a link whose target takes at least [k] steps. *)
Lemma stack_ok_marked (f : FS) (k k' : nat) (seen : link_cache) (l tgt : path) :
  stack_ok f k seen -> k' <= k -> f !! l = Some (Link tgt) ->
  (forall j q n, j < k' -> follow_links j f (walk f [] Dir tgt) <> Done q n) ->
  stack_ok f k' (<[l := None]> seen).
Proof.
  intros H Hle Hl Hmin l' tgt' j q n Hl' Hf Hj.
  destruct (decide (l = l')) as [<-|Hne].
  - rewrite Hl in Hf. injection Hf as <-. apply Hmin. exact Hj.
  - rewrite lookup_insert_ne in Hl' by exact Hne. apply (H l' tgt' j q n Hl' Hf). lia.
Qed.

(** Back from a link: what was marked before is what is marked now. *)
Lemma stack_back (seen seen1 : link_cache) (l r l' : path) :
  (forall x, seen1 !! x = Some None -> <[l := None]> seen !! x = Some None) ->
  <[l := Some r]> seen1 !! l' = Some None -> seen !! l' = Some None.
Proof.
  intros H Hl'. destruct (decide (l = l')) as [<-|Hne].
  - rewrite lookup_insert_eq in Hl'. discriminate Hl'.
  - rewrite lookup_insert_ne in Hl' by exact Hne. apply H in Hl'.
    rewrite lookup_insert_ne in Hl' by exact Hne. exact Hl'.
Qed.

Lemma joinrealpath_agrees (f : FS) (k : nat) :
  forall fuel (rest cur : path) here seen,
    k < fuel -> physical f cur here -> cache_ok f seen -> stack_ok f k seen ->
    realpath_agrees f (follow_links k f (walk f cur here rest))
                    (joinrealpath fuel f cur rest seen) seen.
Proof.
  induction k as [k IHk] using lt_wf_ind.
  intros fuel rest. destruct fuel as [|fuel]; [intros; lia|].
  induction rest as [|name rest IHrest]; intros cur here seen Hfuel Hp Hc Hs.
  - rewrite joinrealpath_nil. cbn [walk]. rewrite follow_links_done.
    split; [reflexivity|]. split; [reflexivity|]. split; [exact Hc|]. intros l H. exact H.
  - rewrite joinrealpath_cons.
    assert (Hgone : stat f (cur ++ [name]) = None ->
                    realpath_agrees f Lost
                      (joinrealpath (S fuel) f (cur ++ [name]) rest seen) seen).
    { intros Hn. rewrite joinrealpath_gone by exact Hn. unfold realpath_agrees.
      cbn [fst]. apply stat_app_none. exact Hn. }
    destruct (decide (here = Dir)) as [->|Hnd].
    2: { assert (Hw : walk f cur here (name :: rest) = Lost).
         { destruct here; [reflexivity|contradiction|reflexivity]. }
         rewrite Hw, follow_links_lost. rewrite lstat_gone.
         - apply Hgone. apply stat_lost. rewrite (walk_from_physical _ _ _ _ Hp).
           destruct here; [reflexivity|contradiction|reflexivity].
         - intros rp Hrp. rewrite (walk_stat _ _ _ Hp) in Hrp. injection Hrp as _ Hh.
           exact (Hnd Hh). }
    rewrite (lstat_at f cur name Hp). cbn [walk].
    destruct (f !! (cur ++ [name])) as [[d| |tgt]|] eqn:Hlook.
    + apply (IHrest (cur ++ [name]) (File d) seen Hfuel); [|exact Hc|exact Hs].
      apply physical_child; [exact Hp|exact Hlook|discriminate].
    + apply (IHrest (cur ++ [name]) Dir seen Hfuel); [|exact Hc|exact Hs].
      apply physical_child; [exact Hp|exact Hlook|discriminate].
    + destruct k as [|k1]; [exact I|].
      cbn [follow_links follow_link]. rewrite walk_then.
      (* the target resolved by the kernel, in the least number of steps *)
      assert (Hinner : forall ka0 q1 n1,
                ka0 <= k1 -> seen !! (cur ++ [name]) = None ->
                follow_links ka0 f (walk f [] Dir tgt) = Done q1 n1 ->
                exists seen1,
                  joinrealpath fuel f [] tgt (<[cur ++ [name] := None]> seen)
                  = (q1, true, seen1) /\
                  cache_ok f (<[cur ++ [name] := Some q1]> seen1) /\
                  (forall l, <[cur ++ [name] := Some q1]> seen1 !! l = Some None ->
                             seen !! l = Some None)).
      { intros ka0 q1 n1 Hle Hfresh Ha0.
        destruct (least_done _ _ _ _ _ Ha0) as (ka & Hka & Ha & Hmin).
        pose proof (IHk ka ltac:(lia) fuel tgt [] Dir (<[cur ++ [name] := None]> seen)
                      ltac:(lia) eq_refl (cache_ok_marked _ _ _ Hc)
                      (stack_ok_marked f (S k1) ka seen _ tgt Hs ltac:(lia) Hlook
                         (fun j q n Hj => Hmin j q n Hj))) as Hin.
        rewrite Ha in Hin.
        destruct (joinrealpath fuel f [] tgt (<[cur ++ [name] := None]> seen))
          as [[r ok] seen1].
        destruct Hin as (Hr & Hok & Hc1 & Hst1). cbn [fst snd] in *. subst r ok.
        exists seen1. split; [reflexivity|]. split.
        - exact (cache_ok_resolved f seen1 _ tgt q1 ka n1 Hc1 Hlook Ha).
        - intros l. apply stack_back. exact Hst1. }
      destruct (follow_links k1 f (then_walk f (walk f [] Dir tgt) rest))
        as [q n|p'|] eqn:HK; [| exact I |].
      * (* the kernel arrives *)
        destruct (split_done _ _ _ _ _ _ HK) as (ka & kb & q1 & n1 & Hle & Ha & Hb).
        destruct (seen !! (cur ++ [name])) as [[cached|]|] eqn:Hseen.
        -- destruct (Hc _ _ Hseen) as (tgt0 & k0 & n0 & Hl0 & Hr0).
           rewrite Hlook in Hl0. injection Hl0 as <-.
           assert (Heq : Done cached n0 = Done q1 n1).
           { eapply follow_links_det; [exact Hr0|exact I|exact Ha|exact I]. }
           injection Heq as -> ->.
           pose proof (IHk kb ltac:(lia) (S fuel) rest q1 n1 seen ltac:(lia)
                         (physical_resolved _ _ _ _ _ Ha) Hc
                         (stack_ok_le f (S k1) kb seen Hs ltac:(lia))) as H.
           rewrite Hb in H. exact H.
        -- exfalso. exact (Hs _ tgt ka q1 n1 Hseen Hlook ltac:(lia) Ha).
        -- destruct (Hinner ka q1 n1 ltac:(lia) eq_refl Ha) as (seen1 & -> & Hc2 & Hst2).
           pose proof (IHk kb ltac:(lia) (S fuel) rest q1 n1
                         (<[cur ++ [name] := Some q1]> seen1) ltac:(lia)
                         (physical_resolved _ _ _ _ _ Ha) Hc2) as H.
           rewrite Hb in H.
           destruct H as (H1 & H2 & H3 & H4).
           { intros l tgt' j q' n' Hl Hf Hj. apply (Hs l tgt' j q' n' (Hst2 l Hl) Hf). lia. }
           split; [exact H1|]. split; [exact H2|]. split; [exact H3|].
           intros l Hl. exact (Hst2 l (H4 l Hl)).
      * (* the kernel finds a name missing *)
        destruct (seen !! (cur ++ [name])) as [[cached|]|] eqn:Hseen.
        -- destruct (Hc _ _ Hseen) as (tgt0 & k0 & n0 & Hl0 & Hr0).
           rewrite Hlook in Hl0. injection Hl0 as <-.
           destruct (split_lost _ _ _ _ HK) as [(ka & Hle & Ha)|(ka & kb & q1 & n1 & Hle & Ha & Hb)].
           ++ exfalso.
              assert (Heq : Done cached n0 = Lost).
              { eapply follow_links_det; [exact Hr0|exact I|exact Ha|exact I]. }
              discriminate Heq.
           ++ assert (Heq : Done cached n0 = Done q1 n1).
              { eapply follow_links_det; [exact Hr0|exact I|exact Ha|exact I]. }
              injection Heq as -> ->.
              pose proof (IHk kb ltac:(lia) (S fuel) rest q1 n1 seen ltac:(lia)
                            (physical_resolved _ _ _ _ _ Ha) Hc
                            (stack_ok_le f (S k1) kb seen Hs ltac:(lia))) as H.
              rewrite Hb in H. exact H.
        -- unfold realpath_agrees. cbn [fst].
           apply (stat_none_of_lost f _ (S k1)).
           rewrite <- app_assoc. cbn [app]. rewrite (walk_from_physical _ _ _ _ Hp).
           cbn [walk]. rewrite Hlook. cbn [follow_links follow_link].
           rewrite walk_then. exact HK.
        -- destruct (split_lost _ _ _ _ HK) as [(ka & Hle & Ha)|(ka & kb & q1 & n1 & Hle & Ha & Hb)].
           ++ pose proof (IHk ka ltac:(lia) fuel tgt [] Dir (<[cur ++ [name] := None]> seen)
                            ltac:(lia) eq_refl (cache_ok_marked _ _ _ Hc)) as Hin.
              rewrite Ha in Hin.
              destruct (joinrealpath fuel f [] tgt (<[cur ++ [name] := None]> seen))
                as [[r ok] seen1].
              assert (Hr : stat f r = None).
              { apply Hin. apply (stack_ok_marked f (S k1) ka seen _ tgt Hs ltac:(lia) Hlook).
                intros j q n Hj Hd.
                assert (Heq : Done q n = Lost).
                { eapply follow_links_det; [exact Hd|exact I|exact Ha|exact I]. }
                discriminate Heq. }
              destruct ok.
              ** rewrite joinrealpath_gone by exact Hr. unfold realpath_agrees. cbn [fst].
                 apply stat_app_none. exact Hr.
              ** unfold realpath_agrees. cbn [fst]. apply stat_app_none. exact Hr.
           ++ destruct (Hinner ka q1 n1 ltac:(lia) eq_refl Ha) as (seen1 & -> & Hc2 & Hst2).
              pose proof (IHk kb ltac:(lia) (S fuel) rest q1 n1
                            (<[cur ++ [name] := Some q1]> seen1) ltac:(lia)
                            (physical_resolved _ _ _ _ _ Ha) Hc2) as H.
              rewrite Hb in H. apply H.
              intros l tgt' j q' n' Hl Hf Hj. apply (Hs l tgt' j q' n' (Hst2 l Hl) Hf). lia.
    + rewrite follow_links_lost. apply Hgone. apply stat_lost.
      rewrite (walk_from_physical _ _ _ _ Hp). cbn [walk]. rewrite Hlook. reflexivity.
Qed.

Lemma cache_ok_empty (f : FS) : cache_ok f ∅.
Proof. intros l r H. rewrite lookup_empty in H. discriminate H. Qed.

Lemma stack_ok_empty (f : FS) (k : nat) : stack_ok f k ∅.
Proof. intros l tgt j q n H. rewrite lookup_empty in H. discriminate H. Qed.

Lemma realpath_kernel (f : FS) (p : path) :
  realpath_agrees f (follow_links MAXSYMLINKS f (walk f [] Dir p))
                  (joinrealpath (S (size f `max` MAXSYMLINKS)) f [] p ∅) ∅.
Proof.
  apply (joinrealpath_agrees f MAXSYMLINKS _ p [] Dir ∅);
    [lia|reflexivity|apply cache_ok_empty|apply stack_ok_empty].
Qed.

(** Where the kernel resolves a path, [Path.resolve] returns the place it
    arrives at. *)
Lemma resolve_stat (f : FS) (p k : path) (n : node) :
  stat f p = Some (k, n) -> resolve f p = k.
Proof.
  intros Hs. apply stat_done in Hs.
  pose proof (realpath_kernel f p) as H. rewrite Hs in H.
  destruct H as (H & _). exact H.
Qed.

(** Where a name is missing, what [Path.resolve] returns does not exist. *)
Lemma resolve_missing (f : FS) (p : path) :
  missing f p -> stat f (resolve f p) = None.
Proof.
  unfold missing. intros Hm.
  pose proof (realpath_kernel f p) as H. rewrite Hm in H. exact H.
Qed.

Lemma missing_stat (f : FS) (p : path) : missing f p -> stat f p = None.
Proof. intros H. exact (stat_none_of_lost f p MAXSYMLINKS H). Qed.

Lemma stat_exists (f : FS) (p : path) x : stat f p = Some x -> path_exists f p = true.
Proof. intros H. unfold path_exists. rewrite H. reflexivity. Qed.



(** From here on [stat] is used through the lemmas above only. *)
Opaque stat.

(** ** Unfolding the effects *)

Arguments for_each : simpl never.
Arguments remove_target : simpl never.
Arguments remove_file : simpl never.
Arguments remove_directory : simpl never.
Arguments remove_local_artifacts_in : simpl never.
Arguments os_remove : simpl never.
Arguments shutil_rmtree : simpl never.
Arguments stat : simpl never.
Arguments lstat : simpl never.
Arguments entry_of : simpl never.
Arguments path_exists : simpl never.
Arguments path_is_dir : simpl never.
Arguments path_is_symlink : simpl never.
Arguments pjoin : simpl never.
Arguments rmtree_fs : simpl never.
Arguments show_path : simpl never.
Arguments exn_str : simpl never.

Ltac unfold_monad :=
  cbv beta iota zeta delta
    [bind ret try_except raise sys_exit console_print get_fs put_fs
     result_of world_of trace_of fst snd].

Lemma world_eta w : {| fs := fs w; pip_installed := pip_installed w |} = w.
Proof. by destruct w. Qed.

(** ** ProjectCleaner without a marker (C2) *)

Lemma remove_local_artifacts_eq (E : env) (w : world) :
  remove_local_artifacts E w =
  if real_dir (fs w) (cwd E) then remove_local_artifacts_in E (cwd E) w
  else (Raise (FileNotFoundError []), w, []).
Proof.
  unfold remove_local_artifacts, Path_cwd. unfold bind at 1 2. unfold get_fs at 1.
  cbv beta iota.
  destruct (real_dir (fs w) (cwd E)); [|reflexivity].
  unfold ret. cbv beta iota.
  destruct (remove_local_artifacts_in E (cwd E) w) as [[o w2] t2]. reflexivity.
Qed.

(** C2. In a working directory where neither [setup.py] nor
    [sentinelx/config/tools.yaml] exists, [remove_local_artifacts] prints
    the skip notice and nothing else, and leaves the whole world as it was,
    whatever else the directory contains. *)
Theorem C2_no_marker_nothing_removed (E : env) (w : world) :
  real_dir (fs w) (cwd E) = true ->
  (forall m, m ∈ markers -> path_exists (fs w) (pjoin (cwd E) m) = false) ->
  remove_local_artifacts E w = (Ok tt, w, [skip_notice]).
Proof.
  intros Hcwd Hm.
  rewrite remove_local_artifacts_eq, Hcwd.
  unfold remove_local_artifacts_in. unfold bind at 1. unfold get_fs at 1.
  cbv beta iota.
  assert (Hnone : existsb (fun m => path_exists (fs w) (pjoin (cwd E) m)) markers = false).
  { unfold markers. cbn [existsb].
    rewrite !Hm; [reflexivity| |]; unfold markers; set_solver. }
  rewrite Hnone. reflexivity.
Qed.

Lemma C2_no_marker_nothing_removed_witness :
  let E := plain_env ["tmp"] true in
  let w := stray_logs_world in
  real_dir (fs w) (cwd E) = true /\
  (forall m, m ∈ markers -> path_exists (fs w) (pjoin (cwd E) m) = false) /\
  remove_local_artifacts E w = (Ok tt, w, [skip_notice]).
Proof.
  intros E w.
  assert (Hc : real_dir (fs w) (cwd E) = true) by (vm_compute; reflexivity).
  assert (Hm : forall m, m ∈ markers -> path_exists (fs w) (pjoin (cwd E) m) = false).
  { apply Forall_forall.
    apply (@bool_decide_unpack _ (Forall_dec _ _)). vm_compute. reflexivity. }
  split; [exact Hc|]. split; [exact Hm|].
  exact (C2_no_marker_nothing_removed E w Hc Hm).
Defined.

(** ** FileRemover on a missing target (C3) *)

Lemma resolved_not_dir (f : FS) (p : path) :
  missing f p \/ (path_exists f p = true /\ path_is_dir f p = false) ->
  path_exists f (resolve f p) && path_is_dir f (resolve f p) = false.
Proof.
  intros [Hm|[He Hd]].
  - unfold path_exists. rewrite (resolve_missing _ _ Hm). reflexivity.
  - unfold path_exists, path_is_dir in *.
    destruct (stat f p) as [[r n]|] eqn:Hs; [|discriminate He].
    rewrite (resolve_stat _ _ _ _ Hs), (stat_physical _ _ _ _ Hs).
    destruct n; [reflexivity|discriminate Hd|reflexivity].
Qed.

Lemma remove_directory_skip (E : env) (p : pypath) (w : world) :
  missing (fs w) (expanduser E p) \/
  (path_exists (fs w) (expanduser E p) = true /\
   path_is_dir (fs w) (expanduser E p) = false) ->
  remove_directory E p w = (Ok false, w, []).
Proof.
  intros H. unfold remove_directory. unfold_monad.
  by rewrite (resolved_not_dir _ _ H).
Qed.




(** ** Cancellation (C5) *)



(** ** PackageDetector (C7) *)

Arguments run_child : simpl never.

Lemma run_child_show E w :
  run_child E (pip_show E) w = ((if pip_installed w then 0 else 1)%Z, w).
Proof. reflexivity. Qed.

(** The function in closed form: every path through the [try] block. *)
Lemma uninstall_pip_package_eq (E : env) (force : bool) (w : world) :
  uninstall_pip_package E force w =
  if python_ok E then
    if pip_installed w then
      let child := run_child E (pip_uninstall E force) w in
      if decide (child.1 = 0%Z)
      then (Ok true, child.2,
            [Spawn (pip_show E); detected_notice;
             Spawn (pip_uninstall E force); uninstalled_notice])
      else (Ok false, child.2,
            [Spawn (pip_show E); detected_notice; Spawn (pip_uninstall E force)])
    else (Ok false, w, [Spawn (pip_show E)])
  else (Ok false, w, []).
Proof.
  assert (Hcmd : (if force
                  then [python E; "-m"; "pip"; "uninstall"; "sentinelx"] ++ ["-y"]
                  else [python E; "-m"; "pip"; "uninstall"; "sentinelx"])
                 = pip_uninstall E force) by (by destruct force).
  unfold uninstall_pip_package, subprocess_check_call, subprocess_run.
  rewrite Hcmd. fold (pip_show E).
  destruct (python_ok E) eqn:Hpy; unfold_monad; [|reflexivity].
  rewrite run_child_show. destruct (pip_installed w) eqn:Hinst; unfold_monad.
  - destruct (decide (0%Z = 0%Z)) as [_|Hne]; [|by destruct Hne].
    destruct (run_child E (pip_uninstall E force) w) as [rc w'] eqn:Hc.
    unfold_monad.
    destruct (decide (rc = 0%Z)) as [->|Hrc]; reflexivity.
  - destruct (decide (1%Z = 0%Z)) as [Heq|_]; [discriminate Heq|reflexivity].
Qed.

(** C7. [uninstall_pip_package] never lets an error out.  It returns
    [False] without printing and without changing anything when the
    interpreter cannot be launched or when [pip show] exits nonzero.  When
    [pip show] exits 0 it prints the detection notice and launches
    [pip uninstall sentinelx], with [-y] appended exactly when [force] is
    set; it returns [True] (after the success notice) when that command
    exits 0 and [False] otherwise. *)
Theorem C7_package_detector (E : env) (force : bool) (w : world) :
  let r := uninstall_pip_package E force w in
  (exists b, result_of r = Ok b) /\
  (python_ok E = false -> r = (Ok false, w, [])) /\
  (python_ok E = true -> (run_child E (pip_show E) w).1 <> 0%Z ->
   r = (Ok false, w, [Spawn (pip_show E)])) /\
  (python_ok E = true -> (run_child E (pip_show E) w).1 = 0%Z ->
   let child := run_child E (pip_uninstall E force) w in
   world_of r = child.2 /\
   (child.1 = 0%Z ->
    result_of r = Ok true /\
    trace_of r = [Spawn (pip_show E); detected_notice;
                  Spawn (pip_uninstall E force); uninstalled_notice]) /\
   (child.1 <> 0%Z ->
    result_of r = Ok false /\
    trace_of r = [Spawn (pip_show E); detected_notice; Spawn (pip_uninstall E force)])).
Proof.
  intros r. subst r. rewrite uninstall_pip_package_eq, run_child_show.
  destruct (python_ok E), (pip_installed w); cbn [fst snd].
  - destruct (decide _) as [Hz|Hz]; unfold result_of, world_of, trace_of; cbn [fst snd];
      (split; [by eexists|]); (split; [intros [=]|]); (split; [intros _ Hne; by destruct Hne|]);
      intros _ _; (split; [reflexivity|]); split; intros Hc; (done || by destruct Hc || by destruct Hz).
  - unfold result_of; cbn [fst snd].
    split; [by eexists|]. split; [intros [=]|]. split; [reflexivity|].
    intros _ [=].
  - unfold result_of; cbn [fst snd].
    split; [by eexists|]. split; [reflexivity|]. split; intros [=].
  - unfold result_of; cbn [fst snd].
    split; [by eexists|]. split; [reflexivity|]. split; intros [=].
Qed.

Lemma C7_package_detector_witness :
  let E := {| home := ["home"; "op"]; cwd := ["proj"]; python := "python3";
              deny := fun _ => false; gone_on_fail := fun _ _ => false;
              python_ok := true; pip_uninstall_rc := 0; pip_proceed := false;
              cli_yes := true; answer := EmptyString; timestamp := "20240101_120000" |} in
  let w := {| fs := ∅; pip_installed := true |} in
  python_ok E = true /\
  (run_child E (pip_show E) w).1 = 0%Z /\
  (run_child E (pip_uninstall E true) w).1 = 0%Z /\
  result_of (uninstall_pip_package E true w) = Ok true /\
  pip_installed (world_of (uninstall_pip_package E true w)) = false.
Proof.
  intros E w.
  destruct (C7_package_detector E true w) as (_ & _ & _ & H).
  destruct (H eq_refl eq_refl) as (Hw & Hok & _).
  destruct (Hok eq_refl) as [Hres _].
  split; [reflexivity|]. split; [reflexivity|]. split; [reflexivity|].
  split; [exact Hres | rewrite Hw; reflexivity].
Defined.

(** ** The primitives in closed form *)


Lemma os_remove_cases (E : env) (p : path) (w : world) :
  (exists e, os_remove E p w = (Raise e, w, [])) \/
  (exists k n, lstat (fs w) p = Some (k, n) /\ n <> Dir /\ deny E k = false /\
               os_remove E p w = (Ok tt, set_fs w (delete k (fs w)), [])).
Proof.
  unfold os_remove. unfold_monad.
  destruct (lstat (fs w) p) as [[k n]|] eqn:Hl; [|left; eauto].
  destruct n as [d| |tgt]; try (left; eauto; fail).
  - destruct (deny E k) eqn:Hd; [left; eauto|].
    right. exists k, (File d). by repeat split.
  - destruct (deny E k) eqn:Hd; [left; eauto|].
    right. exists k, (Link tgt). by repeat split.
Qed.

Lemma unsnoc_inv (p : path) :
  p = [] \/ exists q c, p = q ++ [c] /\ unsnoc p = Some (q, c).
Proof.
  destruct (decide (p = [])) as [->|Hne]; [by left|right].
  destruct (exists_last Hne) as (q & c & ->).
  exists q, c. split; [done|apply unsnoc_snoc].
Qed.

(** A physical path is its own directory entry. *)
Lemma lstat_physical f k n : walk f [] Dir k = Done k n -> lstat f k = Some (k, n).
Proof.
  intros Hw. unfold lstat, entry_of.
  destruct (unsnoc_inv k) as [->|(q & c & -> & Hu)].
  - simpl in *. by inversion Hw.
  - rewrite Hu. rewrite walk_app in Hw.
    destruct (walk f [] Dir q) as [q' n'| |] eqn:Hq; try discriminate.
    pose proof (walk_done _ _ _ _ _ _ Hq) as Hq'. simpl in Hq'. subst q'.
    simpl in Hw. destruct n'; try discriminate.
    rewrite (walk_stat _ _ _ Hq).
    destruct (f !! (q ++ [c])) as [m|] eqn:Hk; [|discriminate].
    assert (Hm : Done (q ++ [c]) m = Done (q ++ [c]) n) by (by destruct m).
    inversion Hm; subst m.
    destruct q as [|d q']; simpl in *; try rewrite Hk; done.
Qed.

Lemma lstat_entry f p k n : lstat f p = Some (k, n) -> entry_of f p = Some k.
Proof.
  unfold lstat. destruct (entry_of f p) as [[|c q]|]; try done.
  - by intros [= <- <-].
  - destruct (f !! (c :: q)); [|done]. by intros [= <- <-].
Qed.

Lemma lstat_lookup f p k n : lstat f p = Some (k, n) -> k <> [] -> f !! k = Some n.
Proof.
  unfold lstat. destruct (entry_of f p) as [[|c q]|]; try done.
  - by intros [= <- <-].
  - destruct (f !! (c :: q)) eqn:Hk; [|done]. by intros [= <- <-].
Qed.

Lemma remove_directory_eq (E : env) (p : pypath) (w : world) :
  path_exists (fs w) (expanduser E p) = true ->
  remove_directory E p w =
  match stat (fs w) (expanduser E p) with
  | Some (k, Dir) =>
      if decide (tree_free E (fs w) k)
      then (Ok true, set_fs w (rmtree_fs E (fs w) k), [removed_dir_notice k])
      else (Ok false, set_fs w (rmtree_fs E (fs w) k),
            [failed_dir_notice k (PermissionError k)])
  | _ => (Ok false, w, [])
  end.
Proof.
  intros Hex.
  destruct (stat (fs w) (expanduser E p)) as [[k n]|] eqn:Hs.
  - destruct (decide (n = Dir)) as [->|Hn].
    + unfold remove_directory, shutil_rmtree. unfold_monad.
      rewrite (resolve_stat _ _ _ _ Hs). unfold path_exists, path_is_dir.
      rewrite (stat_physical _ _ _ _ Hs). simpl.
      rewrite (lstat_physical _ _ _ (stat_walk _ _ _ _ Hs)). simpl.
      destruct (decide (tree_free E (fs w) k)); simpl; done.
    + rewrite remove_directory_skip; [by destruct n|].
      right. split; [exact Hex|]. unfold path_is_dir. rewrite Hs. by destruct n.
  - unfold path_exists in Hex. rewrite Hs in Hex. discriminate Hex.
Qed.


(** Whatever the path resolves to, the call returns, and the file system
    is as it was or has lost part of one tree. *)
Lemma remove_directory_cases (E : env) (p : pypath) (w : world) :
  exists b t,
    remove_directory E p w = (Ok b, w, t) \/
    exists k, remove_directory E p w = (Ok b, set_fs w (rmtree_fs E (fs w) k), t).
Proof.
  unfold remove_directory, shutil_rmtree. unfold_monad.
  destruct (path_exists (fs w) (resolve (fs w) (expanduser E p))
            && path_is_dir (fs w) (resolve (fs w) (expanduser E p)));
    [|eexists _, _; left; reflexivity].
  destruct (lstat (fs w) (resolve (fs w) (expanduser E p))) as [[k [d| |t]]|];
    try (eexists _, _; left; reflexivity).
  destruct (decide (tree_free E (fs w) k));
    eexists _, _; right; exists k; reflexivity.
Qed.

(** ** SymlinkCleaner (C8) *)

Lemma unlink_block (E : env) (p : path) (okmsg : string) (h : exn -> M unit) (w : world) :
  try_except (let* _ := os_remove E p in console_print okmsg) h w =
  match os_remove E p w with
  | (Ok _, w', _) => (Ok tt, w', [Print okmsg])
  | (Raise e, _, _) => h e w
  | (Exit c, w', t) => (Exit c, w', t)
  end.
Proof.
  destruct (os_remove_cases E p w) as [[e He]|(k & n & _ & _ & _ & He)];
    unfold try_except, bind; rewrite He; simpl; [|done].
  by destruct (h e w) as [[o w2] t2].
Qed.

Lemma os_remove_frame (E : env) (p : path) (w w' : world) u t q :
  os_remove E p w = (Ok u, w', t) ->
  entry_of (fs w) p <> Some q ->
  fs w' !! q = fs w !! q /\ pip_installed w' = pip_installed w.
Proof.
  intros Hr Hq.
  destruct (os_remove_cases E p w) as [[e He]|(k & n & Hl & _ & _ & He)];
    rewrite He in Hr; inversion Hr; subst.
  simpl. split; [|done]. apply lookup_delete_ne.
  intros ->. apply Hq. by eapply lstat_entry.
Qed.

Lemma os_remove_subseteq (E : env) (p : path) (w : world) :
  fs (world_of (os_remove E p w)) ⊆ fs w.
Proof.
  destruct (os_remove_cases E p w) as [[e He]|(k & n & _ & _ & _ & He)];
    rewrite He; simpl; [done|apply delete_subseteq].
Qed.

(** One candidate: [if g: try: os.remove(p); print(okmsg)  except: h]. *)
Lemma unlink_if_spec (E : env) (p : path) (okmsg : string) (h : exn -> M unit)
    (g : bool) (w : world) :
  (forall e w', exists t, h e w' = (Ok tt, w', t)) ->
  exists w1 t1,
    (if g then try_except (let* _ := os_remove E p in console_print okmsg) h
     else ret tt) w = (Ok tt, w1, t1) /\
    (if g then
       match os_remove E p w with
       | (Ok _, w', _) => w1 = w' /\ t1 = [Print okmsg]
       | (Raise e, _, _) => w1 = w /\ t1 = trace_of (h e w)
       | (Exit _, _, _) => False
       end
     else w1 = w /\ t1 = []) /\
    fs w1 ⊆ fs w /\
    (forall q, entry_of (fs w) p <> Some q -> fs w1 !! q = fs w !! q) /\
    pip_installed w1 = pip_installed w.
Proof.
  intros Hh. destruct g.
  - rewrite unlink_block.
    destruct (os_remove_cases E p w) as [[e He]|(k & n & Hl & _ & _ & He)]; rewrite He.
    + destruct (Hh e w) as [t Ht]. exists w, t. rewrite Ht. repeat split; done.
    + eexists _, [Print okmsg]. repeat split.
      * apply delete_subseteq.
      * intros q Hq. apply lookup_delete_ne. intros ->. apply Hq. by eapply lstat_entry.
  - exists w, []. repeat split; done.
Qed.

Lemma remove_symlinks_run (E : env) (w : world) :
  let a := launcher E in
  let b := legacy_launcher E in
  exists ta tb w1 w2,
    remove_symlinks E w = (Ok tt, w2, ta ++ tb) /\
    (if present (fs w) a then
       match os_remove E a w with
       | (Ok _, w', _) => w1 = w' /\ ta = [removed_symlink_notice a]
       | (Raise e, _, _) => w1 = w /\ ta = [failed_symlink_notice a e]
       | (Exit _, _, _) => False
       end
     else w1 = w /\ ta = []) /\
    (if present (fs w1) b then
       match os_remove E b w1 with
       | (Ok _, w', _) => w2 = w' /\ tb = [removed_old_symlink_notice b]
       | (Raise e, _, _) => w2 = w1 /\ tb = []
       | (Exit _, _, _) => False
       end
     else w2 = w1 /\ tb = []) /\
    fs w1 ⊆ fs w /\ fs w2 ⊆ fs w1 /\
    (forall q, entry_of (fs w) a <> Some q -> fs w1 !! q = fs w !! q) /\
    (forall q, entry_of (fs w1) b <> Some q -> fs w2 !! q = fs w1 !! q) /\
    pip_installed w1 = pip_installed w /\ pip_installed w2 = pip_installed w1.
Proof.
  intros a b.
  unfold remove_symlinks. fold (launcher E) (legacy_launcher E). fold a b.
  unfold bind at 1. unfold get_fs at 1.
  cbv beta iota. fold (present (fs w) a). unfold bind at 1.
  destruct (unlink_if_spec E a
              ("[green]✔ Removed symlink:[/green] " +:+ show_path a)
              (fun e => console_print
              ("[red]✘ Failed to remove symlink " +:+ show_path a +:+ ": "
               +:+ exn_str e +:+ "[/red]")) (present (fs w) a) w)
    as (w1 & ta & -> & HA & Hsub1 & Hfr1 & Hpip1); [by intros e w'; eexists|].
  cbv beta iota. unfold bind at 1. unfold get_fs at 1.
  cbv beta iota. fold (present (fs w1) b).
  destruct (unlink_if_spec E b
              ("[green]✔ Removed old symlink:[/green] " +:+ show_path b)
              (fun e => ret tt) (present (fs w1) b) w1)
    as (w2 & tb & -> & HB & Hsub2 & Hfr2 & Hpip2); [by intros e w'; eexists|].
  cbv beta iota. rewrite app_nil_l.
  exists ta, tb, w1, w2.
  split; [reflexivity|]. split; [|split].
  - destruct (present (fs w) a); [|exact HA].
    destruct (os_remove E a w) as [[[u|e|c] w'] t']; exact HA.
  - destruct (present (fs w1) b); [|exact HB].
    destruct (os_remove E b w1) as [[[u|e|c] w'] t']; exact HB.
  - repeat (split; [assumption|]). assumption.
Qed.

(** C8. [remove_symlinks] never raises and looks at two candidates only,
    [~/.local/bin/sentinelX] and then [~/.local/bin/sentinelx].  A candidate
    that exists or is a dangling link is handed to [os.remove]; a successful
    removal prints its notice; a failed removal prints an error notice for
    the first candidate and nothing for the second.  No entry other than
    those of the two candidates changes. *)
Theorem C8_symlink_cleaner (E : env) (w : world) :
  let r := remove_symlinks E w in
  let a := launcher E in
  let b := legacy_launcher E in
  result_of r = Ok tt /\
  (exists ta tb w1,
     trace_of r = ta ++ tb /\
     (if present (fs w) a then
        match os_remove E a w with
        | (Ok _, w', _) => w1 = w' /\ ta = [removed_symlink_notice a]
        | (Raise e, _, _) => w1 = w /\ ta = [failed_symlink_notice a e]
        | (Exit _, _, _) => False
        end
      else w1 = w /\ ta = []) /\
     (if present (fs w1) b then
        match os_remove E b w1 with
        | (Ok _, w', _) => world_of r = w' /\ tb = [removed_old_symlink_notice b]
        | (Raise e, _, _) => world_of r = w1 /\ tb = []
        | (Exit _, _, _) => False
        end
      else world_of r = w1 /\ tb = [])) /\
  (forall q, entry_of (fs w) a <> Some q -> entry_of (fs w) b <> Some q ->
             fs (world_of r) !! q = fs w !! q) /\
  pip_installed (world_of r) = pip_installed w.
Proof.
  intros r a b. subst r.
  destruct (remove_symlinks_run E w)
    as (ta & tb & w1 & w2 & -> & HA & HB & Hsub1 & Hsub2 & Hfr1 & Hfr2 & Hp1 & Hp2).
  unfold result_of, world_of, trace_of. cbn [fst snd].
  split; [reflexivity|]. split; [|split].
  - exists ta, tb, w1. split; [reflexivity|]. split; [exact HA|exact HB].
  - intros q Hqa Hqb. rewrite Hfr2, Hfr1.
    + reflexivity.
    + exact Hqa.
    + intros Hq. apply Hqb. eapply entry_of_mono; [exact Hsub1|exact Hq].
  - rewrite Hp2. exact Hp1.
Qed.

(** ** The CSV report on no records (C10) *)

Lemma os_mkdir_cases (E : env) (p : path) (w : world) :
  (exists e, os_mkdir E p w = (Raise e, w, [])) \/
  (exists k, entry_of (fs w) p = Some k /\ fs w !! k = None /\ deny E k = false /\
             os_mkdir E p w = (Ok tt, set_fs w (<[k := Dir]> (fs w)), [])).
Proof.
  unfold os_mkdir. unfold_monad.
  destruct (entry_of (fs w) p) as [[|c k]|] eqn:He; try (left; eauto; fail).
  destruct (fs w !! (c :: k)) eqn:Hk; [left; eauto|].
  destruct (deny E (c :: k)) eqn:Hd; [left; eauto|].
  right. exists (c :: k). by repeat split.
Qed.

Lemma generate_filename_eq (E : env) (prefix : string) (w : world) :
  generate_filename E prefix w =
  let name := "reports/" +:+ prefix +:+ "_" +:+ timestamp E in
  if path_exists (fs w) (pjoin (cwd E) "reports") then (Ok name, w, [])
  else match os_mkdir E (pjoin (cwd E) "reports") w with
       | (Ok _, w', _) => (Ok name, w', [])
       | (Raise e, _, _) => (Raise e, w, [])
       | (Exit c, _, _) => (Exit c, w, [])
       end.
Proof.
  unfold generate_filename, os_makedirs.
  change (split_slash EmptyString "reports") with ["reports"].
  change (pjoin (cwd E) "reports") with (cwd E ++ ["reports"]).
  unfold makedirs_from. unfold bind at 1. unfold get_fs at 1. cbv beta iota.
  destruct (path_exists (fs w) (cwd E ++ ["reports"])); cbn [negb].
  - unfold_monad. reflexivity.
  - unfold bind.
    destruct (os_mkdir_cases E (cwd E ++ ["reports"]) w) as [[e He]|(k & _ & _ & _ & He)];
      rewrite He; unfold_monad; reflexivity.
Qed.

(** C10, as the code has it.  On no records [save_report_csv] prints
    nothing and writes no file.  If [reports] exists the world is unchanged
    and the call returns normally.  If it does not, [os.mkdir] decides:
    when it succeeds the directory entry is created and the call returns
    normally, when it raises the exception reaches the caller. *)
Theorem C10_empty_report (E : env) (w : world) :
  let r := save_report_csv E [] w in
  let d := pjoin (cwd E) "reports" in
  trace_of r = [] /\
  (forall q x, fs (world_of r) !! q = Some (File x) -> fs w !! q = Some (File x)) /\
  (path_exists (fs w) d = true -> r = (Ok tt, w, [])) /\
  (path_exists (fs w) d = false ->
   match os_mkdir E d w with
   | (Ok _, w', _) =>
       r = (Ok tt, w', []) /\
       exists k, entry_of (fs w) d = Some k /\ fs w !! k = None /\
                 fs w' = <[k := Dir]> (fs w)
   | (Raise e, _, _) => r = (Raise e, w, [])
   | (Exit _, _, _) => False
   end).
Proof.
  intros r d. subst r. unfold save_report_csv, bind.
  rewrite generate_filename_eq. fold d. cbv zeta.
  destruct (path_exists (fs w) d) eqn:Hex.
  - unfold_monad. repeat split; try reflexivity; try (intros; assumption).
    intros [=].
  - destruct (os_mkdir_cases E d w) as [[e He]|(k & Hk & Hnone & _ & He)];
      rewrite He; unfold_monad.
    + repeat split; try reflexivity; try (intros; assumption). intros [=].
    + split; [reflexivity|]. split; [|split; [intros [=]|]].
      * intros q x. unfold set_fs. cbn [fs].
        destruct (decide (k = q)) as [->|Hne].
        -- rewrite lookup_insert_eq. intros [=].
        -- by rewrite lookup_insert_ne.
      * intros _. split; [reflexivity|]. exists k. repeat split; assumption || reflexivity.
Qed.

Lemma C10_empty_report_witness :
  let E := dangling_reports_env in
  let w := {| fs := list_to_map [ (["proj"], Dir) ]; pip_installed := false |} in
  path_exists (fs w) (pjoin (cwd E) "reports") = false /\
  result_of (save_report_csv E [] w) = Ok tt /\
  fs (world_of (save_report_csv E [] w)) !! ["proj"; "reports"] = Some Dir.
Proof.
  intros E w.
  destruct (C10_empty_report E w) as (_ & _ & _ & H).
  specialize (H eq_refl).
  assert (Hm : os_mkdir E (pjoin (cwd E) "reports") w
               = (Ok tt, set_fs w (<[["proj"; "reports"] := Dir]> (fs w)), []))
    by (vm_compute; reflexivity).
  rewrite Hm in H. destruct H as [H _].
  split; [reflexivity|]. split; rewrite H; reflexivity.
Defined.

(** The unconditional reading fails where [reports] is a dangling link:
    [os.path.exists] is false, and [os.makedirs] finds the name taken. *)
Lemma C10_counterexample :
  ~ empty_report_always_returns dangling_reports_env dangling_reports_world.
Proof.
  unfold empty_report_always_returns. intros [H _].
  vm_compute in H. discriminate H.
Qed.

(** ** Reasoning about sequences of effects *)

Section Preserves.
Context (P : world -> world -> Prop) `{!Reflexive P, !Transitive P}.

Lemma preserves_ret {A} (a : A) : preserves P (ret a).
Proof. intros w. apply reflexivity. Qed.

Lemma preserves_raise {A} (e : exn) : preserves P (@raise A e).
Proof. intros w. apply reflexivity. Qed.

Lemma preserves_print msg : preserves P (console_print msg).
Proof. intros w. apply reflexivity. Qed.

Lemma preserves_get_fs : preserves P get_fs.
Proof. intros w. apply reflexivity. Qed.

Lemma preserves_bind {A B} (m : M A) (k : A -> M B) :
  preserves P m -> (forall a, preserves P (k a)) -> preserves P (bind m k).
Proof.
  intros Hm Hk w. specialize (Hm w). unfold bind, world_of in *.
  destruct (m w) as [[[a|e|c] w1] t1]; simpl in *; try done.
  specialize (Hk a w1). unfold world_of in Hk.
  destruct (k a w1) as [[o w2] t2]; simpl in *. by etrans.
Qed.

Lemma preserves_try {A} (body : M A) (h : exn -> M A) :
  preserves P body -> (forall e, preserves P (h e)) -> preserves P (try_except body h).
Proof.
  intros Hm Hh w. specialize (Hm w). unfold try_except, world_of in *.
  destruct (body w) as [[[a|e|c] w1] t1]; simpl in *; try done.
  specialize (Hh e w1). unfold world_of in Hh.
  destruct (h e w1) as [[o w2] t2]; simpl in *. by etrans.
Qed.

Lemma preserves_for_each {A} (l : list A) (body : A -> M unit) :
  (forall x, x ∈ l -> preserves P (body x)) -> preserves P (for_each l body).
Proof.
  induction l as [|x l IH]; intros Hb.
  - apply preserves_ret.
  - change (for_each (x :: l) body) with (bind (body x) (fun _ => for_each l body)).
    apply preserves_bind; [apply Hb; left|].
    intros _. apply IH. intros y Hy. apply Hb. by right.
Qed.
End Preserves.

Lemma total_bind {A B} (m : M A) (k : A -> M B) :
  total m -> (forall a, total (k a)) -> total (bind m k).
Proof.
  intros Hm Hk w. destruct (Hm w) as [a Ha]. unfold bind, result_of in *.
  destruct (m w) as [[o w1] t1]; simpl in *; subst o.
  destruct (Hk a w1) as [b Hb]. unfold result_of in Hb.
  destruct (k a w1) as [[o w2] t2]; simpl in *. eauto.
Qed.

Lemma total_ret {A} (a : A) : total (ret a).
Proof. intros w. by exists a. Qed.

Lemma total_print msg : total (console_print msg).
Proof. intros w. by exists tt. Qed.

Lemma total_get_fs : total get_fs.
Proof. intros w. by eexists. Qed.

Lemma total_for_each {A} (l : list A) (body : A -> M unit) :
  (forall x, total (body x)) -> total (for_each l body).
Proof.
  intros Hb. induction l as [|x l IH]; [apply total_ret|].
  change (for_each (x :: l) body) with (bind (body x) (fun _ => for_each l body)).
  apply total_bind; [apply Hb|]. by intros _.
Qed.

Lemma total_unlink_block (E : env) (p : path) (okmsg : string) (h : exn -> M unit) :
  (forall e, total (h e)) ->
  total (try_except (let* _ := os_remove E p in console_print okmsg) h).
Proof.
  intros Hh w. rewrite unlink_block.
  destruct (os_remove_cases E p w) as [[e He]|(k & n & _ & _ & _ & He)]; rewrite He.
  - apply Hh.
  - by exists tt.
Qed.

Lemma total_remove_directory (E : env) (p : pypath) : total (remove_directory E p).
Proof.
  intros w. destruct (remove_directory_cases E p w) as (b & t & [H|[k H]]);
    rewrite H; exists b; reflexivity.
Qed.

Lemma total_remove_resolved (E : env) (p : pypath) : total (remove_resolved E p).
Proof.
  intros w. unfold remove_resolved.
  destruct (stat (fs w) (expanduser E p)) as [[k [| |]]|]; try (by eexists).
  destruct (decide _); by eexists.
Qed.

Lemma world_of_bind_get_fs {A} (k : FS -> M A) (w : world) :
  world_of (bind get_fs k w) = world_of (k (fs w) w).
Proof.
  unfold bind, get_fs, world_of.
  by destruct (k (fs w) w) as [[[a|e|c] w1] t1].
Qed.

Lemma world_of_then_ret {A} (m : M A) (w : world) :
  world_of ((let* _ := m in ret tt) w) = world_of (m w).
Proof.
  unfold bind, ret, world_of. by destruct (m w) as [[[a|e|c] w1] t1].
Qed.


Lemma total_uninstall_pip_package (E : env) (force : bool) :
  total (uninstall_pip_package E force).
Proof.
  intros w. rewrite uninstall_pip_package_eq.
  destruct (python_ok E), (pip_installed w); simpl; try destruct (decide _); by eexists.
Qed.

Lemma total_remove_symlinks (E : env) : total (remove_symlinks E).
Proof.
  unfold remove_symlinks.
  apply total_bind; [apply total_get_fs|]. intros f.
  apply total_bind.
  - destruct (_ || _); [|apply total_ret].
    apply total_unlink_block. intros e. apply total_print.
  - intros _. apply total_bind; [apply total_get_fs|]. intros f'.
    destruct (_ || _); [|apply total_ret].
    apply total_unlink_block. intros e. apply total_ret.
Qed.

Lemma total_remove_user_config (E : env) : total (remove_user_config E).
Proof.
  unfold remove_user_config.
  apply total_bind; [apply total_get_fs|]. intros f.
  destruct (path_exists _ _); [|apply total_print].
  apply total_bind; [apply total_print|]. intros _.
  apply total_bind; [apply total_remove_directory|]. intros _. apply total_ret.
Qed.


Lemma total_remove_target (E : env) (c : path) (t : string) : total (remove_target E c t).
Proof.
  unfold remove_target. apply total_bind; [apply total_get_fs|]. intros f.
  destruct (path_exists _ _); [|apply total_ret].
  apply total_bind; [apply total_remove_directory|]. intros _. apply total_ret.
Qed.

Lemma total_remove_file (E : env) (c : path) (x : string) : total (remove_file E c x).
Proof.
  unfold remove_file. apply total_bind; [apply total_get_fs|]. intros f.
  destruct (_ && _); [|apply total_ret].
  apply total_unlink_block. intros e. apply total_print.
Qed.

Lemma total_remove_local_artifacts_in (E : env) (c : path) :
  total (remove_local_artifacts_in E c).
Proof.
  unfold remove_local_artifacts_in. apply total_bind; [apply total_get_fs|]. intros f.
  destruct (existsb _ _); [|apply total_print].
  apply total_bind; [apply total_print|]. intros _.
  apply total_bind; [apply total_for_each, total_remove_target|]. intros _.
  apply total_bind; [apply total_for_each, total_remove_file|]. intros _.
  apply total_bind; [apply total_print|]. intros _. apply total_print.
Qed.

(** ** What a deletion can reach *)

Lemma rmtree_fs_subseteq (E : env) (f : FS) (k : path) : rmtree_fs E f k ⊆ f.
Proof. apply map_filter_subseteq. Qed.

Lemma rmtree_fs_gone (E : env) (f : FS) (k q : path) :
  is_Some (f !! q) -> rmtree_fs E f k !! q = None -> rmtree_removes E f k q.
Proof.
  intros [n Hn] Hq. unfold rmtree_fs in Hq.
  rewrite map_lookup_filter_None in Hq. destruct Hq as [Hq|Hq]; [congruence|].
  specialize (Hq n Hn). simpl in Hq.
  by destruct (decide (rmtree_removes E f k q)).
Qed.

Lemma rmtree_fs_removed (E : env) (f : FS) (k q : path) :
  rmtree_removes E f k q -> rmtree_fs E f k !! q = None.
Proof.
  intros Hr. unfold rmtree_fs. apply map_lookup_filter_None. right.
  intros n _ Hn. by apply Hn.
Qed.

Lemma rmtree_fs_kept (E : env) (f : FS) (k q : path) :
  ~ rmtree_removes E f k q -> rmtree_fs E f k !! q = f !! q.
Proof.
  intros Hr. unfold rmtree_fs.
  destruct (f !! q) as [n|] eqn:Hq.
  - apply map_lookup_filter_Some. done.
  - apply map_lookup_filter_None. by left.
Qed.

Section DeletesWithin.
Context (D : FS -> path -> Prop).
Context (Dmono : forall (f1 f2 : FS) q, f1 ⊆ f2 -> D f1 q -> D f2 q).

#[local] Instance deletes_within_refl : Reflexive (deletes_within D).
Proof.
  intros w. repeat split; try done. intros q [n Hn] Hq. congruence.
Qed.

#[local] Instance deletes_within_trans : Transitive (deletes_within D).
Proof.
  intros w1 w2 w3 (Hs12 & Hp12 & Hd12) (Hs23 & Hp23 & Hd23).
  split; [by etrans|]. split; [congruence|].
  intros q Hq Hnone.
  destruct (fs w2 !! q) as [n|] eqn:H2.
  - eapply Dmono; [exact Hs12|]. apply Hd23; [by eexists|done].
  - by apply Hd12.
Qed.

Lemma remove_directory_deletes (E : env) (p : pypath) (w : world) :
  path_exists (fs w) (expanduser E p) = true ->
  (forall k q, stat (fs w) (expanduser E p) = Some (k, Dir) -> under k q -> D (fs w) q) ->
  deletes_within D w (world_of (remove_directory E p w)).
Proof.
  intros Hex HD. rewrite (remove_directory_eq E p w Hex).
  destruct (stat (fs w) (expanduser E p)) as [[k [d| |tgt]]|] eqn:Hs;
    try apply deletes_within_refl.
  assert (deletes_within D w (set_fs w (rmtree_fs E (fs w) k))) as Hd.
  { split; [apply rmtree_fs_subseteq|]. split; [done|].
    intros q Hq Hnone. simpl in Hnone.
    apply (HD k q eq_refl). by destruct (rmtree_fs_gone _ _ _ _ Hq Hnone). }
  by destruct (decide _).
Qed.

Lemma unlink_block_deletes (E : env) (p : path) (okmsg : string)
    (h : exn -> M unit) (w : world) :
  (forall e w', world_of (h e w') = w') ->
  (forall k, entry_of (fs w) p = Some k -> D (fs w) k) ->
  deletes_within D w
    (world_of (try_except (let* _ := os_remove E p in console_print okmsg) h w)).
Proof.
  intros Hh HD. rewrite unlink_block.
  destruct (os_remove_cases E p w) as [[e He]|(k & n & Hl & _ & _ & He)]; rewrite He.
  - rewrite Hh. apply deletes_within_refl.
  - unfold world_of. simpl. split; [apply delete_subseteq|]. split; [done|].
    intros q Hq Hnone. simpl in Hnone.
    destruct (decide (k = q)) as [<-|Hne].
    + apply HD. by eapply lstat_entry.
    + rewrite lookup_delete_ne in Hnone by done. destruct Hq. congruence.
Qed.
End DeletesWithin.

Lemma may_delete_mono (E : env) (T F : list string) (f1 f2 : FS) (q : path) :
  f1 ⊆ f2 -> may_delete E T F f1 q -> may_delete E T F f2 q.
Proof.
  intros Hsub [(t & r & Ht & Hs & Hu)|(x & Hx & Hne & He)].
  - left. exists t, r. repeat split; try done. by eapply stat_mono.
  - right. exists x. repeat split; try done. by eapply entry_of_mono.
Qed.

Lemma remove_target_deletes (E : env) (T F : list string) (t : string) :
  t ∈ T -> preserves (deletes_within (may_delete E T F)) (remove_target E (cwd E) t).
Proof.
  intros Ht.
  pose proof (deletes_within_refl (may_delete E T F)) as Hrefl.
  pose proof (deletes_within_trans _ (may_delete_mono E T F)) as Htrans.
  intros w. unfold remove_target. rewrite world_of_bind_get_fs.
  destruct (path_exists (fs w) (pjoin (cwd E) t)) eqn:Hex; [|apply Hrefl].
  rewrite world_of_then_ret. apply remove_directory_deletes; [exact Hex|].
  intros k q Hs Hu. left. exists t, k. repeat split; assumption.
Qed.

Lemma remove_file_deletes (E : env) (T F : list string) (x : string) :
  x ∈ F -> preserves (deletes_within (may_delete E T F)) (remove_file E (cwd E) x).
Proof.
  intros Hx.
  pose proof (deletes_within_refl (may_delete E T F)) as Hrefl.
  pose proof (deletes_within_trans _ (may_delete_mono E T F)) as Htrans.
  unfold remove_file.
  apply (@preserves_bind _ Htrans); [apply (@preserves_get_fs _ Hrefl)|]. intros f.
  destruct (path_exists f (pjoin (cwd E) x)); cbn [andb]; [|apply (@preserves_ret _ Hrefl)].
  destruct (String.eqb x "sentinelx_uninstall.py") eqn:Hxs; cbn [negb];
    [apply (@preserves_ret _ Hrefl)|].
  apply String.eqb_neq in Hxs.
  intros w. apply unlink_block_deletes.
  - intros e w'. reflexivity.
  - intros k Hk. right. exists x. repeat split; assumption.
Qed.

Lemma for_each_targets_deletes (E : env) (T F l : list string) :
  l ⊆ T ->
  preserves (deletes_within (may_delete E T F)) (for_each l (remove_target E (cwd E))).
Proof.
  intros Hl.
  apply (@preserves_for_each _ (deletes_within_refl _)
           (deletes_within_trans _ (may_delete_mono E T F))).
  intros t Ht. apply remove_target_deletes. by apply Hl.
Qed.

Lemma for_each_files_deletes (E : env) (T F l : list string) :
  l ⊆ F ->
  preserves (deletes_within (may_delete E T F)) (for_each l (remove_file E (cwd E))).
Proof.
  intros Hl.
  apply (@preserves_for_each _ (deletes_within_refl _)
           (deletes_within_trans _ (may_delete_mono E T F))).
  intros t Ht. apply remove_file_deletes. by apply Hl.
Qed.

(** ProjectCleaner deletes nothing but the trees its directory names
    resolve to and the entries of its listed files other than the script. *)
Lemma remove_local_artifacts_in_deletes (E : env) :
  preserves (deletes_within (may_delete E targets files))
            (remove_local_artifacts_in E (cwd E)).
Proof.
  pose proof (deletes_within_refl (may_delete E targets files)) as Hrefl.
  pose proof (deletes_within_trans _ (may_delete_mono E targets files)) as Htrans.
  unfold remove_local_artifacts_in.
  apply (@preserves_bind _ Htrans); [apply (@preserves_get_fs _ Hrefl)|]. intros f.
  destruct (existsb _ _); [|apply (@preserves_print _ Hrefl)].
  apply (@preserves_bind _ Htrans); [apply (@preserves_print _ Hrefl)|]. intros _.
  apply (@preserves_bind _ Htrans); [by apply for_each_targets_deletes|]. intros _.
  apply (@preserves_bind _ Htrans); [by apply for_each_files_deletes|]. intros _.
  apply (@preserves_bind _ Htrans); [apply (@preserves_print _ Hrefl)|]. intros _.
  apply (@preserves_print _ Hrefl).
Qed.

Lemma remove_local_artifacts_deletes (E : env) :
  preserves (deletes_within (may_delete E targets files)) (remove_local_artifacts E).
Proof.
  intros w. rewrite remove_local_artifacts_eq.
  destruct (real_dir (fs w) (cwd E)).
  - apply remove_local_artifacts_in_deletes.
  - apply deletes_within_refl.
Qed.

Lemma deletes_within_lookup (D : FS -> path -> Prop) (s t : world) (q : path) :
  deletes_within D s t -> ~ D (fs s) q -> fs t !! q = fs s !! q.
Proof.
  intros (Hsub & _ & Hd) Hq.
  destruct (fs s !! q) as [n|] eqn:Hs.
  - destruct (fs t !! q) as [m|] eqn:Ht.
    + by rewrite (lookup_weaken _ _ _ _ Ht Hsub) in Hs.
    + destruct Hq. apply Hd; [by eexists|done].
  - destruct (fs t !! q) as [m|] eqn:Ht; [|done].
    by rewrite (lookup_weaken _ _ _ _ Ht Hsub) in Hs.
Qed.

Lemma files_plain : Forall (fun x => split_slash EmptyString x = [x]) files.
Proof. repeat constructor. Qed.

Lemma targets_plain : Forall (fun x => split_slash EmptyString x = [x]) targets.
Proof. repeat constructor. Qed.

Lemma pjoin_file (c : path) (x : string) : x ∈ files -> pjoin c x = c ++ [x].
Proof.
  intros Hx. unfold pjoin. f_equal.
  by apply (proj1 (Forall_forall _ _) files_plain).
Qed.

Lemma pjoin_target (c : path) (x : string) : x ∈ targets -> pjoin c x = c ++ [x].
Proof.
  intros Hx. unfold pjoin. f_equal.
  by apply (proj1 (Forall_forall _ _) targets_plain).
Qed.

Lemma entry_of_last f (p : path) (c : string) (k : path) :
  entry_of f (p ++ [c]) = Some k -> exists rp, k = rp ++ [c].
Proof.
  unfold entry_of. rewrite unsnoc_snoc.
  destruct (stat f p) as [[rp [| |]]|]; try done.
  intros [= <-]. by exists rp.
Qed.

(** The file loop never reaches the script, and the directory loop reaches
    it only through a listed name that resolves to a directory above it. *)
Lemma own_script_survives (E : env) (w : world) :
  (forall t r, t ∈ targets -> stat (fs w) (pjoin (cwd E) t) = Some (r, Dir) ->
               ~ under r (cwd E ++ [own_script])) ->
  fs (world_of (remove_local_artifacts E w)) !! (cwd E ++ [own_script])
  = fs w !! (cwd E ++ [own_script]).
Proof.
  intros H. eapply deletes_within_lookup; [apply remove_local_artifacts_deletes|].
  intros [(t & r & Ht & Hs & Hu)|(x & Hx & Hne & He)].
  - by eapply H.
  - rewrite pjoin_file in He by done.
    apply entry_of_last in He as [rp Hrp].
    apply app_inj_tail in Hrp as [_ Hrp]. congruence.
Qed.

(** ** Resolution below a physical directory *)

Lemma walk_agree (f1 f2 : FS) cur here rest :
  (forall q, q `prefix_of` cur ++ rest -> f1 !! q = f2 !! q) ->
  walk f1 cur here rest = walk f2 cur here rest.
Proof.
  revert cur here. induction rest as [|c rest IH]; intros cur here H; simpl; [done|].
  destruct here; try done.
  rewrite <- (H (cur ++ [c])).
  2:{ exists rest. by rewrite <- app_assoc. }
  destruct (f1 !! (cur ++ [c])) as [[d| |tgt]|]; try done;
    apply IH; intros q Hq; apply H; by rewrite <- app_assoc in Hq.
Qed.

Lemma real_dir_agree (f1 f2 : FS) (c : path) :
  (forall q, q `prefix_of` c -> f1 !! q = f2 !! q) ->
  real_dir f1 c = real_dir f2 c.
Proof. intros H. unfold real_dir. by rewrite (walk_agree f1 f2). Qed.

Lemma real_dir_walk f c : real_dir f c = true -> walk f [] Dir c = Done c Dir.
Proof.
  unfold real_dir. destruct (walk f [] Dir c) as [q n| |] eqn:Hw; try done.
  destruct n; try done. intros _.
  pose proof (walk_done _ _ _ _ _ _ Hw) as Hq. simpl in Hq. by subst q.
Qed.

(** A name directly below a physical directory that is not a link is its
    own physical path. *)
Lemma stat_child f (c : path) (x : string) (n : node) :
  real_dir f c = true -> f !! (c ++ [x]) = Some n -> (forall tgt, n <> Link tgt) ->
  stat f (c ++ [x]) = Some (c ++ [x], n).
Proof.
  intros Hc Hx Hn. apply walk_stat. rewrite walk_app, (real_dir_walk _ _ Hc). simpl.
  rewrite Hx. destruct n; try done. by destruct (Hn target).
Qed.

Lemma stat_child_inv f (c : path) (x : string) (r : path) (n : node) :
  real_dir f c = true -> (forall tgt, f !! (c ++ [x]) <> Some (Link tgt)) ->
  stat f (c ++ [x]) = Some (r, n) -> r = c ++ [x] /\ f !! (c ++ [x]) = Some n.
Proof.
  intros Hc Hl Hs.
  assert (Hw : walk f [] Dir (c ++ [x]) =
               match f !! (c ++ [x]) with
               | Some (Link tgt) => Follow (tgt ++ [])
               | Some n => Done (c ++ [x]) n
               | None => Lost
               end).
  { rewrite walk_app, (real_dir_walk _ _ Hc). simpl.
    by destruct (f !! (c ++ [x])) as [[d| |tgt]|]. }
  destruct (f !! (c ++ [x])) as [[d| |tgt]|] eqn:Hx.
  - rewrite (walk_stat _ _ _ Hw) in Hs. by inversion Hs.
  - rewrite (walk_stat _ _ _ Hw) in Hs. by inversion Hs.
  - by destruct (Hl tgt).
  - by rewrite (stat_lost _ _ Hw) in Hs.
Qed.

Lemma under_child_neq (c : path) (x y : string) (q : path) :
  under (c ++ [x]) q -> under (c ++ [y]) q -> x = y.
Proof.
  intros [a ->] [b Hb]. rewrite <- !app_assoc in Hb.
  apply app_inv_head in Hb. simpl in Hb. congruence.
Qed.

Lemma not_under_prefix (c : path) (x : string) (q : path) :
  q `prefix_of` c -> ~ under (c ++ [x]) q.
Proof.
  intros [a ->] [b Hb]. apply (f_equal (@List.length string)) in Hb.
  rewrite !length_app in Hb. cbn [List.length] in Hb. lia.
Qed.

(** ** Sequencing after a computation that returns *)

Lemma bind_ok {A B} (m : M A) (k : A -> M B) (w : world) (a : A) :
  result_of (m w) = Ok a ->
  bind m k w = (result_of (k a (world_of (m w))), world_of (k a (world_of (m w))),
                trace_of (m w) ++ trace_of (k a (world_of (m w)))).
Proof.
  unfold bind, result_of, world_of, trace_of.
  destruct (m w) as [[o w1] t1]; simpl. intros ->.
  by destruct (k a w1) as [[o2 w2] t2].
Qed.

Lemma for_each_cons {A} (x : A) (l : list A) (body : A -> M unit) (w : world) :
  total (body x) ->
  for_each (x :: l) body w =
  (result_of (for_each l body (world_of (body x w))),
   world_of (for_each l body (world_of (body x w))),
   trace_of (body x w) ++ trace_of (for_each l body (world_of (body x w)))).
Proof.
  intros Ht. destruct (Ht w) as [[] Hr].
  change (for_each (x :: l) body w) with (bind (body x) (fun _ => for_each l body) w).
  by rewrite (bind_ok _ _ _ _ Hr).
Qed.

Lemma tree_free_anti (E : env) (f1 f2 : FS) (k : path) :
  f1 ⊆ f2 -> tree_free E f2 k -> tree_free E f1 k.
Proof.
  intros Hsub H q n Hq. apply (H q n). by eapply lookup_weaken.
Qed.

Lemma files_not_targets (x : string) : x ∈ files -> x ∈ targets -> False.
Proof.
  intros Hf Ht.
  assert (Hb : bool_decide (x ∈ files) && bool_decide (x ∈ targets) = true)
    by (by rewrite !bool_decide_eq_true_2).
  unfold files in Hf. repeat (apply elem_of_cons in Hf as [->|Hf]);
    try (by apply elem_of_nil in Hf); vm_compute in Hb; discriminate.
Qed.

(** ** ProjectCleaner step by step, in a plain project directory *)

Lemma stat_child_none f (c : path) (x : string) :
  real_dir f c = true -> f !! (c ++ [x]) = None -> stat f (c ++ [x]) = None.
Proof.
  intros Hc Hx. destruct (stat f (c ++ [x])) as [[r n]|] eqn:Hs; [|done].
  apply stat_child_inv in Hs as [_ Hs]; [congruence|done|]. intros tgt. congruence.
Qed.

Lemma remove_target_eq (E : env) (w : world) (t : string) :
  t ∈ targets -> real_dir (fs w) (cwd E) = true -> targets_unlinked E (fs w) ->
  remove_target E (cwd E) t w =
  match fs w !! (cwd E ++ [t]) with
  | Some Dir =>
      (Ok tt, set_fs w (rmtree_fs E (fs w) (cwd E ++ [t])),
       [if decide (tree_free E (fs w) (cwd E ++ [t]))
        then removed_dir_notice (cwd E ++ [t])
        else failed_dir_notice (cwd E ++ [t]) (PermissionError (cwd E ++ [t]))])
  | _ => (Ok tt, w, [])
  end.
Proof.
  intros Ht Hc Hl. unfold remove_target. rewrite (pjoin_target _ _ Ht).
  unfold bind at 1. unfold get_fs at 1. cbv beta iota. unfold path_exists.
  destruct (fs w !! (cwd E ++ [t])) as [n|] eqn:Hx.
  - assert (Hn : forall tgt, n <> Link tgt).
    { intros tgt ->. by apply (Hl t tgt). }
    pose proof (stat_child _ _ _ _ Hc Hx Hn) as Hs. rewrite Hs.
    unfold bind.
    rewrite (remove_directory_eq E (Abs (cwd E ++ [t])) w (stat_exists _ _ _ Hs)).
    unfold expanduser. rewrite Hs.
    destruct n as [d| |tgt].
    + reflexivity.
    + destruct (decide _); reflexivity.
    + by destruct (Hn tgt).
  - rewrite (stat_child_none _ _ _ Hc Hx). reflexivity.
Qed.

(** A step of the directory loop keeps the project directory plain and
    touches nothing outside the tree of its own name. *)
Lemma remove_target_step (E : env) (w : world) (t : string) :
  t ∈ targets -> real_dir (fs w) (cwd E) = true -> targets_unlinked E (fs w) ->
  let w1 := world_of (remove_target E (cwd E) t w) in
  fs w1 ⊆ fs w /\
  real_dir (fs w1) (cwd E) = true /\
  targets_unlinked E (fs w1) /\
  (forall q, ~ under (cwd E ++ [t]) q -> fs w1 !! q = fs w !! q).
Proof.
  intros Ht Hc Hl w1.
  assert (Hsub : fs w1 ⊆ fs w).
  { subst w1. rewrite remove_target_eq by assumption.
    destruct (fs w !! (cwd E ++ [t])) as [[| |]|]; try reflexivity.
    apply rmtree_fs_subseteq. }
  assert (Hfr : forall q, ~ under (cwd E ++ [t]) q -> fs w1 !! q = fs w !! q).
  { intros q Hq. subst w1. rewrite remove_target_eq by assumption.
    destruct (fs w !! (cwd E ++ [t])) as [[| |]|]; try reflexivity.
    apply rmtree_fs_kept. intros [Hu _]. by apply Hq. }
  split; [exact Hsub|]. split; [|split; [|exact Hfr]].
  - rewrite <- Hc. apply real_dir_agree. intros q Hq. apply Hfr.
    by apply not_under_prefix.
  - intros t' tgt Ht' Hk. apply (Hl t' tgt Ht'). eapply lookup_weaken; eassumption.
Qed.

Lemma for_each_targets_subseteq (E : env) (l : list string) (w : world) :
  l ⊆ targets ->
  fs (world_of (for_each l (remove_target E (cwd E)) w)) ⊆ fs w.
Proof.
  intros Hl. by destruct (for_each_targets_deletes E targets [] l Hl w) as [? _].
Qed.

Lemma targets_loop_removes (E : env) (l : list string) (t : string) (w : world) :
  l ⊆ targets -> t ∈ l ->
  real_dir (fs w) (cwd E) = true -> targets_unlinked E (fs w) ->
  fs w !! (cwd E ++ [t]) = Some Dir -> tree_free E (fs w) (cwd E ++ [t]) ->
  let r := for_each l (remove_target E (cwd E)) w in
  (forall q, under (cwd E ++ [t]) q -> fs (world_of r) !! q = None) /\
  removed_dir_notice (cwd E ++ [t]) ∈ trace_of r.
Proof.
  revert w. induction l as [|x l IH]; intros w Hl Ht Hc Hlk Hd Hfree r.
  { by apply elem_of_nil in Ht. }
  assert (Hx : x ∈ targets) by (apply Hl; left).
  assert (Hl' : l ⊆ targets) by (intros y Hy; apply Hl; by right).
  subst r. rewrite for_each_cons by apply total_remove_target.
  unfold world_of at 1, trace_of at 1. cbn [fst snd].
  destruct (decide (x = t)) as [->|Hne].
  - rewrite (remove_target_eq E w t) by assumption. rewrite Hd.
    unfold world_of at 2 3, trace_of at 1. cbn [fst snd].
    destruct (decide (tree_free E (fs w) (cwd E ++ [t]))) as [_|Hn]; [|by destruct Hn].
    split; [|apply elem_of_app; left; left].
    intros q Hq.
    eapply lookup_weaken_None; [|by apply for_each_targets_subseteq].
    unfold set_fs. cbn [fs]. apply rmtree_fs_removed. split; [exact Hq|by left].
  - destruct (remove_target_step E w x Hx Hc Hlk) as (Hsub & Hc1 & Hl1 & Hfr).
    apply elem_of_cons in Ht as [->|Ht]; [by destruct Hne|].
    destruct (IH (world_of (remove_target E (cwd E) x w))) as [Hgone Hnote];
      try assumption.
    + rewrite Hfr; [exact Hd|]. intros Hu.
      apply Hne. eapply under_child_neq; [exact Hu|]. exists []. by rewrite app_nil_r.
    + eapply tree_free_anti; eassumption.
    + split; [exact Hgone|]. apply elem_of_app. by right.
Qed.

Lemma os_remove_ok (E : env) (p k : path) (n : node) (w : world) :
  lstat (fs w) p = Some (k, n) -> n <> Dir -> deny E k = false ->
  os_remove E p w = (Ok tt, set_fs w (delete k (fs w)), []).
Proof.
  intros Hl Hn Hd. unfold os_remove. unfold_monad. rewrite Hl.
  destruct n; [|by destruct Hn|]; rewrite Hd; reflexivity.
Qed.

Lemma remove_file_removes (E : env) (w : world) (x d : string) :
  x ∈ files -> x <> own_script -> real_dir (fs w) (cwd E) = true ->
  fs w !! (cwd E ++ [x]) = Some (File d) -> deny E (cwd E ++ [x]) = false ->
  remove_file E (cwd E) x w =
  (Ok tt, set_fs w (delete (cwd E ++ [x]) (fs w)), [removed_file_notice (cwd E ++ [x])]).
Proof.
  intros Hx Hne Hc Hk Hd. unfold remove_file. rewrite (pjoin_file _ _ Hx).
  unfold bind at 1. unfold get_fs at 1. cbv beta iota.
  assert (Hs : stat (fs w) (cwd E ++ [x]) = Some (cwd E ++ [x], File d)).
  { apply stat_child; [exact Hc|exact Hk|]. intros tgt. discriminate. }
  unfold path_exists. rewrite Hs.
  apply String.eqb_neq in Hne. unfold own_script in Hne. rewrite Hne. cbn [andb negb].
  rewrite unlink_block.
  rewrite (os_remove_ok E _ (cwd E ++ [x]) (File d)).
  - reflexivity.
  - apply lstat_physical. eapply stat_walk. exact Hs.
  - discriminate.
  - exact Hd.
Qed.

(** A step of the file loop touches at most the entry of its own name. *)
Lemma remove_file_step (E : env) (w : world) (y : string) :
  y ∈ files -> real_dir (fs w) (cwd E) = true ->
  let w1 := world_of (remove_file E (cwd E) y w) in
  fs w1 ⊆ fs w /\
  real_dir (fs w1) (cwd E) = true /\
  (forall q, q <> cwd E ++ [y] -> fs w1 !! q = fs w !! q).
Proof.
  intros Hy Hc w1.
  assert (Hy' : y ∈ [y]) by (by left).
  pose proof (remove_file_deletes E [] [y] y Hy' w) as Hd. fold w1 in Hd.
  assert (Hfr : forall q, q <> cwd E ++ [y] -> fs w1 !! q = fs w !! q).
  { intros q Hq. eapply deletes_within_lookup; [exact Hd|].
    intros [(t & r & Ht & _)|(x & Hx & _ & He)].
    - by apply elem_of_nil in Ht.
    - apply list_elem_of_singleton in Hx. subst x.
      rewrite (pjoin_file _ _ Hy), (entry_of_child _ _ _ Hc) in He.
      inversion He. by apply Hq. }
  split; [by destruct Hd|]. split; [|exact Hfr].
  rewrite <- Hc. apply real_dir_agree. intros q Hq. apply Hfr.
  intros ->. destruct Hq as [a Ha]. apply (f_equal (@List.length string)) in Ha.
  rewrite !length_app in Ha. cbn [List.length] in Ha. lia.
Qed.

Lemma for_each_files_subseteq (E : env) (l : list string) (w : world) :
  l ⊆ files ->
  fs (world_of (for_each l (remove_file E (cwd E)) w)) ⊆ fs w.
Proof.
  intros Hl. by destruct (for_each_files_deletes E [] files l Hl w) as [? _].
Qed.

Lemma files_loop_removes (E : env) (l : list string) (x d : string) (w : world) :
  l ⊆ files -> x ∈ l -> x <> own_script ->
  real_dir (fs w) (cwd E) = true ->
  fs w !! (cwd E ++ [x]) = Some (File d) -> deny E (cwd E ++ [x]) = false ->
  let r := for_each l (remove_file E (cwd E)) w in
  fs (world_of r) !! (cwd E ++ [x]) = None /\
  removed_file_notice (cwd E ++ [x]) ∈ trace_of r.
Proof.
  revert w. induction l as [|y l IH]; intros w Hl Hx Hne Hc Hk Hd r.
  { by apply elem_of_nil in Hx. }
  assert (Hy : y ∈ files) by (apply Hl; left).
  assert (Hl' : l ⊆ files) by (intros z Hz; apply Hl; by right).
  subst r. rewrite for_each_cons by apply total_remove_file.
  unfold world_of at 1, trace_of at 1. cbn [fst snd].
  destruct (decide (y = x)) as [->|Hyx].
  - rewrite (remove_file_removes E w x d) by assumption.
    unfold world_of at 2, trace_of at 1. cbn [fst snd].
    split; [|apply elem_of_app; left; left].
    eapply lookup_weaken_None; [|by apply for_each_files_subseteq].
    unfold set_fs. cbn [fs]. apply lookup_delete_eq.
  - destruct (remove_file_step E w y Hy Hc) as (Hsub & Hc1 & Hfr).
    apply elem_of_cons in Hx as [->|Hx]; [by destruct Hyx|].
    destruct (IH (world_of (remove_file E (cwd E) y w))) as [Hgone Hnote];
      try assumption.
    + rewrite Hfr; [exact Hk|]. intros Heq. apply app_inj_tail in Heq as [_ Heq].
      by apply Hyx.
    + split; [exact Hgone|]. apply elem_of_app. by right.
Qed.

(** ** ProjectCleaner in a project directory (C1, C6) *)

Lemma bind_eq {A B} (m : M A) (k : A -> M B) (w w1 w2 : world) a o t1 t2 :
  m w = (Ok a, w1, t1) -> k a w1 = (o, w2, t2) -> bind m k w = (o, w2, t1 ++ t2).
Proof. intros Hm Hk. unfold bind. by rewrite Hm, Hk. Qed.

Lemma total_run (m : M unit) (w : world) :
  total m -> m w = (Ok tt, world_of (m w), trace_of (m w)).
Proof.
  intros Ht. destruct (Ht w) as [[] Hr]. unfold result_of, world_of, trace_of in *.
  destruct (m w) as [[o w1] t1]. cbn [fst snd] in *. by subst o.
Qed.

Lemma remove_local_artifacts_run (E : env) (w : world) :
  real_dir (fs w) (cwd E) = true ->
  marker_present E (fs w) = true ->
  let r1 := for_each targets (remove_target E (cwd E)) w in
  let r2 := for_each files (remove_file E (cwd E)) (world_of r1) in
  remove_local_artifacts E w =
  (Ok tt, world_of r2,
   Print ("[yellow]Detected manual installation in: " +:+ show_path (cwd E) +:+ "[/yellow]")
   :: trace_of r1 ++ trace_of r2 ++
   [Print "[green]✔ Local artifacts removed.[/green]";
    Print ("[dim]Note: You can now remove the parent directory: "
           +:+ show_path (cwd E) +:+ "[/dim]")]).
Proof.
  intros Hc Hm r1 r2. rewrite remove_local_artifacts_eq, Hc.
  unfold remove_local_artifacts_in.
  etrans.
  { eapply bind_eq; [reflexivity|]. cbv beta.
    fold (marker_present E (fs w)). rewrite Hm.
    eapply bind_eq; [reflexivity|].
    eapply bind_eq; [apply total_run, total_for_each, total_remove_target|].
    eapply bind_eq; [apply total_run, total_for_each, total_remove_file|].
    eapply bind_eq; reflexivity. }
  reflexivity.
Qed.

(** In a plain project directory the deletable set is what the lists name. *)
Lemma may_delete_plain (E : env) (T F : list string) (f : FS) (q : path) :
  T ⊆ targets -> F ⊆ files ->
  real_dir f (cwd E) = true -> targets_unlinked E f ->
  may_delete E T F f q ->
  (exists t, t ∈ T /\ under (cwd E ++ [t]) q) \/
  (exists x, x ∈ F /\ x <> own_script /\ q = cwd E ++ [x]).
Proof.
  intros HT HF Hc Hl [(t & r & Ht & Hs & Hu)|(x & Hx & Hne & He)].
  - left. exists t. split; [exact Ht|].
    rewrite (pjoin_target _ _ (HT _ Ht)) in Hs.
    apply stat_child_inv in Hs as [-> _]; [exact Hu|exact Hc|].
    intros tgt. apply Hl. by apply HT.
  - right. exists x. split; [exact Hx|]. split; [exact Hne|].
    rewrite (pjoin_file _ _ (HF _ Hx)), (entry_of_child _ _ _ Hc) in He.
    by inversion He.
Qed.

(** After the directory loop the project directory is still there and the
    listed files are as they were. *)
Lemma targets_loop_keeps (E : env) (w : world) :
  real_dir (fs w) (cwd E) = true -> targets_unlinked E (fs w) ->
  let w1 := world_of (for_each targets (remove_target E (cwd E)) w) in
  fs w1 ⊆ fs w /\
  real_dir (fs w1) (cwd E) = true /\
  (forall x, x ∈ files -> fs w1 !! (cwd E ++ [x]) = fs w !! (cwd E ++ [x])).
Proof.
  intros Hc Hl w1.
  assert (Hsub : targets ⊆ targets) by done.
  pose proof (for_each_targets_deletes E targets [] targets Hsub w) as Hd. fold w1 in Hd.
  assert (Hno : forall q, (forall t, t ∈ targets -> ~ under (cwd E ++ [t]) q) ->
                          fs w1 !! q = fs w !! q).
  { intros q Hq. eapply deletes_within_lookup; [exact Hd|]. intros Hmd.
    apply may_delete_plain in Hmd as [(t & Ht & Hu)|(x & Hx & _)]; try assumption.
    - by apply (Hq t).
    - by apply elem_of_nil in Hx.
    - intros x Hx. by apply elem_of_nil in Hx. }
  split; [by destruct Hd|]. split.
  - rewrite <- Hc. apply real_dir_agree. intros q Hq. apply Hno.
    intros t _. by apply not_under_prefix.
  - intros x Hx. apply Hno. intros t Ht Hu.
    apply (files_not_targets x Hx). replace x with t; [exact Ht|].
    eapply under_child_neq; [exact Hu|]. exists []. by rewrite app_nil_r.
Qed.

(** C6, as the code has it.  In a project directory with a marker present
    where no listed directory name is a symbolic link, ProjectCleaner
    returns normally and: (a) every listed name that is a directory whose
    tree the OS lets it delete is gone with everything below it, and its
    removal notice is printed; (b) every listed file other than the script
    that is a regular file and not refused is gone, with its notice;
    (c) every entry that is neither below a listed directory name nor a
    listed file other than the script -- the script itself, a directory
    such as [unrelated_data] -- is exactly as before. *)
Theorem C6_project_cleaner_effect (E : env) (w : world) :
  real_dir (fs w) (cwd E) = true ->
  marker_present E (fs w) = true ->
  targets_unlinked E (fs w) ->
  let r := remove_local_artifacts E w in
  result_of r = Ok tt /\
  (forall t, t ∈ targets ->
     fs w !! (cwd E ++ [t]) = Some Dir -> tree_free E (fs w) (cwd E ++ [t]) ->
     (forall q, under (cwd E ++ [t]) q -> fs (world_of r) !! q = None) /\
     removed_dir_notice (cwd E ++ [t]) ∈ trace_of r) /\
  (forall x d, x ∈ files -> x <> own_script ->
     fs w !! (cwd E ++ [x]) = Some (File d) -> deny E (cwd E ++ [x]) = false ->
     fs (world_of r) !! (cwd E ++ [x]) = None /\
     removed_file_notice (cwd E ++ [x]) ∈ trace_of r) /\
  (forall q,
     (forall t, t ∈ targets -> ~ under (cwd E ++ [t]) q) ->
     (forall x, x ∈ files -> x <> own_script -> q <> cwd E ++ [x]) ->
     fs (world_of r) !! q = fs w !! q).
Proof.
  intros Hc Hm Hl r.
  assert (Hfr : forall q,
     (forall t, t ∈ targets -> ~ under (cwd E ++ [t]) q) ->
     (forall x, x ∈ files -> x <> own_script -> q <> cwd E ++ [x]) ->
     fs (world_of r) !! q = fs w !! q).
  { intros q Hq1 Hq2.
    eapply deletes_within_lookup; [apply remove_local_artifacts_deletes|]. intros Hmd.
    apply may_delete_plain in Hmd as [(t & Ht & Hu)|(x & Hx & Hne & Heq)];
      try assumption; try done.
    - by apply (Hq1 t).
    - by apply (Hq2 x). }
  subst r. revert Hfr. rewrite (remove_local_artifacts_run E w Hc Hm).
  set (r1 := for_each targets (remove_target E (cwd E)) w).
  set (r2 := for_each files (remove_file E (cwd E)) (world_of r1)).
  unfold result_of, world_of at 1 2 3, trace_of at 1 4. cbn [fst snd]. intros Hfr.
  destruct (targets_loop_keeps E w Hc Hl) as (Hsub1 & Hc1 & Hfiles). fold r1 in Hsub1, Hc1, Hfiles.
  split; [reflexivity|]. split; [|split; [|exact Hfr]].
  - intros t Ht Hd Hfree.
    destruct (targets_loop_removes E targets t w) as [Hgone Hnote]; try assumption; try done.
    fold r1 in Hgone, Hnote. split.
    + intros q Hq. eapply lookup_weaken_None; [by apply Hgone|].
      by apply for_each_files_subseteq.
    + apply elem_of_cons. right. apply elem_of_app. by left.
  - intros x d Hx Hne Hk Hdeny.
    destruct (files_loop_removes E files x d (world_of r1)) as [Hgone Hnote];
      try assumption; try done.
    { by rewrite Hfiles. }
    fold r2 in Hgone, Hnote. split; [exact Hgone|].
    apply elem_of_cons. right. apply elem_of_app. right. apply elem_of_app. by left.
Qed.

(** Closing a decidable statement about a concrete scenario by evaluation. *)
Ltac by_compute :=
  match goal with
  | |- ?P => let d := constr:(_ : Decision P) in
             apply (@bool_decide_unpack P d); vm_compute; reflexivity
  end.

Lemma plain_targets_unlinked (c : path) (yes : bool) (w : world) :
  Forall (fun t => match fs w !! (c ++ [t]) with Some (Link _) => False | _ => True end)
         targets ->
  targets_unlinked (plain_env c yes) w.(fs).
Proof.
  intros H t tgt Ht Hk. rewrite Forall_forall in H. specialize (H t Ht).
  cbn [cwd plain_env] in Hk. by rewrite Hk in H.
Qed.

Lemma C6_project_cleaner_effect_witness :
  let E := plain_env ["proj"] true in
  let w := logs_world in
  real_dir (fs w) (cwd E) = true /\
  marker_present E (fs w) = true /\
  targets_unlinked E (fs w) /\
  fs (world_of (remove_local_artifacts E w)) !! ["proj"; "logs"; "run.log"] = None /\
  removed_dir_notice ["proj"; "logs"] ∈ trace_of (remove_local_artifacts E w) /\
  fs (world_of (remove_local_artifacts E w)) !! ["proj"; "unrelated_data"; "keep"]
  = Some (File "data").
Proof.
  intros E w.
  assert (Hc : real_dir (fs w) (cwd E) = true) by (vm_compute; reflexivity).
  assert (Hm : marker_present E (fs w) = true) by (vm_compute; reflexivity).
  assert (Hl : targets_unlinked E (fs w)).
  { apply plain_targets_unlinked. repeat constructor. }
  destruct (C6_project_cleaner_effect E w Hc Hm Hl) as (_ & Ha & _ & Hfr).
  split; [exact Hc|]. split; [exact Hm|]. split; [exact Hl|].
  destruct (Ha "logs") as [Hgone Hnote].
  - unfold targets. left.
  - vm_compute. reflexivity.
  - by_compute.
  - split; [|split; [exact Hnote|]].
    + apply Hgone. exists ["run.log"]. reflexivity.
    + rewrite Hfr; [vm_compute; reflexivity| |].
      * intros t Ht [k Hk]. cbn [cwd plain_env app] in Hk.
        inversion Hk; subst. revert Ht. by_compute.
      * intros x _ _ Hq. cbn [cwd plain_env app] in Hq. discriminate Hq.
Defined.

(** The rule fails on the script itself: it is a listed file, it exists,
    and the guard keeps it. *)
Lemma C6_counterexample :
  ~ (marker_present (plain_env ["proj"] true) (fs script_only_world) = true ->
     removes_exactly_the_listed (plain_env ["proj"] true) script_only_world).
Proof.
  intros H. destruct H as [H _]; [vm_compute; reflexivity|].
  specialize (H own_script).
  assert (Hin : own_script ∈ targets ++ files).
  { by_compute. }
  specialize (H Hin). vm_compute in H. specialize (H eq_refl). discriminate H.
Qed.

(** C1 at its failing input.  [logs] is a link to the project directory:
    [exists] follows it, [resolve] turns it into the directory itself, and
    [rmtree] deletes that directory with the script in it. *)
Theorem C1_script_deleted_through_linked_target :
  let E := plain_env ["proj"] true in
  let w := linked_logs_world in
  marker_present E (fs w) = true /\
  fs w !! (cwd E ++ [own_script]) = Some (File "uninstall") /\
  result_of (remove_local_artifacts E w) = Ok tt /\
  fs (world_of (remove_local_artifacts E w)) !! (cwd E ++ [own_script]) = None /\
  removed_dir_notice ["proj"] ∈ trace_of (remove_local_artifacts E w).
Proof.
  intros E w. repeat split; try (vm_compute; reflexivity).
  by_compute.
Qed.

(** ** The orchestrator (C4, C9) *)

Lemma total_run_value {A} (m : M A) (w : world) :
  total m -> exists a, m w = (Ok a, world_of (m w), trace_of (m w)).
Proof.
  intros Ht. destruct (Ht w) as [a Hr]. exists a.
  unfold result_of, world_of, trace_of in *.
  destruct (m w) as [[o w1] t1]. cbn [fst snd] in *. by subst o.
Qed.

Lemma main_cancelled (E : env) (w : world) :
  confirmed E = false ->
  main E w = (Exit 0%Z, w, [banner; danger_notice; cancel_notice]).
Proof.
  unfold confirmed. intros H. apply orb_false_iff in H as [Hyes Hans].
  unfold main, Confirm_ask. rewrite Hyes. cbn [negb]. unfold_monad.
  rewrite Hans. reflexivity.
Qed.

(** Once confirmation is granted the gate returns normally. *)
Lemma gate_passes (E : env) (w : world) :
  confirmed E = true ->
  (if negb (cli_yes E) then
     let* _ := console_print
       "[bold red]DANGER:[/bold red] This will remove SentinelX configuration, logs, symlinks, and installed files." in
     let* ok := Confirm_ask E "Are you sure you want to proceed?" in
     if negb ok then
       let* _ := console_print "[bold yellow]Uninstall cancelled.[/bold yellow]" in
       sys_exit 0%Z
     else ret tt
   else ret tt) w
  = (Ok tt, w, if cli_yes E then [] else [danger_notice]).
Proof.
  unfold confirmed, Confirm_ask. intros H.
  destruct (cli_yes E); cbn [negb orb] in *; [reflexivity|].
  unfold_monad. rewrite H. reflexivity.
Qed.

Lemma bind_then_two_prints (m : M unit) (a b : string) (w : world) :
  (let* _ := m in let* _ := console_print a in console_print b) w =
  (result_of (m w), world_of (m w),
   trace_of (m w) ++ match result_of (m w) with
                     | Ok _ => [Print a; Print b]
                     | _ => []
                     end).
Proof.
  unfold bind, console_print, result_of, world_of, trace_of.
  destruct (m w) as [[[[]|e|c] w1] t1]; cbn [fst snd]; rewrite ?app_nil_r; reflexivity.
Qed.

(** The run after the gate: the four steps act in order, each on the world
    the previous one left, whatever they return; only an exception of the
    last step can end the run before the closing notices. *)
Lemma main_run (E : env) (w : world) :
  confirmed E = true ->
  let r1 := uninstall_pip_package E (cli_yes E) w in
  let r2 := remove_symlinks E (world_of r1) in
  let r3 := remove_user_config E (world_of r2) in
  let r4 := remove_local_artifacts E (world_of r3) in
  main E w =
  (result_of r4, world_of r4,
   banner :: (if cli_yes E then [] else [danger_notice]) ++
   start_notice :: trace_of r1 ++ trace_of r2 ++ trace_of r3 ++ trace_of r4 ++
   match result_of r4 with
   | Ok _ => [complete_notice; final_note]
   | _ => []
   end).
Proof.
  intros Hconf r1 r2 r3 r4. unfold main.
  destruct (total_run_value _ w (total_uninstall_pip_package E (cli_yes E))) as [b1 H1].
  pose proof (total_run _ (world_of r1) (total_remove_symlinks E)) as H2.
  pose proof (total_run _ (world_of r2) (total_remove_user_config E)) as H3.
  fold r1 in H1. fold r2 in H2. fold r3 in H3.
  etrans.
  { eapply bind_eq; [reflexivity|].
    eapply bind_eq; [apply (gate_passes E w Hconf)|].
    eapply bind_eq; [reflexivity|].
    eapply bind_eq; [exact H1|].
    eapply bind_eq; [exact H2|].
    eapply bind_eq; [exact H3|].
    apply bind_then_two_prints. }
  fold r4. unfold banner, start_notice, complete_notice, final_note.
  cbn [app]. first [reflexivity | do 3 f_equal].
Qed.

(** C4 at its failing input.  The run is started from inside
    [~/.sentinelx].  The third step deletes that directory, the working
    directory with it, and [Path.cwd()] at the start of the fourth step
    raises [FileNotFoundError], which nothing catches: the run ends there,
    before the completion banner. *)
Theorem C4_run_aborts_when_cwd_is_removed :
  let E := plain_env ["home"; "op"; ".sentinelx"] true in
  let w := config_dir_world in
  confirmed E = true /\
  real_dir (fs w) (cwd E) = true /\
  result_of (main E w) = Raise (FileNotFoundError []) /\
  removed_dir_notice ["home"; "op"; ".sentinelx"] ∈ trace_of (main E w) /\
  complete_notice ∉ trace_of (main E w).
Proof.
  intros E w. repeat split; try (vm_compute; reflexivity); by_compute.
Qed.

(** Where the working directory is still there when the fourth step
    starts, the run goes through all four steps and ends with the
    completion banner, whatever the steps returned. *)
Lemma main_completes (E : env) (w : world) :
  confirmed E = true ->
  let r1 := uninstall_pip_package E (cli_yes E) w in
  let r2 := remove_symlinks E (world_of r1) in
  let r3 := remove_user_config E (world_of r2) in
  real_dir (fs (world_of r3)) (cwd E) = true ->
  result_of (main E w) = Ok tt /\
  exists t, trace_of (main E w) = t ++ [complete_notice; final_note].
Proof.
  intros Hconf r1 r2 r3 Hc. rewrite (main_run E w Hconf). fold r1 r2 r3.
  set (r4 := remove_local_artifacts E (world_of r3)).
  assert (H4 : result_of r4 = Ok tt).
  { subst r4. rewrite remove_local_artifacts_eq, Hc.
    destruct (total_remove_local_artifacts_in E (cwd E) (world_of r3)) as [[] H]. exact H. }
  unfold result_of at 1, trace_of at 1. cbn [fst snd]. rewrite H4.
  split; [reflexivity|].
  eexists (banner :: (if cli_yes E then [] else [danger_notice]) ++
           start_notice :: trace_of r1 ++ trace_of r2 ++ trace_of r3 ++ trace_of r4).
  cbn [app]. f_equal. rewrite <- !app_assoc. cbn [app]. rewrite <- !app_assoc. reflexivity.
Qed.

(** ** Running twice (C9) *)

#[local] Instance shrinks_refl (E : env) : Reflexive (shrinks E).
Proof. intros w. split; [reflexivity|]. split; [by intros|by intros]. Qed.

#[local] Instance shrinks_trans (E : env) : Transitive (shrinks E).
Proof.
  intros w1 w2 w3 (Hs12 & Hd12 & Hp12) (Hs23 & Hd23 & Hp23).
  split; [by etrans|]. split.
  - intros q n Hq Hd. apply Hd23; [|exact Hd]. by apply Hd12.
  - intros H. by apply Hp12, Hp23.
Qed.

Lemma shrinks_set_fs (E : env) (w : world) (f : FS) :
  f ⊆ fs w ->
  (forall q n, fs w !! q = Some n -> deny E q = true -> f !! q = Some n) ->
  shrinks E w (set_fs w f).
Proof. intros Hsub Hd. split; [exact Hsub|]. split; [exact Hd|by intros]. Qed.

Lemma unlink_block_shrinks (E : env) (p : path) (okmsg : string) (h : exn -> M unit) :
  (forall e w', world_of (h e w') = w') ->
  preserves (shrinks E) (try_except (let* _ := os_remove E p in console_print okmsg) h).
Proof.
  intros Hh w. rewrite unlink_block.
  destruct (os_remove_cases E p w) as [[e He]|(k & n & Hl & _ & Hd & He)]; rewrite He.
  - rewrite Hh. reflexivity.
  - unfold world_of. cbn [fst snd]. apply shrinks_set_fs; [apply delete_subseteq|].
    intros q m Hq Hdq. rewrite lookup_delete_ne; [exact Hq|]. intros ->. congruence.
Qed.

Lemma rmtree_fs_shrinks (E : env) (w : world) (k : path) :
  shrinks E w (set_fs w (rmtree_fs E (fs w) k)).
Proof.
  apply shrinks_set_fs; [apply rmtree_fs_subseteq|].
  intros q n Hq Hd. rewrite rmtree_fs_kept; [exact Hq|].
  intros [Hu [Hfree|[_ Hnd]]]; [|congruence].
  specialize (Hfree q n Hq Hu). congruence.
Qed.

Lemma remove_directory_shrinks (E : env) (p : pypath) :
  preserves (shrinks E) (remove_directory E p).
Proof.
  intros w. destruct (remove_directory_cases E p w) as (b & t & [H|[k H]]);
    rewrite H; unfold world_of; cbn [fst snd]; [reflexivity|apply rmtree_fs_shrinks].
Qed.


Lemma run_child_shrinks (E : env) (argv : list string) (w : world) :
  shrinks E w (run_child E argv w).2.
Proof.
  unfold run_child.
  repeat (match goal with |- context [if ?b then _ else _] => destruct b end);
    cbn [snd]; try reflexivity.
  split; [reflexivity|]. split; [by intros|]. cbn [pip_installed]. discriminate.
Qed.

Lemma uninstall_pip_package_shrinks (E : env) (force : bool) :
  preserves (shrinks E) (uninstall_pip_package E force).
Proof.
  intros w. rewrite uninstall_pip_package_eq.
  destruct (python_ok E), (pip_installed w); try reflexivity.
  cbv zeta. destruct (decide _); apply run_child_shrinks.
Qed.

Lemma remove_symlinks_shrinks (E : env) : preserves (shrinks E) (remove_symlinks E).
Proof.
  unfold remove_symlinks.
  apply preserves_bind; [apply _|apply preserves_get_fs; apply _|]. intros f.
  apply preserves_bind; [apply _| |].
  - destruct (_ || _); [|apply preserves_ret; apply _].
    apply unlink_block_shrinks. reflexivity.
  - intros _. apply preserves_bind; [apply _|apply preserves_get_fs; apply _|]. intros f'.
    destruct (_ || _); [|apply preserves_ret; apply _].
    apply unlink_block_shrinks. reflexivity.
Qed.

Lemma remove_user_config_shrinks (E : env) : preserves (shrinks E) (remove_user_config E).
Proof.
  unfold remove_user_config.
  apply preserves_bind; [apply _|apply preserves_get_fs; apply _|]. intros f.
  destruct (path_exists _ _); [|apply preserves_print; apply _].
  apply preserves_bind; [apply _|apply preserves_print; apply _|]. intros _.
  apply preserves_bind; [apply _|apply remove_directory_shrinks|]. intros _.
  apply preserves_ret; apply _.
Qed.

Lemma remove_target_shrinks (E : env) (c : path) (t : string) :
  preserves (shrinks E) (remove_target E c t).
Proof.
  unfold remove_target.
  apply preserves_bind; [apply _|apply preserves_get_fs; apply _|]. intros f.
  destruct (path_exists _ _); [|apply preserves_ret; apply _].
  apply preserves_bind; [apply _|apply remove_directory_shrinks|]. intros _.
  apply preserves_ret; apply _.
Qed.

Lemma remove_file_shrinks (E : env) (c : path) (x : string) :
  preserves (shrinks E) (remove_file E c x).
Proof.
  unfold remove_file.
  apply preserves_bind; [apply _|apply preserves_get_fs; apply _|]. intros f.
  destruct (_ && _); [|apply preserves_ret; apply _].
  apply unlink_block_shrinks. reflexivity.
Qed.

Lemma remove_local_artifacts_in_shrinks (E : env) (c : path) :
  preserves (shrinks E) (remove_local_artifacts_in E c).
Proof.
  unfold remove_local_artifacts_in.
  apply preserves_bind; [apply _|apply preserves_get_fs; apply _|]. intros f.
  destruct (existsb _ _); [|apply preserves_print; apply _].
  apply preserves_bind; [apply _|apply preserves_print; apply _|]. intros _.
  apply preserves_bind; [apply _| |].
  { apply preserves_for_each; try apply _. intros t _. apply remove_target_shrinks. }
  intros _. apply preserves_bind; [apply _| |].
  { apply preserves_for_each; try apply _. intros t _. apply remove_file_shrinks. }
  intros _. apply preserves_bind; [apply _|apply preserves_print; apply _|]. intros _.
  apply preserves_print; apply _.
Qed.

Lemma remove_local_artifacts_shrinks (E : env) :
  preserves (shrinks E) (remove_local_artifacts E).
Proof.
  intros w. rewrite remove_local_artifacts_eq.
  destruct (real_dir (fs w) (cwd E)); [apply remove_local_artifacts_in_shrinks|reflexivity].
Qed.






Lemma world_eq (w1 w2 : world) :
  fs w1 = fs w2 -> pip_installed w1 = pip_installed w2 -> w1 = w2.
Proof. destruct w1, w2. cbn. by intros -> ->. Qed.








Lemma total_then_ret {A : Type} (m : M A) : total m -> total (let* _ := m in ret tt).
Proof. intros H. apply total_bind; [exact H|]. intros _. apply total_ret. Qed.











(** The world that a run leaves behind. *)
Lemma main_world (E : env) (w : world) :
  world_of (main E w) =
  if confirmed E then
    world_of (remove_local_artifacts E
      (world_of (remove_user_config E
        (world_of (remove_symlinks E
          (world_of (uninstall_pip_package E (cli_yes E) w)))))))
  else w.
Proof.
  destruct (confirmed E) eqn:Hc.
  - by rewrite (main_run E w Hc).
  - by rewrite (main_cancelled E w Hc).
Qed.



(** * Further properties of the uninstaller and of the report helpers *)

(** ** Resolution of the last component *)

Transparent stat.

Lemma follow_links_snoc f k r (rp : path) (c : string) (n : node) :
  follow_links k f r = Done rp Dir ->
  f !! (rp ++ [c]) = Some n -> (forall tgt, n <> Link tgt) ->
  follow_links k f (match r with
                    | Done q m => walk f q m [c]
                    | Follow p => Follow (p ++ [c])
                    | Lost => Lost
                    end) = Done (rp ++ [c]) n.
Proof.
  intros Hf Hk Hn.
  assert (Hlast : walk f rp Dir [c] = Done (rp ++ [c]) n).
  { cbn [walk]. rewrite Hk. destruct n as [d| |tgt]; [reflexivity|reflexivity|].
    exfalso. exact (Hn tgt eq_refl). }
  revert r Hf. induction k as [|k IH]; intros r Hf.
  - cbn [follow_links] in *. subst r. exact Hlast.
  - destruct r as [q m|p|].
    + rewrite follow_links_done in Hf. injection Hf as -> ->.
      rewrite Hlast. apply follow_links_done.
    + cbn [follow_links follow_link] in *.
      rewrite walk_app. apply IH. exact Hf.
    + rewrite follow_links_lost in Hf. discriminate Hf.
Qed.

(** A name in a resolved directory that is not a link resolves to its own
    entry. *)
Lemma stat_snoc f (p rp : path) (c : string) (n : node) :
  stat f p = Some (rp, Dir) ->
  f !! (rp ++ [c]) = Some n -> (forall tgt, n <> Link tgt) ->
  stat f (p ++ [c]) = Some (rp ++ [c], n).
Proof.
  unfold stat. intros Hs Hk Hn.
  destruct (follow_links MAXSYMLINKS f (walk f [] Dir p)) as [q m| |] eqn:Hf;
    try discriminate Hs.
  injection Hs as -> ->.
  rewrite walk_app.
  rewrite (follow_links_snoc f MAXSYMLINKS _ rp c n Hf Hk Hn). reflexivity.
Qed.

Opaque stat.

Lemma lstat_stat f (p k : path) (n : node) :
  lstat f p = Some (k, n) -> (forall tgt, n <> Link tgt) -> stat f p = Some (k, n).
Proof.
  intros Hl Hn.
  destruct (unsnoc_inv p) as [->|(q & c & -> & Hu)].
  - unfold lstat, entry_of in Hl. cbn [unsnoc] in Hl. injection Hl as <- <-.
    apply walk_stat. reflexivity.
  - pose proof (lstat_entry _ _ _ _ Hl) as He.
    unfold entry_of in He. rewrite Hu in He.
    destruct (stat f q) as [[rp [d| |t]]|] eqn:Hs; try discriminate He.
    injection He as <-.
    apply (stat_snoc f q rp c n Hs); [|exact Hn].
    apply (lstat_lookup _ _ _ _ Hl). intros H. destruct rp; discriminate H.
Qed.

(** ** FileRemover on an existing directory *)

(** X1. When the path leads (through [~] and symbolic links) to a directory
    [k] and the OS refuses nothing in its tree, [remove_directory] returns
    [True], prints the removal notice for the resolved path, and the file
    system afterwards is the old one with exactly the tree of [k] taken
    out; the package state is untouched. *)
Theorem X1_remove_directory_removes_tree (E : env) (p : pypath) (w : world) (k : path) :
  stat (fs w) (expanduser E p) = Some (k, Dir) ->
  tree_free E (fs w) k ->
  let r := remove_directory E p w in
  result_of r = Ok true /\
  trace_of r = [removed_dir_notice k] /\
  pip_installed (world_of r) = pip_installed w /\
  forall q, fs (world_of r) !! q = if decide (under k q) then None else fs w !! q.
Proof.
  intros Hs Hfree r. subst r.
  rewrite (remove_directory_eq E p w (stat_exists _ _ _ Hs)), Hs.
  destruct (decide (tree_free E (fs w) k)) as [_|Hn]; [|contradiction].
  unfold result_of, trace_of, world_of, set_fs. cbn [fst snd fs pip_installed].
  split; [reflexivity|]. split; [reflexivity|]. split; [reflexivity|].
  intros q. destruct (decide (under k q)) as [Hu|Hu].
  - apply rmtree_fs_removed. split; [exact Hu|]. left. exact Hfree.
  - apply rmtree_fs_kept. intros [Hu' _]. contradiction.
Qed.

Lemma X1_remove_directory_removes_tree_witness :
  let E := plain_env ["proj"] true in
  let w := logs_world in
  let r := remove_directory E (Abs ["proj"; "logs"]) w in
  stat (fs w) ["proj"; "logs"] = Some (["proj"; "logs"], Dir) /\
  tree_free E (fs w) ["proj"; "logs"] /\
  result_of r = Ok true /\
  fs (world_of r) !! ["proj"; "logs"; "run.log"] = None /\
  fs (world_of r) !! ["proj"; "setup.py"] = Some (File "setup").
Proof.
  intros E w r.
  assert (Hs : stat (fs w) (expanduser E (Abs ["proj"; "logs"]))
               = Some (["proj"; "logs"], Dir)) by (vm_compute; reflexivity).
  assert (Hf : tree_free E (fs w) ["proj"; "logs"]) by by_compute.
  destruct (X1_remove_directory_removes_tree E (Abs ["proj"; "logs"]) w _ Hs Hf)
    as (Hr & _ & _ & Hq).
  split; [exact Hs|]. split; [exact Hf|]. split; [exact Hr|].
  split; subst r; rewrite Hq; vm_compute; reflexivity.
Defined.

(** X2. When the path leads to a directory [k] but the OS refuses some
    entry of its tree, [remove_directory] does not raise: it returns
    [False] after printing one failure notice.  Whatever part of the tree
    was deleted before the refusal, nothing outside the tree is touched, no
    refused entry is gone, and at least one entry of the tree is still
    there. *)
Theorem X2_remove_directory_refused (E : env) (p : pypath) (w : world) (k : path) :
  stat (fs w) (expanduser E p) = Some (k, Dir) ->
  ~ tree_free E (fs w) k ->
  let r := remove_directory E p w in
  result_of r = Ok false /\
  (exists e, trace_of r = [failed_dir_notice k e]) /\
  pip_installed (world_of r) = pip_installed w /\
  fs (world_of r) ⊆ fs w /\
  (forall q, ~ under k q -> fs (world_of r) !! q = fs w !! q) /\
  (forall q, deny E q = true -> fs (world_of r) !! q = fs w !! q) /\
  (exists q n, under k q /\ fs (world_of r) !! q = Some n).
Proof.
  intros Hs Hfree r. subst r.
  rewrite (remove_directory_eq E p w (stat_exists _ _ _ Hs)), Hs.
  destruct (decide (tree_free E (fs w) k)) as [Hy|_]; [contradiction|].
  unfold result_of, trace_of, world_of, set_fs. cbn [fst snd fs pip_installed].
  assert (Hden : forall q, deny E q = true ->
                           rmtree_fs E (fs w) k !! q = fs w !! q).
  { intros q Hq. apply rmtree_fs_kept. intros [_ [Hy|[_ Hd]]]; [contradiction|].
    rewrite Hq in Hd. discriminate Hd. }
  split; [reflexivity|]. split; [eexists; reflexivity|]. split; [reflexivity|].
  split; [apply rmtree_fs_subseteq|].
  split; [|split; [exact Hden|]].
  - intros q Hq. apply rmtree_fs_kept. intros [Hu _]. contradiction.
  - unfold tree_free in Hfree. apply map_not_Forall in Hfree; [|apply _].
    destruct Hfree as (q & n & Hq & Hnot).
    destruct (decide (under k q)) as [Hu|Hu]; [|exfalso; apply Hnot; intros; contradiction].
    destruct (deny E q) eqn:Hd; [|exfalso; apply Hnot; intros; reflexivity].
    exists q, n. split; [exact Hu|]. rewrite (Hden q Hd). exact Hq.
Qed.

Lemma X2_remove_directory_refused_witness :
  let E := locked_log_env in
  let w := logs_world in
  let r := remove_directory E (Abs ["proj"; "logs"]) w in
  stat (fs w) ["proj"; "logs"] = Some (["proj"; "logs"], Dir) /\
  ~ tree_free E (fs w) ["proj"; "logs"] /\
  result_of r = Ok false /\
  fs (world_of r) !! ["proj"; "logs"; "run.log"] = Some (File "log").
Proof.
  intros E w r.
  assert (Hs : stat (fs w) (expanduser E (Abs ["proj"; "logs"]))
               = Some (["proj"; "logs"], Dir)) by (vm_compute; reflexivity).
  assert (Hf : ~ tree_free E (fs w) ["proj"; "logs"]) by by_compute.
  destruct (X2_remove_directory_refused E (Abs ["proj"; "logs"]) w _ Hs Hf)
    as (Hr & _ & _ & _ & _ & Hd & _).
  split; [exact Hs|]. split; [exact Hf|]. split; [exact Hr|].
  subst r. rewrite Hd; vm_compute; reflexivity.
Defined.



(** ** ConfigCleaner *)

(** X4. [remove_user_config] never raises, and what it does is decided by
    what [~/.sentinelx] leads to.  Nothing there: the "no configuration"
    notice, nothing changed.  A directory: the "found" notice, then exactly
    what [remove_directory] does on it, whose return value is dropped.
    Anything else (a regular file, a link to one): the "found" notice and
    nothing more, neither a removal nor a failure notice. *)
Theorem X4_remove_user_config_cases (E : env) (w : world) :
  let c := config_dir E in
  let rd := remove_directory E (Abs c) w in
  remove_user_config E w =
  match stat (fs w) c with
  | None => (Ok tt, w, [no_config_notice])
  | Some (_, Dir) => (Ok tt, world_of rd, found_config_notice c :: trace_of rd)
  | Some _ => (Ok tt, w, [found_config_notice c])
  end.
Proof.
  intros c rd. unfold remove_user_config. fold (config_dir E). fold c.
  unfold bind at 1. unfold get_fs at 1. cbv beta iota.
  unfold path_exists.
  destruct (stat (fs w) c) as [[k n]|] eqn:Hs; [|reflexivity].
  assert (Hrd : exists b, remove_directory E (Abs c) w = (Ok b, world_of rd, trace_of rd)).
  { apply total_run_value. apply total_remove_directory. }
  destruct Hrd as [b Hrd].
  assert (Hgo : (let* _ := console_print ("[yellow]Found user configuration at "
                                          +:+ show_path c +:+ "[/yellow]") in
                 let* _ := remove_directory E (Abs c) in ret tt) w
                = (Ok tt, world_of rd, found_config_notice c :: trace_of rd)).
  { unfold bind, console_print, ret. rewrite Hrd. cbv beta iota.
    rewrite app_nil_r. reflexivity. }
  rewrite Hgo.
  assert (Hskip : n <> Dir -> rd = (Ok false, w, [])).
  { intros Hn. subst rd. apply remove_directory_skip. right.
    unfold path_exists, path_is_dir. cbn [expanduser]. rewrite Hs.
    split; [reflexivity|]. destruct n; [reflexivity| |reflexivity].
    exfalso. apply Hn. reflexivity. }
  destruct n as [d| |t]; [|reflexivity|]; rewrite Hskip by discriminate; reflexivity.
Qed.

(** ** ProjectCleaner: what it can reach *)

(** X5. [remove_local_artifacts] only deletes, and only in two kinds of
    places: an entry that is gone or changed afterwards lies in the tree of
    a directory that one of the eight listed names resolves to, or is the
    entry of one of the listed files other than the script itself.  The
    package state is not touched. *)
Theorem X5_project_cleaner_reach (E : env) (w : world) :
  let w' := world_of (remove_local_artifacts E w) in
  fs w' ⊆ fs w /\
  pip_installed w' = pip_installed w /\
  forall q n, fs w !! q = Some n -> fs w' !! q <> Some n ->
    (exists t r, t ∈ targets /\ stat (fs w) (pjoin (cwd E) t) = Some (r, Dir) /\ under r q) \/
    (exists x, x ∈ files /\ x <> own_script /\ entry_of (fs w) (pjoin (cwd E) x) = Some q).
Proof.
  intros w'. destruct (remove_local_artifacts_deletes E w) as (Hsub & Hpip & Hd).
  fold w' in Hsub, Hpip, Hd.
  split; [exact Hsub|]. split; [exact Hpip|].
  intros q n Hq Hne. apply Hd; [eexists; exact Hq|].
  destruct (fs w' !! q) as [m|] eqn:Hm; [|reflexivity].
  exfalso. apply Hne. rewrite <- Hq. symmetry.
  exact (lookup_weaken _ _ _ _ Hm Hsub).
Qed.

(** X6. Where none of the eight listed directory names is a symbolic link,
    the uninstaller's own script is exactly as it was after
    [remove_local_artifacts], marker or no marker, whatever else is
    deleted or refused. *)
Theorem X6_script_kept_without_linked_targets (E : env) (w : world) :
  targets_unlinked E (fs w) ->
  fs (world_of (remove_local_artifacts E w)) !! (cwd E ++ [own_script])
  = fs w !! (cwd E ++ [own_script]).
Proof.
  intros Hun.
  destruct (real_dir (fs w) (cwd E)) eqn:Hc.
  - apply own_script_survives. intros t r Ht Hs Hu.
    rewrite pjoin_target in Hs by exact Ht.
    destruct (stat_child_inv _ _ _ _ _ Hc (fun tgt => Hun t tgt Ht) Hs) as [-> _].
    assert (Heq : t = own_script).
    { apply (under_child_neq (cwd E) t own_script (cwd E ++ [own_script]));
        [exact Hu|reflexivity]. }
    subst t. apply (files_not_targets own_script); [|exact Ht].
    by_compute.
  - rewrite remove_local_artifacts_eq, Hc. reflexivity.
Qed.

Lemma X6_script_kept_without_linked_targets_witness :
  let E := plain_env ["proj"] true in
  let w := logs_world in
  targets_unlinked E (fs w) /\
  fs (world_of (remove_local_artifacts E w)) !! ["proj"; "sentinelx_uninstall.py"]
  = Some (File "uninstall").
Proof.
  intros E w.
  assert (Hun : targets_unlinked E (fs w)).
  { apply plain_targets_unlinked. repeat constructor. }
  split; [exact Hun|].
  exact (X6_script_kept_without_linked_targets E w Hun).
Defined.

(** ** The orchestrator *)



(** X8. A run of [main] only takes away: every entry of the file system
    afterwards was there before with the same content, every entry the OS
    refuses to delete is still there, and the package is never listed
    afterwards unless it was listed before. *)
Theorem X8_main_only_deletes (E : env) (w : world) :
  let w' := world_of (main E w) in
  fs w' ⊆ fs w /\
  (forall q n, fs w !! q = Some n -> deny E q = true -> fs w' !! q = Some n) /\
  (pip_installed w' = true -> pip_installed w = true).
Proof.
  intros w'. change (shrinks E w w'). subst w'. rewrite main_world.
  destruct (confirmed E); [|reflexivity].
  etrans; [apply uninstall_pip_package_shrinks|].
  etrans; [apply remove_symlinks_shrinks|].
  etrans; [apply remove_user_config_shrinks|].
  apply remove_local_artifacts_shrinks.
Qed.

(** ** The fallback confirmation prompt *)

Lemma lower_ascii_y (c : ascii) :
  lower_ascii c = "y"%char <-> c = "y"%char \/ c = "Y"%char.
Proof.
  destruct c as [[] [] [] [] [] [] [] []]; vm_compute;
    (split; [intros H; first [discriminate H | left; reflexivity | right; reflexivity]
            | intros [H|H]; first [discriminate H | reflexivity]]).
Qed.

(** X9. The fallback [Confirm.ask] says yes exactly to the answers whose
    first character is [y] or [Y], whatever follows; the empty answer and
    every other answer mean no.  It changes nothing. *)
Theorem X9_confirm_ask_accepts (E : env) (msg : string) (w : world) :
  exists b, Confirm_ask E msg w = (Ok b, w, []) /\
  (b = true <-> exists rest, answer E = String "y" rest \/ answer E = String "Y" rest).
Proof.
  exists (String.prefix "y" (lower (answer E))). split; [reflexivity|].
  destruct (answer E) as [|c s].
  - split; [intros H; discriminate H|]. intros (rest & [H|H]); discriminate H.
  - cbn [lower String.prefix].
    destruct (ascii_dec "y" (lower_ascii c)) as [Heq|Hne].
    + symmetry in Heq. apply lower_ascii_y in Heq.
      split; [|intros _; destruct (lower s); reflexivity].
      intros _. exists s. destruct Heq as [->| ->]; [left|right]; reflexivity.
    + split; [intros H; discriminate H|].
      intros (rest & [H|H]); injection H as Hc _; exfalso; apply Hne; symmetry;
        apply lower_ascii_y; [left|right]; exact Hc.
Qed.

(** ** SymlinkCleaner on particular launchers *)

(** X10. A launcher [~/.local/bin/sentinelX] that is a symbolic link --
    dangling or not -- and that the OS lets go is unlinked: its entry is
    gone afterwards and the removal notice is the first thing printed.
    Only the link goes: every other entry, what the link points to
    included, is as before, the entry of the lowercase candidate apart. *)
Theorem X10_launcher_link_unlinked (E : env) (w : world) (k tgt : path) :
  lstat (fs w) (launcher E) = Some (k, Link tgt) ->
  deny E k = false ->
  let r := remove_symlinks E w in
  fs (world_of r) !! k = None /\
  (exists t, trace_of r = removed_symlink_notice (launcher E) :: t) /\
  (forall q, q <> k -> entry_of (fs w) (legacy_launcher E) <> Some q ->
             fs (world_of r) !! q = fs w !! q).
Proof.
  intros Hl Hd r. subst r.
  destruct (remove_symlinks_run E w)
    as (ta & tb & w1 & w2 & -> & HA & _ & Hsub1 & Hsub2 & _ & Hfr2 & _).
  assert (Hpres : present (fs w) (launcher E) = true).
  { unfold present, path_is_symlink. rewrite Hl. apply orb_true_r. }
  cbv zeta in HA. rewrite Hpres in HA.
  rewrite (os_remove_ok E (launcher E) k (Link tgt) w Hl) in HA;
    [|discriminate|exact Hd].
  destruct HA as [-> ->].
  unfold world_of, trace_of. cbn [fst snd].
  split; [|split].
  - eapply lookup_weaken_None; [|exact Hsub2].
    unfold set_fs. cbn [fs]. apply lookup_delete_eq.
  - exists tb. reflexivity.
  - intros q Hq Hb. rewrite Hfr2.
    + unfold set_fs. cbn [fs]. apply lookup_delete_ne. congruence.
    + intros He. apply Hb. eapply entry_of_mono; [exact Hsub1|exact He].
Qed.

Lemma X10_launcher_link_unlinked_witness :
  let E := plain_env ["tmp"] true in
  let w := launcher_world in
  let k := ["home"; "op"; ".local"; "bin"; "sentinelX"] in
  lstat (fs w) (launcher E) = Some (k, Link ["opt"; "sentinelx"; "run.sh"]) /\
  deny E k = false /\
  fs (world_of (remove_symlinks E w)) !! k = None.
Proof.
  intros E w k.
  assert (Hl : lstat (fs w) (launcher E) = Some (k, Link ["opt"; "sentinelx"; "run.sh"]))
    by (vm_compute; reflexivity).
  assert (Hd : deny E k = false) by reflexivity.
  split; [exact Hl|]. split; [exact Hd|].
  exact (proj1 (X10_launcher_link_unlinked E w k _ Hl Hd)).
Defined.

(** X11. A directory that sits under the launcher's name is not removed:
    [os.remove] refuses it, the failure notice for the launcher is the
    first thing printed, and the step changes nothing except possibly the
    entry of the lowercase candidate. *)
Theorem X11_launcher_directory_kept (E : env) (w : world) (k : path) :
  lstat (fs w) (launcher E) = Some (k, Dir) ->
  let r := remove_symlinks E w in
  result_of r = Ok tt /\
  (exists e t, trace_of r = failed_symlink_notice (launcher E) e :: t) /\
  (forall q, entry_of (fs w) (legacy_launcher E) <> Some q ->
             fs (world_of r) !! q = fs w !! q).
Proof.
  intros Hl r. subst r.
  destruct (remove_symlinks_run E w)
    as (ta & tb & w1 & w2 & -> & HA & _ & _ & _ & _ & Hfr2 & _).
  assert (Hpres : present (fs w) (launcher E) = true).
  { unfold present, path_exists.
    rewrite (lstat_stat _ _ _ _ Hl) by discriminate. reflexivity. }
  assert (Hrm : os_remove E (launcher E) w
                = (Raise (IsADirectoryError (launcher E)), w, [])).
  { unfold os_remove. unfold_monad. rewrite Hl. reflexivity. }
  cbv zeta in HA. rewrite Hpres, Hrm in HA. destruct HA as [-> ->].
  unfold result_of, world_of, trace_of. cbn [fst snd].
  split; [reflexivity|]. split.
  - eexists _, tb. reflexivity.
  - exact Hfr2.
Qed.

Lemma X11_launcher_directory_kept_witness :
  let E := plain_env ["tmp"] true in
  let w := launcher_dir_world in
  let k := ["home"; "op"; ".local"; "bin"; "sentinelX"] in
  lstat (fs w) (launcher E) = Some (k, Dir) /\
  fs (world_of (remove_symlinks E w)) !! k = Some Dir /\
  fs (world_of (remove_symlinks E w)) !! (k ++ ["notes"]) = Some (File "mine").
Proof.
  intros E w k.
  assert (Hl : lstat (fs w) (launcher E) = Some (k, Dir)) by (vm_compute; reflexivity).
  destruct (X11_launcher_directory_kept E w k Hl) as (_ & _ & Hfr).
  split; [exact Hl|].
  split; (rewrite Hfr; [vm_compute; reflexivity|vm_compute; discriminate]).
Defined.

(** ** Names of report files *)

Lemma append_cons (x : ascii) (a b : string) : String x a +:+ b = String x (a +:+ b).
Proof. reflexivity. Qed.

Lemma append_assoc (a b c : string) : (a +:+ b) +:+ c = a +:+ (b +:+ c).
Proof.
  induction a as [|x a IH]; [reflexivity|]. rewrite !append_cons. by rewrite IH.
Qed.

Lemma append_nil_r (a : string) : a +:+ EmptyString = a.
Proof. induction a as [|x a IH]; [reflexivity|]. rewrite append_cons. by rewrite IH. Qed.

Lemma contains_char_app (c : ascii) (a b : string) :
  contains_char c (a +:+ b) = contains_char c a || contains_char c b.
Proof.
  induction a as [|x a IH]; [reflexivity|].
  rewrite append_cons. cbn [contains_char].
  destruct (decide (c = x)); [reflexivity|exact IH].
Qed.

Lemma split_slash_plain (s acc : string) :
  contains_char "/" s = false ->
  split_slash acc s = if decide (acc +:+ s = EmptyString) then [] else [acc +:+ s].
Proof.
  revert acc. induction s as [|x s IH]; intros acc H; cbn [split_slash contains_char] in *.
  - rewrite append_nil_r. reflexivity.
  - destruct (decide ("/"%char = x)) as [|Hx]; [discriminate H|].
    destruct (decide (x = "/"%char)) as [->|_]; [contradiction|].
    rewrite (IH _ H), append_assoc. reflexivity.
Qed.

Lemma split_slash_app (s t acc : string) :
  contains_char "/" s = false ->
  split_slash acc (s +:+ String "/" t) =
  (if decide (acc +:+ s = EmptyString) then [] else [acc +:+ s]) ++ split_slash EmptyString t.
Proof.
  revert acc. induction s as [|x s IH]; intros acc H.
  - change (EmptyString +:+ String "/" t) with (String "/" t).
    cbn [split_slash]. rewrite append_nil_r.
    destruct (decide ("/"%char = "/"%char)) as [_|Hn]; [reflexivity|contradiction].
  - rewrite append_cons. cbn [split_slash contains_char] in *.
    destruct (decide ("/"%char = x)) as [|Hx]; [discriminate H|].
    destruct (decide (x = "/"%char)) as [->|_]; [contradiction|].
    rewrite (IH _ H), append_assoc. reflexivity.
Qed.

(** Where the time stamp is one path component, a report file is the
    entry [reports/report_<stamp><ext>] of the working directory. *)
Lemma report_path (E : env) (ext : string) :
  contains_char "/" (timestamp E) = false ->
  contains_char "/" ext = false ->
  pjoin (cwd E) (("reports/" +:+ "report" +:+ "_" +:+ timestamp E) +:+ ext)
  = report_file E ext.
Proof.
  intros Ht He. unfold pjoin, report_file, report_name. f_equal.
  replace (("reports/" +:+ "report" +:+ "_" +:+ timestamp E) +:+ ext)
    with ("reports" +:+ String "/" ("report_" +:+ timestamp E +:+ ext))
    by reflexivity.
  rewrite split_slash_app by reflexivity.
  rewrite split_slash_plain.
  - reflexivity.
  - rewrite !contains_char_app, Ht, He. reflexivity.
Qed.

Lemma open_target_plain (k : nat) (f : FS) (p key : path) :
  entry_of f p = Some key -> key <> [] ->
  match f !! key with None | Some (File _) => True | Some _ => False end ->
  open_target k f p = inl key.
Proof.
  intros He Hk Hw. destruct k; cbn [open_target]; rewrite He;
    (destruct key as [|c key]; [contradiction|]);
    destruct (f !! (c :: key)) as [[d| |t]|]; reflexivity || contradiction.
Qed.

Lemma write_file_ok (E : env) (p key : path) (data : string) (failure : option exn)
    (w : world) :
  entry_of (fs w) p = Some key -> key <> [] -> writable E (fs w) key ->
  write_file E p data failure w =
  (match failure with Some e => Raise e | None => Ok tt end,
   set_fs w (<[key := File data]> (fs w)), []).
Proof.
  intros He Hk [Hnone Hd]. unfold write_file. unfold bind at 1. unfold get_fs at 1.
  cbv beta iota.
  rewrite (open_target_plain MAXSYMLINKS (fs w) p key He Hk) by (rewrite Hnone; exact I).
  rewrite Hd, andb_false_r. unfold_monad. unfold set_fs. destruct failure; reflexivity.
Qed.

Lemma generate_filename_there (E : env) (prefix : string) (w : world) :
  real_dir (fs w) (cwd E ++ ["reports"]) = true ->
  generate_filename E prefix w = (Ok ("reports/" +:+ prefix +:+ "_" +:+ timestamp E), w, []).
Proof.
  intros Hr. rewrite generate_filename_eq. cbv zeta.
  assert (Hp : pjoin (cwd E) "reports" = cwd E ++ ["reports"]) by reflexivity.
  rewrite Hp. unfold path_exists. rewrite (real_dir_stat _ _ Hr). reflexivity.
Qed.

Lemma report_entry (E : env) (ext : string) (w : world) :
  real_dir (fs w) (cwd E ++ ["reports"]) = true ->
  entry_of (fs w) (report_file E ext) = Some (report_file E ext) /\ report_file E ext <> [].
Proof.
  intros Hr. unfold report_file.
  change (cwd E ++ ["reports"; report_name E ext])
    with (cwd E ++ ["reports"] ++ [report_name E ext]).
  rewrite app_assoc. split; [apply entry_of_child; exact Hr|].
  intros H. apply app_eq_nil in H as [_ H]. discriminate H.
Qed.

(** ** The rows of a CSV report *)

Lemma dict_to_list_fits (keys : list string) (r : record) :
  fits keys r -> dict_to_list keys r = inl (map (fun key => dict_get key r) keys).
Proof.
  intros H. unfold dict_to_list.
  assert (Hall : forallb (fun kv => bool_decide (kv.1 ∈ keys)) r = true).
  { apply forallb_forall. intros kv Hin. apply bool_decide_eq_true_2.
    unfold fits in H. rewrite Forall_forall in H. apply H.
    apply list_elem_of_In. exact Hin. }
  rewrite Hall. reflexivity.
Qed.

Lemma dict_to_list_foreign (keys : list string) (r : record) :
  ~ fits keys r -> exists msg, dict_to_list keys r = inr (ValueError msg).
Proof.
  intros H. unfold dict_to_list.
  destruct (forallb (fun kv => bool_decide (kv.1 ∈ keys)) r) eqn:Hall;
    [|eexists; reflexivity].
  exfalso. apply H. unfold fits. apply Forall_forall. intros kv Hin.
  rewrite forallb_forall in Hall.
  apply (bool_decide_eq_true_1 _ (Hall kv (proj1 (list_elem_of_In _ _) Hin))).
Qed.

Lemma csv_rows_fits (keys : list string) (rows : list record) :
  Forall (fits keys) rows -> csv_rows keys rows = (csv_lines keys rows, None).
Proof.
  induction 1 as [|r rows Hr _ IH]; [reflexivity|].
  cbn [csv_rows csv_lines foldr]. rewrite (dict_to_list_fits _ _ Hr).
  fold (csv_lines keys rows). rewrite IH. reflexivity.
Qed.

Lemma csv_rows_foreign (keys : list string) (good : list record) (bad : record)
    (rest : list record) :
  Forall (fits keys) good -> ~ fits keys bad ->
  exists msg, csv_rows keys (good ++ bad :: rest)
              = (csv_lines keys good, Some (ValueError msg)).
Proof.
  intros Hg Hb. destruct (dict_to_list_foreign keys bad Hb) as [msg Hmsg].
  exists msg. induction Hg as [|r rows Hr _ IH].
  - cbn [app csv_rows csv_lines foldr]. rewrite Hmsg. reflexivity.
  - cbn [app csv_rows csv_lines foldr]. rewrite (dict_to_list_fits _ _ Hr).
    fold (csv_lines keys rows). rewrite IH. reflexivity.
Qed.

Lemma fits_self (r : record) : fits (map fst r) r.
Proof.
  unfold fits. apply Forall_forall. intros kv Hin.
  apply list_elem_of_fmap. exists kv. split; [reflexivity|exact Hin].
Qed.

Lemma dict_get_cons (key k v : string) (r : record) :
  dict_get key ((k, v) :: r) = if decide (k = key) then v else dict_get key r.
Proof.
  unfold dict_get. cbn [list_find fst snd].
  destruct (decide (k = key)); [reflexivity|].
  destruct (list_find (fun kv => kv.1 = key) r) as [[i kv]|]; reflexivity.
Qed.

Lemma dict_get_absent (key : string) (r : record) :
  key ∉ map fst r -> dict_get key r = EmptyString.
Proof.
  induction r as [|[k v] r IH]; intros H; [reflexivity|].
  rewrite dict_get_cons. cbn [map fst] in H.
  apply not_elem_of_cons in H as [Hne Hr].
  destruct (decide (k = key)) as [->|_]; [contradiction|]. apply IH. exact Hr.
Qed.

Lemma dict_get_present (key v : string) (r : record) :
  NoDup (map fst r) -> (key, v) ∈ r -> dict_get key r = v.
Proof.
  induction r as [|[k u] r IH]; intros Hnd Hin.
  - apply elem_of_nil in Hin. contradiction.
  - rewrite dict_get_cons. cbn [map fst] in Hnd.
    apply NoDup_cons in Hnd as [Hk Hnd].
    apply elem_of_cons in Hin as [Heq|Hin].
    + injection Heq as -> ->. rewrite decide_True by reflexivity. reflexivity.
    + destruct (decide (k = key)) as [->|_]; [|exact (IH Hnd Hin)].
      exfalso. apply Hk. apply list_elem_of_fmap. exists (key, v).
      split; [reflexivity|exact Hin].
Qed.

(** ** The report helpers *)

(** X12. Once [generate_filename] has returned, the name it gave is
    [reports/<prefix>_<time stamp>], [reports] exists in the working
    directory and nothing that was there before has changed.  A later call
    from the same working directory, at whatever time and with whatever
    prefix, creates nothing and returns the name made of its own prefix and
    time stamp. *)
Theorem X12_generate_filename_settles (E : env) (prefix name : string) (w : world) :
  result_of (generate_filename E prefix w) = Ok name ->
  let w' := world_of (generate_filename E prefix w) in
  name = "reports/" +:+ prefix +:+ "_" +:+ timestamp E /\
  path_exists (fs w') (pjoin (cwd E) "reports") = true /\
  fs w ⊆ fs w' /\
  forall (E' : env) (prefix' : string),
    cwd E' = cwd E ->
    generate_filename E' prefix' w'
    = (Ok ("reports/" +:+ prefix' +:+ "_" +:+ timestamp E'), w', []).
Proof.
  intros Hres w'.
  assert (Hp : pjoin (cwd E) "reports" = cwd E ++ ["reports"]) by reflexivity.
  assert (Hmain : name = "reports/" +:+ prefix +:+ "_" +:+ timestamp E /\
                  path_exists (fs w') (pjoin (cwd E) "reports") = true /\
                  fs w ⊆ fs w').
  { subst w'. revert Hres. rewrite generate_filename_eq. cbv zeta.
    destruct (path_exists (fs w) (pjoin (cwd E) "reports")) eqn:Hex.
    - unfold result_of, world_of. cbn [fst snd]. intros [= <-].
      split; [reflexivity|]. split; [exact Hex|reflexivity].
    - destruct (os_mkdir_cases E (pjoin (cwd E) "reports") w)
        as [[e He]|(k & Hk & Hnone & _ & He)]; rewrite He;
        unfold result_of, world_of; cbn [fst snd]; [intros [=]|].
      intros [= <-]. split; [reflexivity|].
      unfold set_fs. cbn [fs].
      assert (Hsub : fs w ⊆ <[k := Dir]> (fs w)) by (apply insert_subseteq; exact Hnone).
      split; [|exact Hsub].
      rewrite Hp in Hk |- *. unfold entry_of in Hk. rewrite unsnoc_snoc in Hk.
      destruct (stat (fs w) (cwd E)) as [[rp [d| |t]]|] eqn:Hs; try discriminate Hk.
      injection Hk as <-.
      unfold path_exists.
      rewrite (stat_snoc _ (cwd E) rp "reports" Dir (stat_mono _ _ _ _ Hsub Hs));
        [reflexivity|apply lookup_insert_eq|discriminate]. }
  destruct Hmain as (Hname & Hex & Hsub).
  split; [exact Hname|]. split; [exact Hex|]. split; [exact Hsub|].
  intros E' prefix' Hcwd.
  rewrite generate_filename_eq. cbv zeta. rewrite Hcwd, Hex. reflexivity.
Qed.

Lemma X12_generate_filename_settles_witness :
  let E := dangling_reports_env in
  let w := bare_project_world in
  let w' := world_of (generate_filename E "scan" w) in
  result_of (generate_filename E "scan" w) = Ok "reports/scan_20240101_120000" /\
  fs w' !! ["proj"; "reports"] = Some Dir /\
  generate_filename later_reports_env "report" w'
  = (Ok "reports/report_20240101_120001", w', []).
Proof.
  intros E w w'.
  assert (Hr : result_of (generate_filename E "scan" w) = Ok "reports/scan_20240101_120000")
    by (vm_compute; reflexivity).
  split; [exact Hr|]. split; [vm_compute; reflexivity|].
  exact (proj2 (proj2 (proj2 (X12_generate_filename_settles E "scan" _ w Hr)))
           later_reports_env "report" eq_refl).
Defined.

(** X13. With [reports] a directory of the working directory and the file
    name free and not refused, [save_report_csv] on records
    whose columns are all among those of the first one returns normally,
    prints the "saved" notice with the file's name, and leaves exactly one
    change: the file [reports/report_<time stamp>.csv] holds the header
    made of the first record's columns followed by one line per record,
    the first included, in order. *)
Theorem X13_save_report_csv_writes (E : env) (w : world) (first : record)
    (rest : list record) :
  real_dir (fs w) (cwd E ++ ["reports"]) = true ->
  contains_char "/" (timestamp E) = false ->
  writable E (fs w) (report_file E ".csv") ->
  Forall (fits (map fst first)) rest ->
  save_report_csv E (first :: rest) w =
  (Ok tt,
   set_fs w (<[report_file E ".csv" :=
                 File (csv_row (map fst first)
                       +:+ csv_lines (map fst first) (first :: rest))]> (fs w)),
   [csv_saved_notice E]).
Proof.
  intros Hr Ht Hw Hfit. unfold save_report_csv. unfold bind at 1.
  rewrite (generate_filename_there E "report" w Hr). cbv beta iota.
  rewrite (csv_rows_fits (map fst first) (first :: rest))
    by (constructor; [apply fits_self|exact Hfit]).
  rewrite (report_path E ".csv" Ht) by reflexivity.
  destruct (report_entry E ".csv" w Hr) as [He Hne].
  unfold bind. rewrite (write_file_ok E _ _ _ None w He Hne Hw).
  reflexivity.
Qed.

Lemma X13_save_report_csv_writes_witness :
  let E := dangling_reports_env in
  let w := reports_world in
  real_dir (fs w) (cwd E ++ ["reports"]) = true /\
  contains_char "/" (timestamp E) = false /\
  writable E (fs w) (report_file E ".csv") /\
  Forall (fits (map fst scan_a)) [scan_b] /\
  result_of (save_report_csv E [scan_a; scan_b] w) = Ok tt /\
  fs (world_of (save_report_csv E [scan_a; scan_b] w))
    !! ["proj"; "reports"; "report_20240101_120000.csv"]
  = Some (File ("host,port" +:+ crlf +:+ "10.0.0.1,22" +:+ crlf
                +:+ "10.0.0.2," +:+ dq +:+ "80,443" +:+ dq +:+ crlf)).
Proof.
  intros E w.
  assert (Hr : real_dir (fs w) (cwd E ++ ["reports"]) = true) by (vm_compute; reflexivity).
  assert (Ht : contains_char "/" (timestamp E) = false) by (vm_compute; reflexivity).
  assert (Hw : writable E (fs w) (report_file E ".csv")) by by_compute.
  assert (Hf : Forall (fits (map fst scan_a)) [scan_b]).
  { repeat constructor; by_compute. }
  split; [exact Hr|]. split; [exact Ht|]. split; [exact Hw|]. split; [exact Hf|].
  rewrite (X13_save_report_csv_writes E w scan_a [scan_b] Hr Ht Hw Hf).
  split; vm_compute; reflexivity.
Defined.

(** X14. A record with a column that the first record does not have stops
    the writer with [ValueError] -- after the file has been created.  The
    file is left behind holding the header and the lines of the records
    before the offending one, and no "saved" notice is printed. *)
Theorem X14_save_report_csv_foreign_column (E : env) (w : world) (first bad : record)
    (good rest : list record) :
  real_dir (fs w) (cwd E ++ ["reports"]) = true ->
  contains_char "/" (timestamp E) = false ->
  writable E (fs w) (report_file E ".csv") ->
  Forall (fits (map fst first)) good ->
  ~ fits (map fst first) bad ->
  exists msg,
    save_report_csv E (first :: good ++ bad :: rest) w =
    (Raise (ValueError msg),
     set_fs w (<[report_file E ".csv" :=
                   File (csv_row (map fst first)
                         +:+ csv_lines (map fst first) (first :: good))]> (fs w)),
     []).
Proof.
  intros Hr Ht Hw Hfit Hbad.
  destruct (csv_rows_foreign (map fst first) (first :: good) bad rest) as [msg Hrows];
    [constructor; [apply fits_self|exact Hfit]|exact Hbad|].
  exists msg. unfold save_report_csv. unfold bind at 1.
  rewrite (generate_filename_there E "report" w Hr). cbv beta iota.
  change (first :: good ++ bad :: rest) with ((first :: good) ++ bad :: rest).
  rewrite Hrows.
  rewrite (report_path E ".csv" Ht) by reflexivity.
  destruct (report_entry E ".csv" w Hr) as [He Hne].
  unfold bind. rewrite (write_file_ok E _ _ _ _ w He Hne Hw).
  reflexivity.
Qed.

Lemma X14_save_report_csv_foreign_column_witness :
  let E := dangling_reports_env in
  let w := reports_world in
  let r := save_report_csv E [scan_a; scan_b; scan_odd; scan_a] w in
  ~ fits (map fst scan_a) scan_odd /\
  (exists msg, result_of r = Raise (ValueError msg)) /\
  trace_of r = [] /\
  fs (world_of r) !! ["proj"; "reports"; "report_20240101_120000.csv"]
  = Some (File ("host,port" +:+ crlf +:+ "10.0.0.1,22" +:+ crlf
                +:+ "10.0.0.2," +:+ dq +:+ "80,443" +:+ dq +:+ crlf)).
Proof.
  intros E w r.
  assert (Hr : real_dir (fs w) (cwd E ++ ["reports"]) = true) by (vm_compute; reflexivity).
  assert (Ht : contains_char "/" (timestamp E) = false) by (vm_compute; reflexivity).
  assert (Hw : writable E (fs w) (report_file E ".csv")) by by_compute.
  assert (Hf : Forall (fits (map fst scan_a)) [scan_b]).
  { repeat constructor; by_compute. }
  assert (Hb : ~ fits (map fst scan_a) scan_odd) by by_compute.
  destruct (X14_save_report_csv_foreign_column E w scan_a scan_odd [scan_b] [scan_a]
              Hr Ht Hw Hf Hb) as [msg Hrun].
  split; [exact Hb|]. subst r. cbn [app] in Hrun. rewrite Hrun.
  split; [exists msg; reflexivity|]. split; vm_compute; reflexivity.
Defined.

(** X15. Under the same conditions on [reports] and on the file name,
    [save_report_md] returns normally for every dictionary, the empty one
    included: the file [reports/report_<time stamp>.md] holds the title
    line, the date line, the section heading and one bullet per item in
    insertion order; the "saved" notice names the file; nothing else
    changes. *)
Theorem X15_save_report_md_writes (E : env) (now title : string) (data : record)
    (w : world) :
  real_dir (fs w) (cwd E ++ ["reports"]) = true ->
  contains_char "/" (timestamp E) = false ->
  writable E (fs w) (report_file E ".md") ->
  save_report_md E now data title w =
  (Ok tt,
   set_fs w (<[report_file E ".md" := File (md_text title now data)]> (fs w)),
   [md_saved_notice E]).
Proof.
  intros Hr Ht Hw. unfold save_report_md. unfold bind at 1.
  rewrite (generate_filename_there E "report" w Hr). cbv beta iota.
  rewrite (report_path E ".md" Ht) by reflexivity.
  destruct (report_entry E ".md" w Hr) as [He Hne].
  unfold bind. rewrite (write_file_ok E _ _ _ None w He Hne Hw).
  reflexivity.
Qed.

Lemma X15_save_report_md_writes_witness :
  let E := dangling_reports_env in
  let w := reports_world in
  let r := save_report_md E "2024-01-01 12:00:00.000001" [] "SentinelX Security Report" w in
  real_dir (fs w) (cwd E ++ ["reports"]) = true /\
  contains_char "/" (timestamp E) = false /\
  writable E (fs w) (report_file E ".md") /\
  result_of r = Ok tt /\
  fs (world_of r) !! ["proj"; "reports"; "report_20240101_120000.md"]
  = Some (File ("# SentinelX Security Report" +:+ nl
                +:+ "**Date:** 2024-01-01 12:00:00.000001" +:+ nl +:+ nl
                +:+ "## Execution Summary" +:+ nl)).
Proof.
  intros E w r.
  assert (Hr : real_dir (fs w) (cwd E ++ ["reports"]) = true) by (vm_compute; reflexivity).
  assert (Ht : contains_char "/" (timestamp E) = false) by (vm_compute; reflexivity).
  assert (Hw : writable E (fs w) (report_file E ".md")) by by_compute.
  split; [exact Hr|]. split; [exact Ht|]. split; [exact Hw|].
  subst r. rewrite (X15_save_report_md_writes E _ _ _ w Hr Ht Hw).
  split; vm_compute; reflexivity.
Defined.

(** X16. Header and first line agree: for a dictionary (no column named
    twice) the line written for the first record is its values in insertion
    order, one under each column of the header. *)
Theorem X16_first_record_line (r : record) :
  NoDup (map fst r) ->
  dict_to_list (map fst r) r = inl (map snd r) /\
  csv_line (map fst r) r = csv_row (map snd r).
Proof.
  intros Hnd.
  assert (Hval : map (fun key => dict_get key r) (map fst r) = map snd r).
  { rewrite map_map. apply map_ext_in. intros [k v] Hin. cbn [fst snd].
    apply (dict_get_present k v r Hnd). apply list_elem_of_In. exact Hin. }
  split.
  - rewrite (dict_to_list_fits _ _ (fits_self r)). rewrite Hval. reflexivity.
  - unfold csv_line. rewrite Hval. reflexivity.
Qed.

Lemma X16_first_record_line_witness :
  NoDup (map fst scan_b) /\
  csv_line (map fst scan_b) scan_b
  = "10.0.0.2," +:+ dq +:+ "80,443" +:+ dq +:+ crlf.
Proof.
  assert (Hnd : NoDup (map fst scan_b)) by by_compute.
  split; [exact Hnd|].
  rewrite (proj2 (X16_first_record_line scan_b Hnd)). vm_compute. reflexivity.
Defined.

(** X17. A record that lacks one of the columns is not an error: it fits,
    and its line has the empty field in that column. *)
Theorem X17_missing_column_is_empty (keys : list string) (r : record) (key : string)
    (i : nat) :
  fits keys r ->
  keys !! i = Some key ->
  key ∉ map fst r ->
  exists fields, dict_to_list keys r = inl fields /\
                 List.length fields = List.length keys /\
                 fields !! i = Some EmptyString.
Proof.
  intros Hfit Hi Hkey. exists (map (fun key => dict_get key r) keys).
  split; [apply dict_to_list_fits; exact Hfit|].
  split; [apply length_map|].
  change (map (fun key => dict_get key r) keys) with ((fun key => dict_get key r) <$> keys).
  rewrite list_lookup_fmap, Hi. cbn [fmap option_fmap option_map].
  rewrite (dict_get_absent key r Hkey). reflexivity.
Qed.

Lemma X17_missing_column_is_empty_witness :
  fits ["host"; "port"; "banner"] scan_a /\
  ("banner" ∉ map fst scan_a) /\
  (exists fields, dict_to_list ["host"; "port"; "banner"] scan_a = inl fields /\
                  List.length fields = 3 /\
                  fields !! 2 = Some EmptyString).
Proof.
  assert (Hf : fits ["host"; "port"; "banner"] scan_a) by by_compute.
  assert (Hk : "banner" ∉ map fst scan_a) by by_compute.
  split; [exact Hf|]. split; [exact Hk|].
  exact (X17_missing_column_is_empty ["host"; "port"; "banner"] scan_a "banner" 2
           Hf eq_refl Hk).
Defined.
